(** * Jamf Bedrock agent: Slack gateway, session keeper and tool bridge

    A shallow embedding of [lambda/slack_handler.py] and
    [agent/jamf_inline_agent.py], and the properties of the bridging logic
    that the specification states about them.

    Conventions of the embedding.
    - A Python [str] is a [string] holding its UTF-8 bytes, so that
      [str.encode()] is the identity, literals are the bytes of the source
      file, and "contains a non-ASCII character" is "contains a byte above
      127".
    - Dynamically typed values (events, JSON documents, responses of the
      external services) are [pyval]s.
    - A computation that may raise returns a [res], which tells an
      exception that [except Exception] catches from one that it lets
      through; a computation that also talks to the outside world is a
      state transformer over [world], whose [trace] records every external
      call in program order.
    - A [float] is a double: a mantissa and an exponent, with rounding to
      the nearest double written out.
    - Library functions that the code calls but does not define
      (HMAC-SHA256, the JSON codec, [parse_qs], [repr]) and the answers of
      the external services are variables of the section. *)

From stdpp Require Import base list strings gmap.
From Stdlib Require Import ZArith QArith Qabs Lia Ascii String DecimalString.

Open Scope string_scope.
Open Scope Z_scope.

(** ** Exceptions and results *)

(** An exception is its class name and [str(e)]. *)
Record exn := Exn { exn_class : string; exn_str : string }.

(** An exception in flight is of a class that derives from [Exception],
    or of one that derives from [BaseException] only
    ([asyncio.CancelledError], [KeyboardInterrupt], [SystemExit],
    [GeneratorExit]): [except Exception] catches the former and lets the
    latter through. *)
Inductive raised :=
| Exception (e : exn)
| BaseException (e : exn).

(** How a computation ends: with a value, with an exception that
    [except Exception] catches, or with one that it does not catch. *)
Inductive res (A : Type) : Type :=
| Ok (a : A)
| Raise (e : exn)
| Abort (e : exn).
Arguments Ok {A} a.
Arguments Raise {A} e.
Arguments Abort {A} e.

Definition throw {A} (r : raised) : res A :=
  match r with
  | Exception e => Raise e
  | BaseException e => Abort e
  end.

Definition res_bind {A B} (r : res A) (k : A -> res B) : res B :=
  match r with
  | Ok a => k a
  | Raise e => Raise e
  | Abort e => Abort e
  end.

(** ** Python values *)

#[warnings="-register-all"]
Inductive pyval :=
| PNone
| PBool (b : bool)
| PInt (z : Z)
| PStr (s : string)
| PList (l : list pyval)
| PDict (d : list (string * pyval)).

(** [type(v).__name__] *)
Definition type_name (v : pyval) : string :=
  match v with
  | PNone => "NoneType"
  | PBool _ => "bool"
  | PInt _ => "int"
  | PStr _ => "str"
  | PList _ => "list"
  | PDict _ => "dict"
  end.

(** [bool(v)] *)
Definition truthy (v : pyval) : bool :=
  match v with
  | PNone => false
  | PBool b => b
  | PInt z => negb (z =? 0)
  | PStr s => negb (String.eqb s "")
  | PList l => match l with [] => false | _ => true end
  | PDict d => match d with [] => false | _ => true end
  end.

(** [v == 'literal'] *)
Definition py_eq_str (v : pyval) (s : string) : bool :=
  match v with
  | PStr t => String.eqb t s
  | _ => false
  end.

(** Dictionaries keep insertion order; keys are unique. *)
Fixpoint dict_get {V} (d : list (string * V)) (k : string) : option V :=
  match d with
  | [] => None
  | (k', v) :: d' => if String.eqb k' k then Some v else dict_get d' k
  end.

(** [d[k] = v]: overwrite in place, or append a new key at the end. *)
Fixpoint dict_set {V} (d : list (string * V)) (k : string) (v : V)
  : list (string * V) :=
  match d with
  | [] => [(k, v)]
  | (k', v') :: d' =>
      if String.eqb k' k then (k', v) :: d' else (k', v') :: dict_set d' k v
  end.

Definition dict_keys {V} (d : list (string * V)) : list string := map fst d.

Definition attribute_error (v : pyval) (attr : string) : exn :=
  Exn "AttributeError"
      ("'" ++ type_name v ++ "' object has no attribute '" ++ attr ++ "'").

(** [v.get(k, default)] *)
Definition py_get (v : pyval) (k : string) (default : pyval) : res pyval :=
  match v with
  | PDict d => Ok (match dict_get d k with Some x => x | None => default end)
  | _ => Raise (attribute_error v "get")
  end.

(** [v[k]] for a string key *)
Definition py_getitem (v : pyval) (k : string) : res pyval :=
  match v with
  | PDict d =>
      match dict_get d k with
      | Some x => Ok x
      | None => Raise (Exn "KeyError" ("'" ++ k ++ "'"))
      end
  | PStr _ => Raise (Exn "TypeError" "string indices must be integers, not 'str'")
  | PList _ =>
      Raise (Exn "TypeError" "list indices must be integers or slices, not str")
  | _ => Raise (Exn "TypeError"
                  ("'" ++ type_name v ++ "' object is not subscriptable"))
  end.

(** ** Strings *)

(** [needle in s]: substring test. *)
Definition str_contains (needle s : string) : bool :=
  existsb (fun i => String.eqb (substring i (String.length needle) s) needle)
          (seq 0 (S (String.length s))).

(** [k in v] for a string [k]: key of a dict, element of a list, substring
    of a string. *)
Definition py_in (k : string) (v : pyval) : res bool :=
  match v with
  | PDict d => Ok (match dict_get d k with Some _ => true | None => false end)
  | PList l => Ok (existsb (fun x => py_eq_str x k) l)
  | PStr s => Ok (str_contains k s)
  | _ => Raise (Exn "TypeError"
                  ("argument of type '" ++ type_name v ++ "' is not iterable"))
  end.

Definition code (c : ascii) : N := N_of_ascii c.

(** [s.isascii()] *)
Definition is_ascii (s : string) : bool :=
  forallb (fun c => (code c <? 128)%N) (list_ascii_of_string s).

(** The code points for which [str.isspace()] holds, as UTF-8 byte
    sequences: U+0009..U+000D, U+001C..U+0020, U+0085, U+00A0, U+1680,
    U+2000..U+200A, U+2028, U+2029, U+202F, U+205F, U+3000. *)
Definition whitespace_codes : list (list N) :=
  [[9]; [10]; [11]; [12]; [13]; [28]; [29]; [30]; [31]; [32];
   [194; 133]; [194; 160]; [225; 154; 128];
   [226; 128; 128]; [226; 128; 129]; [226; 128; 130]; [226; 128; 131];
   [226; 128; 132]; [226; 128; 133]; [226; 128; 134]; [226; 128; 135];
   [226; 128; 136]; [226; 128; 137]; [226; 128; 138];
   [226; 128; 168]; [226; 128; 169]; [226; 128; 175]; [226; 129; 159];
   [227; 128; 128]]%N.

Fixpoint drop_prefix (p l : list N) : option (list N) :=
  match p, l with
  | [], _ => Some l
  | a :: p', b :: l' => if (a =? b)%N then drop_prefix p' l' else None
  | _ :: _, [] => None
  end.

(** Remove one leading whitespace character, if there is one. *)
Definition drop_space (seqs : list (list N)) (l : list N) : option (list N) :=
  fold_right (fun p acc => match drop_prefix p l with
                           | Some r => Some r
                           | None => acc
                           end) None seqs.

Fixpoint lstrip_codes (fuel : nat) (seqs : list (list N)) (l : list N)
  : list N :=
  match fuel with
  | O => l
  | S f => match drop_space seqs l with
           | Some r => lstrip_codes f seqs r
           | None => l
           end
  end.

Definition codes_of (s : string) : list N := map code (list_ascii_of_string s).
Definition str_of_codes (l : list N) : string :=
  string_of_list_ascii (map ascii_of_N l).

(** [s.strip()]: the trailing side is stripped on the reversed bytes with
    the reversed byte sequences (a UTF-8 lead byte always starts a
    character, so a suffix that spells a character is that character). *)
Definition strip (s : string) : string :=
  let l := codes_of s in
  let l1 := lstrip_codes (List.length l) whitespace_codes l in
  let r1 := lstrip_codes (List.length l1) (map (@rev N) whitespace_codes) (rev l1) in
  str_of_codes (rev r1).

(** [s.lower()] on the ASCII letters. Other code points are left as they
    are: no code point outside ASCII lowercases to an ASCII letter other
    than [k] (the Kelvin sign) or [i] followed by a combining dot, so the
    comparison of a lowered string with the literal ['help'] is decided
    exactly as by Python. *)
Definition lower_char (c : ascii) : ascii :=
  let n := code c in
  if ((65 <=? n) && (n <=? 90))%N then ascii_of_N (n + 32) else c.

Definition lower (s : string) : string :=
  string_of_list_ascii (map lower_char (list_ascii_of_string s)).

(** [s.replace(old, new)] for a non-empty [old]: leftmost, non-overlapping
    occurrences. *)
Fixpoint replace_codes (fuel : nat) (old new l : list N) : list N :=
  match fuel with
  | O => l
  | S f =>
      match l with
      | [] => []
      | c :: l' =>
          match drop_prefix old l with
          | Some r => new ++ replace_codes f old new r
          | None => c :: replace_codes f old new l'
          end
      end
  end.

Definition str_replace (s old new : string) : string :=
  let l := codes_of s in
  str_of_codes (replace_codes (S (List.length l)) (codes_of old) (codes_of new) l).

(** [''.join(parts)] *)
Definition str_concat (parts : list string) : string :=
  fold_right String.append "" parts.

(** ** Doubles

    A finite double is [mantissa * 2 ^ exponent] with a mantissa of at most
    53 bits and an exponent from -1074 on; the arithmetic of the code
    ([int] to [float], a subtraction, [abs], a comparison with [300]) is
    exact arithmetic on such numbers followed by rounding to the nearest
    double, ties to the even mantissa. *)

Record double := Double { mantissa : Z; exponent : Z }.

(** The number of bits of [m]. *)
Definition bit_length (m : Z) : Z :=
  if m =? 0 then 0 else Z.log2 (Z.abs m) + 1.

(** [m * 2 ^ e] rounded to a double: the [s] low bits of the mantissa are
    dropped, [s] being what brings it to 53 bits and the exponent to -1074
    at least. *)
Definition round_to_double (m e : Z) : double :=
  let s := Z.max (bit_length m - 53) (- 1074 - e) in
  if s <=? 0 then Double m e
  else
    let q := Z.abs m / 2 ^ s in
    let r := Z.abs m mod 2 ^ s in
    let half := 2 ^ (s - 1) in
    let q' := if r <? half then q
              else if half <? r then q + 1
              else if Z.even q then q else q + 1 in
    Double (Z.sgn m * q') (e + s).

(** [2 ^ k <= |d|] *)
Definition double_at_least_pow2 (k : Z) (d : double) : bool :=
  if 0 <=? exponent d
  then 2 ^ k <=? Z.abs (mantissa d) * 2 ^ exponent d
  else 2 ^ (k - exponent d) <=? Z.abs (mantissa d).

(** [n < |d|] for an integer [n] *)
Definition double_abs_gt (d : double) (n : Z) : bool :=
  if 0 <=? exponent d
  then n <? Z.abs (mantissa d) * 2 ^ exponent d
  else n * 2 ^ (- exponent d) <? Z.abs (mantissa d).

(** [a - b]: [None] is an infinite result. *)
Definition double_sub (a b : double) : option double :=
  let e := Z.min (exponent a) (exponent b) in
  let m := mantissa a * 2 ^ (exponent a - e) - mantissa b * 2 ^ (exponent b - e) in
  let d := round_to_double m e in
  if double_at_least_pow2 1024 d then None else Some d.

(** ** The runtime: library functions and external services

    What the code calls but does not define. The answers of an external
    service are given per call, by the position of the call among the calls
    to that service, so any deterministic or history-dependent service is an
    instance. *)

Record tool := Tool { tool_name_of : string; tool_description : pyval }.

Record runtime := Runtime {
  (* libraries *)
  hmac_sha256_hexdigest : string -> string -> string;  (* key, message *)
  json_loads : pyval -> res pyval;
  json_dumps : pyval -> string;
  parse_qs : pyval -> res (list (string * list string));
  py_repr : pyval -> string;
  int_max_str_digits : nat;            (* sys.get_int_max_str_digits() *)
  (* unicodedata: the value of a decimal digit, for a code point from 128 on *)
  unicode_decimal : N -> option N;
  (* process environment and clocks *)
  environ : gmap string string;
  time_time : double;                  (* time.time() *)
  utcnow_isoformat : nat -> string;    (* datetime.utcnow().isoformat() *)
  now_isoformat : nat -> string;       (* datetime.now().isoformat() *)
  (* DynamoDB: the k-th call fails with the given exception *)
  store_fault : nat -> option exn;
  (* Slack Web API: the k-th call raises, or returns its response data *)
  slack_reply : nat -> res (list (string * pyval));
  (* MCP tool provider: starting it ([stdio_client(...)] entered), the
     handshake ([session.initialize()]), and what a request raises on a
     session that has been closed *)
  stdio_open : res unit;
  session_initialize : res unit;
  closed_session_error : exn;
  (* agent runtime *)
  agent_invoke : pyval -> pyval -> res pyval;
  (* the chunks of the stream, and the exception that ends it, if any *)
  agent_invoke_stream : pyval -> pyval -> list pyval * option raised;
  (* asyncio: is the handler called from inside a running event loop?
     and, when it is not, what [asyncio.get_event_loop()] raises, if it
     raises: there may be no current loop to return (in a thread other than
     the main one, after [asyncio.run], from Python 3.14 on) *)
  loop_running : bool;
  no_current_loop : option exn
}.

(** External calls, in the order the program makes them. *)
Inductive effect :=
| ELog (level msg : string)
| EGetItem (session_id : string)
| EUpdateItem (session_id last_accessed : string)
| EPutItem (session_id : string) (user_id channel_id : pyval)
           (created_at last_accessed : string)
| EPostMessage (channel text : pyval) (blocks : option pyval)
| EChatUpdate (channel ts text : pyval)
| EStdioConnect
| ESessionInitialize
| EStdioClose
| EListTools
| ECallTool (name : string) (kwargs : pyval)
| ECreateAgents
| EAgentInvoke (prompt session_id : pyval)
| EAgentInvokeStream (prompt session_id : pyval)
| ECreateTask (event_data : pyval).

Record session_item := SessionItem {
  item_user_id : pyval;
  item_channel_id : pyval;
  item_created_at : string;
  item_last_accessed : string
}.

(** [JamfMCPActionGroup]: [mcp_session] is [None] or a session object;
    [available_tools] is a dict in insertion order. *)
Record JamfMCPActionGroup := ActionGroup {
  mcp_server_url : string;
  mcp_session : bool;
  available_tools : list (string * tool)
}.

(** [JamfAgentSystem]: [agents] is empty or the dict built by
    [create_jamf_agents]. *)
Record JamfAgentSystem := AgentSystem {
  agents : bool;
  mcp_action_group : option JamfMCPActionGroup;
  initialized : bool
}.

(** The state of the process and of the session table. [cells] holds the
    closure cells: a variable of an enclosing function that an inner
    function refers to lives in a cell, and every closure created in that
    call holds a reference to the same cell. *)
Record world := World {
  sessions_table : gmap string session_item;
  store_calls : nat;
  slack_calls : nat;
  clock_reads : nat;
  agent_system : JamfAgentSystem;
  cells : list (option string);
  trace : list effect
}.

(** ** The monad of effectful code *)

Definition M (A : Type) : Type := world -> res A * world.

Definition ret {A} (a : A) : M A := fun w => (Ok a, w).
Definition raise {A} (e : exn) : M A := fun w => (Raise e, w).
Definition bind {A B} (m : M A) (k : A -> M B) : M B :=
  fun w => match m w with
           | (Ok a, w') => k a w'
           | (Raise e, w') => (Raise e, w')
           | (Abort e, w') => (Abort e, w')
           end.
Definition lift {A} (r : res A) : M A := fun w => (r, w).

(** [try: m except Exception as e: h e]. An exception that does not
    derive from [Exception] passes through. *)
Definition try_except {A} (m : M A) (h : exn -> M A) : M A :=
  fun w => match m w with
           | (Ok a, w') => (Ok a, w')
           | (Raise e, w') => h e w'
           | (Abort e, w') => (Abort e, w')
           end.

(** [async with ...: m]: the exit [close] runs however [m] ends, and what
    it raises replaces the outcome of [m]. *)
Definition closing {A} (m : M A) (close : M unit) : M A :=
  fun w => match m w with
           | (r, w') =>
               match close w' with
               | (Ok _, w'') => (r, w'')
               | (Raise e, w'') => (Raise e, w'')
               | (Abort e, w'') => (Abort e, w'')
               end
           end.

Notation "'let*' x := m 'in' k" := (bind m (fun x => k))
  (at level 10, x name, m at level 100, k at level 200).
Notation "m ;; k" := (bind m (fun _ => k))
  (at level 100, k at level 200, right associativity).

Definition get_world : M world := fun w => (Ok w, w).

Definition set_sessions_table (t : gmap string session_item) : M unit :=
  fun w => (Ok tt, World t (store_calls w) (slack_calls w) (clock_reads w)
                         (agent_system w) (cells w) (trace w)).
Definition set_store_calls (n : nat) : M unit :=
  fun w => (Ok tt, World (sessions_table w) n (slack_calls w) (clock_reads w)
                         (agent_system w) (cells w) (trace w)).
Definition set_slack_calls (n : nat) : M unit :=
  fun w => (Ok tt, World (sessions_table w) (store_calls w) n (clock_reads w)
                         (agent_system w) (cells w) (trace w)).
Definition set_clock_reads (n : nat) : M unit :=
  fun w => (Ok tt, World (sessions_table w) (store_calls w) (slack_calls w) n
                         (agent_system w) (cells w) (trace w)).
Definition set_agent_system (a : JamfAgentSystem) : M unit :=
  fun w => (Ok tt, World (sessions_table w) (store_calls w) (slack_calls w)
                         (clock_reads w) a (cells w) (trace w)).
Definition set_cells (c : list (option string)) : M unit :=
  fun w => (Ok tt, World (sessions_table w) (store_calls w) (slack_calls w)
                         (clock_reads w) (agent_system w) c (trace w)).
Definition emit (e : effect) : M unit :=
  fun w => (Ok tt, World (sessions_table w) (store_calls w) (slack_calls w)
                         (clock_reads w) (agent_system w) (cells w)
                         (trace w ++ [e])).

Definition logger (level msg : string) : M unit := emit (ELog level msg).

Definition initial_world : world :=
  World ∅ 0 0 0 (AgentSystem false None false) [] [].

(** ** The message texts of [slack_handler.py], byte for byte *)

Definition nl : string := String (ascii_of_N 10) "".
Definition dq : string := String (ascii_of_N 34) "".

(** The reply to [/jamf] with no text. *)
Definition usage_text : string :=
  "ðŸ‘‹ Hi! I'm your Jamf assistant. Here's how to use me:" ++
  nl ++
  nl ++
  "â€¢ `/jamf find devices in conference room` - Search for devices" ++
  nl ++
  "â€¢ `/jamf show device ABC123` - Get device details" ++
  nl ++
  "â€¢ `/jamf update inventory for device 42` - Force inventory update" ++
  nl ++
  "â€¢ `/jamf help` - Show this help message" ++
  nl ++
  nl ++
  "I can help you manage Apple devices through natural language!".

(** The reply to [/jamf help]. *)
Definition help_text : string :=
  "ðŸ”§ *Jamf Assistant Commands*" ++
  nl ++
  nl ++
  "*Device Search:*" ++
  nl ++
  "â€¢ Find devices by name, serial, user, or location" ++
  nl ++
  "â€¢ Example: `/jamf find MacBooks in engineering`" ++
  nl ++
  nl ++
  "*Device Details:*" ++
  nl ++
  "â€¢ Get detailed information about a device" ++
  nl ++
  "â€¢ Example: `/jamf show details for serial ABC123`" ++
  nl ++
  nl ++
  "*Device Management:*" ++
  nl ++
  "â€¢ Update inventory: `/jamf update inventory for device 42`" ++
  nl ++
  "â€¢ Execute policies: `/jamf run policy " ++
  dq ++
  "Update Software" ++
  dq ++
  " on device 42`" ++
  nl ++
  nl ++
  "*Reports:*" ++
  nl ++
  "â€¢ Storage: `/jamf show devices with low storage`" ++
  nl ++
  "â€¢ Compliance: `/jamf check compliance status`" ++
  nl ++
  "â€¢ OS versions: `/jamf show OS version distribution`".

(** The literal head of the acknowledgement of a slash command. *)
Definition processing_prefix : string :=
  "ðŸ¤” Processing: _".

(** The literal head of the error reply to a slash command. *)
Definition error_request_prefix : string :=
  "âŒ Error processing request: ".

(** The placeholder posted for a mention. *)
Definition thinking_text : string :=
  "ðŸ¤” Thinking...".

(** The literal head of the error message posted to the channel. *)
Definition sorry_prefix : string :=
  "âŒ Sorry, I encountered an error: ".

(** The bullet in front of a tool name. *)
Definition bullet : string :=
  "â€¢ ".

Section Gateway.

Variable R : runtime.

(** ** Built-ins that raise *)

(** [str(v)], as an f-string formats a value: for every value that is not
    a [str] it coincides with [repr(v)]. *)
Definition py_str (v : pyval) : string :=
  match v with
  | PStr s => s
  | _ => py_repr R v
  end.

Definition is_digit (c : N) : bool := ((48 <=? c) && (c <=? 57))%N.

(** The code points of a string: its UTF-8 bytes decoded. Bytes that do
    not spell a code point give U+FFFD, which is neither a space nor a
    digit. *)
Definition is_continuation (b : N) : bool := ((128 <=? b) && (b <? 192))%N.

Fixpoint utf8_decode (l : list N) : list N :=
  match l with
  | [] => []
  | b :: l1 =>
      if (b <? 128)%N then b :: utf8_decode l1
      else
        match l1 with
        | c1 :: l2 =>
            if ((192 <=? b) && (b <? 224) && is_continuation c1)%N
            then ((b - 192) * 64 + (c1 - 128))%N :: utf8_decode l2
            else
              match l2 with
              | c2 :: l3 =>
                  if ((224 <=? b) && (b <? 240)
                      && is_continuation c1 && is_continuation c2)%N
                  then ((b - 224) * 4096 + (c1 - 128) * 64 + (c2 - 128))%N
                       :: utf8_decode l3
                  else
                    match l3 with
                    | c3 :: l4 =>
                        if ((240 <=? b) && (b <? 248) && is_continuation c1
                            && is_continuation c2 && is_continuation c3)%N
                        then ((b - 240) * 262144 + (c1 - 128) * 4096
                              + (c2 - 128) * 64 + (c3 - 128))%N
                             :: utf8_decode l4
                        else 65533%N :: utf8_decode l1
                    | [] => 65533%N :: utf8_decode l1
                    end
              | [] => 65533%N :: utf8_decode l1
              end
        | [] => [65533%N]
        end
  end.

(** The spaces of Unicode from U+0080 on: U+0085, U+00A0, U+1680,
    U+2000..U+200A, U+2028, U+2029, U+202F, U+205F, U+3000. *)
Definition is_unicode_space (c : N) : bool :=
  ((c =? 133) || (c =? 160) || (c =? 5760) || ((8192 <=? c) && (c <=? 8202))
   || (c =? 8232) || (c =? 8233) || (c =? 8239) || (c =? 8287)
   || (c =? 12288))%N.

(** What [int()] makes of a character before it reads the literal: an
    ASCII character stays as it is, a space of Unicode becomes a blank, a
    decimal digit of any script becomes its ASCII digit, and anything else
    becomes [?], which no literal has. *)
Definition to_ascii_digit (c : N) : N :=
  if (c <? 128)%N then c
  else if is_unicode_space c then 32%N
  else match unicode_decimal R c with
       | Some d => (48 + d)%N
       | None => 63%N
       end.

(** The blanks that may surround the literal: tab, line feed, vertical
    tab, form feed, carriage return, space. U+001C..U+001F, which
    [str.strip()] removes, are not among them. *)
Definition is_blank (c : N) : bool := (((9 <=? c) && (c <=? 13)) || (c =? 32))%N.

Fixpoint skip_blanks (l : list N) : list N :=
  match l with
  | c :: l' => if is_blank c then skip_blanks l' else l
  | [] => []
  end.

(** The run of digits and underscores at the head of [l]: its value, the
    number of its digits and what follows it; [None] when two underscores
    meet or the run ends in one. [prev_us] says that the previous character
    was an underscore. *)
Fixpoint scan_digits (l : list N) (acc : Z) (n : nat) (prev_us : bool)
  : option (Z * nat * list N) :=
  match l with
  | c :: l' =>
      if is_digit c then scan_digits l' (acc * 10 + (Z.of_N c - 48)) (S n) false
      else if (c =? 95)%N then
        (if prev_us then None else scan_digits l' acc n true)
      else if prev_us then None else Some (acc, n, l)
  | [] => if prev_us then None else Some (acc, n, [])
  end.

(** [str(n)] for a natural number *)
Definition nat_str (n : nat) : string := NilEmpty.string_of_uint (Nat.to_uint n).

(** The first [n] characters of a string: a byte that continues a
    character stays with it. *)
Fixpoint take_chars (n : nat) (s : string) : string :=
  match s with
  | EmptyString => EmptyString
  | String c s' =>
      if is_continuation (code c) then String c (take_chars n s')
      else match n with
           | O => EmptyString
           | S k => String c (take_chars k s')
           end
  end.

(** [int(s)] for a string, base 10, as CPython 3.11 reads it: blanks, an
    optional sign, digits with single underscores between them, blanks.
    The limit on the number of digits, when it is enabled, is tested as
    soon as the digits are counted, before what follows them is looked
    at. The message of an invalid literal shows the first 200 characters
    of [repr(s)]. *)
Definition py_int_str (s : string) : res Z :=
  let invalid :=
    Raise (Exn "ValueError"
             ("invalid literal for int() with base 10: "
              ++ take_chars 200 (py_repr R (PStr s)))) in
  let l := skip_blanks (map to_ascii_digit (utf8_decode (codes_of s))) in
  let '(neg, body) :=
    match l with
    | 43%N :: l' => (false, l')
    | 45%N :: l' => (true, l')
    | _ => (false, l)
    end in
  match body with
  | 95%N :: _ => invalid
  | _ =>
      match scan_digits body 0 0 false with
      | None => invalid
      | Some (z, n, rest) =>
          if ((640 <? n) && (0 <? int_max_str_digits R)
              && (int_max_str_digits R <? n))%nat
          then Raise (Exn "ValueError"
                        ("Exceeds the limit (" ++ nat_str (int_max_str_digits R)
                         ++ " digits) for integer string conversion: value has "
                         ++ nat_str n
                         ++ " digits; use sys.set_int_max_str_digits() "
                         ++ "to increase the limit"))
          else if (n =? 0)%nat then invalid
          else match skip_blanks rest with
               | [] => Ok (if neg then - z else z)
               | _ :: _ => invalid
               end
      end
  end.

(** [int(v)] *)
Definition py_int (v : pyval) : res Z :=
  match v with
  | PStr s => py_int_str s
  | PInt z => Ok z
  | PBool b => Ok (if b then 1 else 0)
  | _ => Raise (Exn "TypeError"
                  ("int() argument must be a string, a bytes-like object or "
                   ++ "a real number, not '" ++ type_name v ++ "'"))
  end.

(** Converting an [int] to a [float] overflows when the integer rounds to
    2^1024: from 2^1024 - 2^970 on. *)
Definition float_overflows (z : Z) : bool :=
  (2 ^ 1024 - 2 ^ 970 <=? Z.abs z).

(** [hmac.compare_digest(a, b)] for a [str] [a]: both must be ASCII-only
    strings. *)
Definition compare_digest (a : string) (b : pyval) : res bool :=
  match b with
  | PStr b' =>
      if is_ascii a && is_ascii b' then Ok (String.eqb a b')
      else Raise (Exn "TypeError"
                    "comparing strings with non-ASCII characters is not supported")
  | _ => Raise (Exn "TypeError"
                  ("unsupported operand types(s) or combination of types: "
                   ++ "'str' and '" ++ type_name b ++ "'"))
  end.

(** ** [agent/jamf_inline_agent.py] *)

(** [self] of the methods of [JamfMCPActionGroup] is the object held by
    the agent system. *)
Definition self_action_group (method : string) : M JamfMCPActionGroup :=
  let* w := get_world in
  match mcp_action_group (agent_system w) with
  | Some g => ret g
  | None => raise (attribute_error PNone method)
  end.

Definition set_action_group (g : JamfMCPActionGroup) : M unit :=
  let* w := get_world in
  set_agent_system (AgentSystem (agents (agent_system w)) (Some g)
                                (initialized (agent_system w))).

(** The function returns from inside both [async with] blocks, so the
    session it returns has been closed and the provider stopped: [true]
    stands for that session object, which is truthy. Entering
    [ClientSession] starts no exchange with the provider and is taken to
    succeed. *)
Definition _connect_stdio_mcp : M bool :=
  emit EStdioConnect ;;
  lift (stdio_open R) ;;
  closing
    (emit ESessionInitialize ;;
     lift (session_initialize R) ;;
     ret true)
    (emit EStdioClose).

(** A request on [self.mcp_session]: every session the code stores has
    been closed by [_connect_stdio_mcp], and a closed session refuses the
    request. *)
Definition closed_session_request {A} : M A :=
  raise (closed_session_error R).

Definition _connect_http_mcp : M bool :=
  raise (Exn "NotImplementedError" "HTTP MCP connection not yet implemented").

Fixpoint store_tools (d : list (string * tool)) (tools : list tool)
  : list (string * tool) :=
  match tools with
  | [] => d
  | t :: rest => store_tools (dict_set d (tool_name_of t) t) rest
  end.

Definition _discover_tools : M unit :=
  let* g := self_action_group "_discover_tools" in
  if mcp_session g then
    emit EListTools ;;
    let* tools_response := closed_session_request in
    set_action_group
      (ActionGroup (mcp_server_url g) (mcp_session g)
                   (store_tools (available_tools g) tools_response))
  else ret tt.

Definition JamfMCPActionGroup_initialize : M unit :=
  let* g := self_action_group "initialize" in
  let* session :=
    (if decide (environ R !! "ENVIRONMENT" = Some "production")
     then _connect_http_mcp
     else _connect_stdio_mcp) in
  set_action_group (ActionGroup (mcp_server_url g) session (available_tools g)) ;;
  _discover_tools.

(** A function object made by [create_tool_functions]: its metadata, and
    the cell of the enclosing call's [tool_name] that its body reads. *)
Record tool_function := ToolFunction {
  fn_name : string;        (* __name__ *)
  fn_doc : pyval;          (* __doc__ *)
  fn_cell : nat
}.

Fixpoint create_tool_functions_loop (c : nat)
    (items : list (string * tool)) (tool_functions : list tool_function)
  : M (list tool_function) :=
  match items with
  | [] => ret tool_functions
  | (tool_name, tool_spec) :: rest =>
      (* the loop assigns the variable, that is, the cell *)
      let* w := get_world in
      set_cells (<[c := Some tool_name]> (cells w)) ;;
      let tool_function :=
        ToolFunction tool_name (tool_description tool_spec) c in
      create_tool_functions_loop c rest (tool_functions ++ [tool_function])
  end.

Definition create_tool_functions : M (list tool_function) :=
  let* g := self_action_group "create_tool_functions" in
  let* w := get_world in
  let c := List.length (cells w) in
  set_cells (cells w ++ [None]) ;;
  create_tool_functions_loop c (available_tools g) [].

(** Calling a function made by [create_tool_functions]: the body looks up
    [tool_name] in its cell and [self.mcp_session] when it runs. *)
Definition call_tool_function (f : tool_function) (kwargs : pyval) : M string :=
  let* w := get_world in
  match cells w !! fn_cell f with
  | Some (Some tool_name) =>
      let* g := self_action_group "mcp_session" in
      if mcp_session g then
        emit (ECallTool tool_name kwargs) ;;
        let* content := closed_session_request in
        ret (match content with
             | text :: _ => text
             | [] => ""
             end)
      else raise (attribute_error PNone "call_tool")
  | _ => raise (Exn "NameError"
                  "cannot access free variable 'tool_name' where it is not associated with a value in enclosing scope")
  end.

(** The module-level tool functions call [global_mcp_client], which the
    module sets to [None] and never assigns again. *)
Definition global_mcp_client_call_tool (name : string) (kwargs : pyval)
  : M pyval :=
  raise (attribute_error PNone "call_tool").

Definition search_devices (query limit : pyval) : M pyval :=
  let* mcp_result :=
    global_mcp_client_call_tool "searchDevices"
      (PDict [("query", query); ("limit", limit)]) in
  lift (json_loads R mcp_result).

Definition get_device_details (device_id : pyval) : M pyval :=
  let* mcp_result :=
    global_mcp_client_call_tool "getDeviceDetails"
      (PDict [("deviceId", device_id)]) in
  lift (json_loads R mcp_result).

Definition update_inventory (device_id : pyval) : M pyval :=
  let* mcp_result :=
    global_mcp_client_call_tool "updateInventory"
      (PDict [("deviceId", device_id)]) in
  lift (json_loads R mcp_result).

Definition execute_policy (policy_id device_ids confirm : pyval) : M pyval :=
  let* mcp_result :=
    global_mcp_client_call_tool "executePolicy"
      (PDict [("policyId", policy_id); ("deviceIds", device_ids);
              ("confirm", confirm)]) in
  lift (json_loads R mcp_result).

Definition JamfAgentSystem_initialize : M unit :=
  let* w := get_world in
  if initialized (agent_system w) then ret tt
  else
    (* Initialize MCP connection *)
    let mcp_server_url :=
      default "http://localhost:3000" (environ R !! "MCP_SERVER_URL") in
    set_agent_system
      (AgentSystem (agents (agent_system w))
                   (Some (ActionGroup mcp_server_url false []))
                   (initialized (agent_system w))) ;;
    JamfMCPActionGroup_initialize ;;
    (* Create agents *)
    emit ECreateAgents ;;
    let* w1 := get_world in
    set_agent_system
      (AgentSystem true (mcp_action_group (agent_system w1)) false) ;;
    let* w2 := get_world in
    set_agent_system
      (AgentSystem (agents (agent_system w2))
                   (mcp_action_group (agent_system w2)) true).

(** [self.agents["orchestrator"]] *)
Definition orchestrator : M unit :=
  let* w := get_world in
  if agents (agent_system w) then ret tt
  else raise (Exn "KeyError" "'orchestrator'").

(** [session_id or f"session_{datetime.now().isoformat()}"] *)
Definition session_or_fresh (session_id : pyval) : M pyval :=
  if truthy session_id then ret session_id
  else
    let* w := get_world in
    set_clock_reads (S (clock_reads w)) ;;
    ret (PStr ("session_" ++ now_isoformat R (clock_reads w))).

Definition process_request (user_message session_id : pyval) : M pyval :=
  let* w := get_world in
  (if initialized (agent_system w) then ret tt
   else JamfAgentSystem_initialize) ;;
  orchestrator ;;
  let* sid := session_or_fresh session_id in
  emit (EAgentInvoke user_message sid) ;;
  let* response := lift (agent_invoke R user_message sid) in
  let* output := lift (py_get response "output" (PStr "")) in
  let* tr := lift (py_get response "trace" (PDict [])) in
  let* sid' := lift (py_get response "session_id" session_id) in
  ret (PDict [("response", output); ("trace", tr); ("session_id", sid')]).

(** The asynchronous generator: everything before the first [yield] runs
    when the consumer asks for the first chunk; then the chunks of the
    agent runtime are passed on one by one, and an exception of the runtime
    surfaces after the chunks that preceded it. *)
Definition process_request_streaming (user_message session_id : pyval)
  : M (list pyval * option raised) :=
  let* w := get_world in
  (if initialized (agent_system w) then ret tt
   else JamfAgentSystem_initialize) ;;
  orchestrator ;;
  let* sid := session_or_fresh session_id in
  emit (EAgentInvokeStream user_message sid) ;;
  ret (agent_invoke_stream R user_message sid).

(** ** [lambda/slack_handler.py] *)

(** [SLACK_SIGNING_SECRET = os.environ.get("SLACK_SIGNING_SECRET", "")] *)
Definition SLACK_SIGNING_SECRET : string :=
  default "" (environ R !! "SLACK_SIGNING_SECRET").

(** [abs(time.time() - int(timestamp)) > 60 * 5] once the stamp has been
    converted to a double: the subtraction is rounded, and an infinite
    difference is greater than 300. *)
Definition timestamp_too_old (t : Z) : bool :=
  match double_sub (time_time R) (round_to_double t 0) with
  | Some d => double_abs_gt d 300
  | None => true
  end.

Definition verify_slack_request (event : pyval) : M bool :=
  let* headers := lift (py_getitem event "headers") in
  let* timestamp := lift (py_get headers "x-slack-request-timestamp" (PStr "")) in
  let* headers' := lift (py_getitem event "headers") in
  let* signature := lift (py_get headers' "x-slack-signature" (PStr "")) in
  (* Check timestamp to prevent replay attacks *)
  let* t := lift (py_int timestamp) in
  if float_overflows t
  then raise (Exn "OverflowError" "int too large to convert to float")
  else if timestamp_too_old t then
    logger "WARNING" "Request timestamp too old" ;;
    ret false
  else
    (* Verify signature *)
    let* body := lift (py_getitem event "body") in
    let sig_basestring := "v0:" ++ py_str timestamp ++ ":" ++ py_str body in
    let my_signature :=
      "v0=" ++ hmac_sha256_hexdigest R SLACK_SIGNING_SECRET sig_basestring in
    lift (compare_digest my_signature signature).

(** [parse_slack_body]: a field sent once becomes its string, a field sent
    several times stays a list. *)
Definition parse_slack_body (body : pyval) : res pyval :=
  res_bind (parse_qs R body) (fun parsed =>
  Ok (PDict (map (fun kv : string * list string =>
                    (fst kv, match snd kv with
                             | [x] => PStr x
                             | v => PList (map PStr v)
                             end)) parsed))).

(** A call to the session table: recorded, counted, and failing when the
    store says so. *)
Definition store_call (e : effect) : M unit :=
  emit e ;;
  let* w := get_world in
  set_store_calls (S (store_calls w)) ;;
  match store_fault R (store_calls w) with
  | Some err => raise err
  | None => ret tt
  end.

(** [datetime.utcnow().isoformat()] *)
Definition utcnow : M string :=
  let* w := get_world in
  set_clock_reads (S (clock_reads w)) ;;
  ret (utcnow_isoformat R (clock_reads w)).

Definition get_or_create_session (user_id channel_id : pyval) : M string :=
  let session_id := py_str user_id ++ "_" ++ py_str channel_id in
  try_except
    ((* Try to get existing session *)
     store_call (EGetItem session_id) ;;
     let* w := get_world in
     match sessions_table w !! session_id with
     | Some item =>
         (* Update last accessed time *)
         let* time := utcnow in
         store_call (EUpdateItem session_id time) ;;
         let* w' := get_world in
         set_sessions_table
           (<[session_id := SessionItem (item_user_id item) (item_channel_id item)
                                        (item_created_at item) time]>
              (sessions_table w')) ;;
         ret session_id
     | None =>
         (* Create new session *)
         let* created_at := utcnow in
         let* last_accessed := utcnow in
         store_call (EPutItem session_id user_id channel_id
                              created_at last_accessed) ;;
         let* w' := get_world in
         set_sessions_table
           (<[session_id := SessionItem user_id channel_id
                                        created_at last_accessed]>
              (sessions_table w')) ;;
         ret session_id
     end)
    (fun e =>
       logger "ERROR" ("Session management error: " ++ exn_str e) ;;
       (* Return a default session ID if DB operations fail *)
       ret session_id).

(** A call to the Slack Web API. *)
Definition slack_call (e : effect) : M (list (string * pyval)) :=
  emit e ;;
  let* w := get_world in
  set_slack_calls (S (slack_calls w)) ;;
  lift (slack_reply R (slack_calls w)).

(** [result[key]] on a response of the Slack SDK: [None] for a missing
    key. *)
Definition slack_getitem (data : list (string * pyval)) (key : string) : pyval :=
  default PNone (dict_get data key).

(** What a [for] loop over [v] visits (a string yields strings; here one
    per byte, in Python one per code point). *)
Definition py_iter (v : pyval) : res (list pyval) :=
  match v with
  | PList l => Ok l
  | PDict d => Ok (map (fun kv => PStr (fst kv)) d)
  | PStr s => Ok (map (fun c => PStr (String c "")) (list_ascii_of_string s))
  | _ => Raise (Exn "TypeError"
                  ("'" ++ type_name v ++ "' object is not iterable"))
  end.

(** [sep.join(parts)] for strings already known to be strings. *)
Fixpoint str_join (sep : string) (parts : list string) : string :=
  match parts with
  | [] => ""
  | [x] => x
  | x :: rest => x ++ sep ++ str_join sep rest
  end.

Fixpoint tools_used_of (actions : list pyval) : res (list string) :=
  match actions with
  | [] => Ok []
  | action :: rest =>
      res_bind (py_get action "actionName" (PStr "Unknown")) (fun tool_name =>
      res_bind (tools_used_of rest) (fun tl =>
      Ok ((bullet ++ py_str tool_name) :: tl)))
  end.

Definition mrkdwn_section (text : pyval) : pyval :=
  PDict [("type", PStr "section");
         ("text", PDict [("type", PStr "mrkdwn"); ("text", text)])].

Definition format_response_blocks (response : pyval) : res pyval :=
  res_bind (py_getitem response "response") (fun text =>
  let blocks := [mrkdwn_section text] in
  (* Add trace information if available (for debugging) *)
  res_bind (py_get response "trace" PNone) (fun tr =>
  res_bind (if truthy tr
            then res_bind (py_getitem response "trace") (fun tr' =>
                 py_get tr' "agentActions" PNone)
            else Ok tr) (fun guard =>
  if truthy guard then
    res_bind (py_getitem response "trace") (fun tr' =>
    res_bind (py_getitem tr' "agentActions") (fun actions =>
    res_bind (py_iter actions) (fun l =>
    res_bind (tools_used_of l) (fun tools_used =>
    match tools_used with
    | [] => Ok (PList blocks)
    | _ =>
        Ok (PList (blocks ++
          [PDict [("type", PStr "context");
                  ("elements",
                   PList [PDict [("type", PStr "mrkdwn");
                                 ("text", PStr ("_Tools used: "
                                    ++ str_join ", " tools_used ++ "_"))]])]]))
    end))))
  else Ok (PList blocks)))).

(** [v.strip()], [v.lower()], [v.replace(...)]: methods of [str] only. *)
Definition as_str (v : pyval) (method : string) : res string :=
  match v with
  | PStr s => Ok s
  | _ => Raise (attribute_error v method)
  end.

Definition ephemeral (text : string) : pyval :=
  PDict [("response_type", PStr "ephemeral"); ("text", PStr text)].

Definition process_slash_command (command_data : pyval) : M pyval :=
  let* user_id := lift (py_get command_data "user_id" (PStr "")) in
  let* channel_id := lift (py_get command_data "channel_id" (PStr "")) in
  let* command := lift (py_get command_data "command" (PStr "")) in
  let* text0 := lift (py_get command_data "text" (PStr "")) in
  let* text1 := lift (as_str text0 "strip") in
  let text := strip text1 in
  (* Get or create session *)
  let* session_id := get_or_create_session user_id channel_id in
  (* Handle different commands *)
  if py_eq_str command "/jamf" then
    if String.eqb text "" then ret (ephemeral usage_text)
    else if String.eqb (lower text) "help" then ret (ephemeral help_text)
    else
      (* Process the request with the agent *)
      try_except
        ((* Send immediate acknowledgment *)
         slack_call (EPostMessage channel_id
                       (PStr (processing_prefix ++ text ++ "_")) None) ;;
         (* Process with agent *)
         let* response := process_request (PStr text) (PStr session_id) in
         (* Format the response for Slack *)
         let* response_text := lift (py_getitem response "response") in
         let* blocks := lift (format_response_blocks response) in
         ret (PDict [("response_type", PStr "in_channel");
                     ("text", response_text);
                     ("blocks", blocks)]))
        (fun e =>
           logger "ERROR" ("Error processing command: " ++ exn_str e) ;;
           ret (ephemeral (error_request_prefix ++ exn_str e)))
  else ret (ephemeral "Unknown command").

(** [v[0]] *)
Definition py_index0 (v : pyval) : res pyval :=
  match v with
  | PList (x :: _) => Ok x
  | PList [] => Raise (Exn "IndexError" "list index out of range")
  | PStr s =>
      match s with
      | String c _ => Ok (PStr (String c ""))
      | EmptyString => Raise (Exn "IndexError" "string index out of range")
      end
  | PDict _ => Raise (Exn "KeyError" "0")
  | _ => Raise (Exn "TypeError"
                  ("'" ++ type_name v ++ "' object is not subscriptable"))
  end.

(** [''.join(chunks)]: every item must be a string; [i] is the index of
    the head of [chunks] in the sequence. *)
Fixpoint py_join_from (i : nat) (chunks : list pyval) : res string :=
  match chunks with
  | [] => Ok ""
  | PStr s :: rest => res_bind (py_join_from (S i) rest) (fun t => Ok (s ++ t))
  | v :: _ =>
      Raise (Exn "TypeError"
               ("sequence item " ++ nat_str i ++ ": expected str instance, "
                ++ type_name v ++ " found"))
  end.

Definition py_join (chunks : list pyval) : res string := py_join_from 0 chunks.

(** The body of the [async for] of a direct message, for one chunk. The
    loop state is [(message_ts, chunks)]. *)
Definition stream_step (channel_id : pyval) (st : pyval * list pyval)
    (chunk : pyval) : M (pyval * list pyval) :=
  let '(message_ts, chunks) := st in
  let* ty := lift (py_get chunk "type" PNone) in
  if py_eq_str ty "content" then
    let* piece := lift (py_get chunk "text" (PStr "")) in
    let chunks := (chunks ++ [piece])%list in
    (* Update message every few chunks *)
    if (List.length chunks mod 5 =? 0)%nat then
      let* full_text := lift (py_join chunks) in
      if truthy message_ts then
        slack_call (EChatUpdate channel_id message_ts (PStr full_text)) ;;
        ret (message_ts, chunks)
      else
        let* result := slack_call (EPostMessage channel_id (PStr full_text) None) in
        ret (slack_getitem result "ts", chunks)
    else ret (message_ts, chunks)
  else ret (message_ts, chunks).

Fixpoint stream_loop (channel_id : pyval) (st : pyval * list pyval)
    (stream : list pyval) : M (pyval * list pyval) :=
  match stream with
  | [] => ret st
  | chunk :: rest =>
      let* st' := stream_step channel_id st chunk in
      stream_loop channel_id st' rest
  end.

(** The final update after the stream is exhausted. *)
Definition final_update (channel_id : pyval) (st : pyval * list pyval)
  : M unit :=
  let '(message_ts, chunks) := st in
  match chunks with
  | [] => ret tt
  | _ =>
      let* full_text := lift (py_join chunks) in
      if truthy message_ts then
        slack_call (EChatUpdate channel_id message_ts (PStr full_text)) ;; ret tt
      else
        slack_call (EPostMessage channel_id (PStr full_text) None) ;; ret tt
  end.

Definition post_error (channel_id : pyval) (e : exn) : M unit :=
  slack_call (EPostMessage channel_id (PStr (sorry_prefix ++ exn_str e)) None) ;;
  ret tt.

Definition process_event (event_data : pyval) : M unit :=
  let* event := lift (py_get event_data "event" (PDict [])) in
  let* event_type := lift (py_get event "type" (PStr "")) in
  if py_eq_str event_type "app_mention" then
    (* Handle @mentions *)
    let* user_id := lift (py_get event "user" (PStr "")) in
    let* channel_id := lift (py_get event "channel" (PStr "")) in
    let* text0 := lift (py_get event "text" (PStr "")) in
    (* Remove the bot mention from the text *)
    let* auths := lift (py_get event_data "authorizations" (PList [PDict []])) in
    let* auth0 := lift (py_index0 auths) in
    let* bot_user_id := lift (py_get auth0 "user_id" (PStr "")) in
    let* text1 := lift (as_str text0 "replace") in
    let text := strip (str_replace text1 ("<@" ++ py_str bot_user_id ++ ">") "") in
    if String.eqb text "" then ret tt
    else
      let* session_id := get_or_create_session user_id channel_id in
      try_except
        ((* Send typing indicator *)
         slack_call (EPostMessage channel_id (PStr thinking_text) None) ;;
         (* Process with agent *)
         let* response := process_request (PStr text) (PStr session_id) in
         (* Send response *)
         let* response_text := lift (py_getitem response "response") in
         let* blocks := lift (format_response_blocks response) in
         slack_call (EPostMessage channel_id response_text (Some blocks)) ;;
         ret tt)
        (fun e =>
           logger "ERROR" ("Error processing event: " ++ exn_str e) ;;
           post_error channel_id e)
  else
    let* channel_type := lift (py_get event "channel_type" PNone) in
    if py_eq_str event_type "message" && py_eq_str channel_type "im" then
      (* Handle direct messages *)
      let* is_bot := lift (py_in "bot_id" event) in
      if is_bot then ret tt   (* Ignore bot messages *)
      else
        let* user_id := lift (py_get event "user" (PStr "")) in
        let* channel_id := lift (py_get event "channel" (PStr "")) in
        let* text := lift (py_get event "text" (PStr "")) in
        if truthy text then
          let* session_id := get_or_create_session user_id channel_id in
          try_except
            ((* Process with agent using streaming for DMs *)
             let* gen := process_request_streaming text (PStr session_id) in
             let* st := stream_loop channel_id (PNone, []) (fst gen) in
             match snd gen with
             | Some r => lift (throw r)
             | None =>
                 (* Final update *)
                 final_update channel_id st
             end)
            (fun e =>
               logger "ERROR" ("Error processing DM: " ++ exn_str e) ;;
               post_error channel_id e)
        else ret tt
    else ret tt.

Definition response (status : Z) (body : string) : pyval :=
  PDict [("statusCode", PInt status); ("body", PStr body)].

(** [asyncio.get_event_loop()]: the running loop, or the current loop of
    the thread, which there may not be. The loop it returns is taken to be
    open. *)
Definition get_event_loop : M unit :=
  if loop_running R then ret tt
  else match no_current_loop R with
       | Some e => raise e
       | None => ret tt
       end.

Definition lambda_handler (event : pyval) : M pyval :=
  logger "INFO" ("Received event: " ++ json_dumps R event) ;;
  (* Verify the request is from Slack *)
  let* verified := verify_slack_request event in
  if negb verified then
    ret (response 401 (json_dumps R (PDict [("error", PStr "Unauthorized")])))
  else
    (* Parse the body *)
    let* body := lift (py_get event "body" (PStr "")) in
    let* headers := lift (py_getitem event "headers") in
    let* content_type := lift (py_get headers "content-type" (PStr "")) in
    let bad_request :=
      ret (response 400 (json_dumps R (PDict [("error", PStr "Bad request")]))) in
    let* is_json := lift (py_in "application/json" content_type) in
    if is_json then
      (* JSON body (Events API) *)
      let* body_data := lift (json_loads R body) in
      (* Handle URL verification *)
      let* ty := lift (py_get body_data "type" PNone) in
      if py_eq_str ty "url_verification" then
        let* challenge := lift (py_getitem body_data "challenge") in
        ret (response 200 (json_dumps R (PDict [("challenge", challenge)])))
      else
        (* Handle events asynchronously *)
        let* ty' := lift (py_get body_data "type" PNone) in
        if py_eq_str ty' "event_callback" then
          (* [asyncio.create_task] needs a running loop; the coroutine it
             is given runs after the handler has returned *)
          if loop_running R then
            emit (ECreateTask body_data) ;;
            ret (response 200 (json_dumps R (PDict [("status", PStr "ok")])))
          else raise (Exn "RuntimeError" "no running event loop")
        else bad_request
    else
      let* is_form :=
        lift (py_in "application/x-www-form-urlencoded" content_type) in
      if is_form then
        (* URL-encoded body (slash commands) *)
        let* command_data := lift (parse_slack_body body) in
        (* Process slash command *)
        get_event_loop ;;
        if loop_running R then
          raise (Exn "RuntimeError" "This event loop is already running")
        else
          let* reply := process_slash_command command_data in
          ret (PDict [("statusCode", PInt 200);
                      ("headers",
                       PDict [("Content-Type", PStr "application/json")]);
                      ("body", PStr (json_dumps R reply))])
      else bad_request.

(** [async_lambda_handler]: the loop is looked up first; then the
    argument of [run_until_complete] is evaluated, so [lambda_handler] runs
    to its end; what it returns is a dict, which [run_until_complete]
    refuses, after it has refused to run inside a running loop. *)
Definition async_lambda_handler (event : pyval) : M pyval :=
  get_event_loop ;;
  let* _result := lambda_handler event in
  if loop_running R
  then raise (Exn "RuntimeError" "This event loop is already running")
  else raise (Exn "TypeError"
                "An asyncio.Future, a coroutine or an awaitable is required").

(** ** Concurrent callers of [JamfAgentSystem.initialize]

    Tasks of one event loop run until they suspend at an [await] that
    waits for input or output: here, the start of the tool provider and
    the handshake with it. Between two suspensions a task runs alone. The
    action-group objects live in a heap, because a task keeps using the
    object it created after another task has replaced
    [self.mcp_action_group]. *)

Inductive task :=
| TStart                      (* about to run [initialize] *)
| TConnecting (obj : nat)     (* suspended in [stdio_client(...)] *)
| TInitializing (obj : nat)   (* suspended in [session.initialize()] *)
| TDone
| TFailed (r : raised).

Record conc_state := ConcState {
  c_agents : bool;
  c_group : option nat;               (* self.mcp_action_group *)
  c_initialized : bool;
  c_heap : list JamfMCPActionGroup;
  c_trace : list effect
}.

Definition conc_initial : conc_state := ConcState false None false [] [].

(** One task runs from where it is to its next suspension or its end. *)
Definition task_step (t : task) (s : conc_state) : task * conc_state :=
  match t with
  | TStart =>
      if c_initialized s then (TDone, s)
      else
        let mcp_server_url :=
          default "http://localhost:3000" (environ R !! "MCP_SERVER_URL") in
        let obj := List.length (c_heap s) in
        let heap := (c_heap s ++ [ActionGroup mcp_server_url false []])%list in
        if decide (environ R !! "ENVIRONMENT" = Some "production")
        then (TFailed (Exception (Exn "NotImplementedError"
                                      "HTTP MCP connection not yet implemented")),
              ConcState (c_agents s) (Some obj) (c_initialized s) heap
                        (c_trace s))
        else (TConnecting obj,
              ConcState (c_agents s) (Some obj) (c_initialized s) heap
                        (c_trace s ++ [EStdioConnect]))
  | TConnecting obj =>
      match stdio_open R with
      | Ok _ =>
          (TInitializing obj,
           ConcState (c_agents s) (c_group s) (c_initialized s) (c_heap s)
                     (c_trace s ++ [ESessionInitialize]))
      | Raise e => (TFailed (Exception e), s)
      | Abort e => (TFailed (BaseException e), s)
      end
  | TInitializing obj =>
      (* the exit of the [async with] blocks, whatever the handshake gave *)
      let s1 := ConcState (c_agents s) (c_group s) (c_initialized s) (c_heap s)
                          (c_trace s ++ [EStdioClose]) in
      match session_initialize R with
      | Ok _ =>
          match c_heap s1 !! obj with
          | Some g =>
              (* [self.mcp_session] is set; [_discover_tools] asks the closed
                 session for the tools *)
              (TFailed (Exception (closed_session_error R)),
               ConcState (c_agents s1) (c_group s1) (c_initialized s1)
                 (<[obj := ActionGroup (mcp_server_url g) true
                                       (available_tools g)]> (c_heap s1))
                 (c_trace s1 ++ [EListTools]))
          | None => (TFailed (Exception (attribute_error PNone "initialize")), s1)
          end
      | Raise e => (TFailed (Exception e), s1)
      | Abort e => (TFailed (BaseException e), s1)
      end
  | TDone => (TDone, s)
  | TFailed e => (TFailed e, s)
  end.

(** The event loop picks a task; a schedule is the list of its picks. *)
Definition conc_step (i : nat) (ts : list task * conc_state)
  : list task * conc_state :=
  match fst ts !! i with
  | Some t =>
      let '(t', s') := task_step t (snd ts) in
      (<[i := t']> (fst ts), s')
  | None => ts
  end.

Definition conc_run (schedule : list nat) (ts : list task * conc_state)
  : list task * conc_state :=
  fold_left (fun acc i => conc_step i acc) schedule ts.

Definition count_effect (p : effect -> bool) (t : list effect) : nat :=
  List.length (List.filter p t).

(** The calls to the provider: starting it and connecting to it, the
    handshake of the session, the request for the tools. *)
Definition is_connection (e : effect) : bool :=
  match e with EStdioConnect => true | _ => false end.
Definition is_handshake (e : effect) : bool :=
  match e with ESessionInitialize => true | _ => false end.
Definition is_discovery (e : effect) : bool :=
  match e with EListTools => true | _ => false end.

End Gateway.

(** ** A concrete runtime

    A development deployment with a healthy store, Slack and tool provider;
    the variants differ in one component. It instantiates the statements
    below on concrete inputs. *)

Definition demo_digest : string :=
  "0123456789abcdef0123456789abcdef0123456789abcdef0123456789abcdef".

Definition challenge_body : string :=
  "{" ++ dq ++ "type" ++ dq ++ ":" ++ dq ++ "url_verification" ++ dq ++ ","
      ++ dq ++ "challenge" ++ dq ++ ":" ++ dq ++ "abc123" ++ dq ++ "}".

Definition demo_json_loads (v : pyval) : res pyval :=
  match v with
  | PStr s =>
      if String.eqb s challenge_body
      then Ok (PDict [("type", PStr "url_verification");
                      ("challenge", PStr "abc123")])
      else Raise (Exn "JSONDecodeError" "Expecting value")
  | _ => Raise (Exn "TypeError" "the JSON object must be str, bytes or bytearray")
  end.

Definition demo_json_dumps (v : pyval) : string :=
  match v with
  | PDict [(k, PStr s)] =>
      "{" ++ dq ++ k ++ dq ++ ": " ++ dq ++ s ++ dq ++ "}"
  | _ => "null"
  end.

Definition demo_repr (v : pyval) : string :=
  match v with
  | PStr s => "'" ++ s ++ "'"
  | PNone => "None"
  | _ => "..."
  end.

Definition demo_tools : list tool :=
  [Tool "searchDevices" (PStr "Search for devices");
   Tool "getDeviceDetails" (PStr "Details of one device");
   Tool "updateInventory" (PStr "Force an inventory update")].

Definition content_chunk (text : string) : pyval :=
  PDict [("type", PStr "content"); ("text", PStr text)].

Definition demo_stream : list pyval :=
  map content_chunk ["a"; "b"; "c"; "d"; "e"; "f"; "g"; "h"; "i"; "j"; "k"; "l"].

(** The digit zero of every script of Unicode 14 that has decimal digits
    (general category Nd), ASCII apart; the nine code points after each
    are its digits one to nine. *)
Definition decimal_zeros : list N :=
  [1632; 1776; 1984; 2406; 2534; 2662; 2790; 2918; 3046; 3174; 3302; 3430;
   3558; 3664; 3792; 3872; 4160; 4240; 6112; 6160; 6470; 6608; 6784; 6800;
   6992; 7088; 7232; 7248; 42528; 43216; 43264; 43472; 43504; 43600; 44016;
   65296; 66720; 68912; 69734; 69872; 69942; 70096; 70384; 70736; 70864;
   71248; 71360; 71472; 71904; 72016; 72784; 73040; 73120; 92768; 92864;
   93008; 120782; 120792; 120802; 120812; 120822; 123200; 123632; 125264;
   130032]%N.

Definition unicode14_decimal (c : N) : option N :=
  match List.find (fun z => (z <=? c) && (c <? z + 10))%N decimal_zeros with
  | Some z => Some (c - z)%N
  | None => None
  end.

(** The clock of [demo]: 1700000100 seconds, as a double. *)
Definition demo_clock : double := Double (1700000100 * 2 ^ 22) (- 22).

Definition demo_with (env : gmap string string) (fault : nat -> option exn)
    (connect : res unit) : runtime :=
  {| hmac_sha256_hexdigest := fun _ _ => demo_digest;
     json_loads := demo_json_loads;
     json_dumps := demo_json_dumps;
     parse_qs := fun _ => Ok [("command", ["/jamf"]); ("text", ["help"]);
                              ("user_id", ["U1"]); ("channel_id", ["C1"])];
     py_repr := demo_repr;
     int_max_str_digits := 4300;
     unicode_decimal := unicode14_decimal;
     environ := env;
     time_time := demo_clock;
     utcnow_isoformat := fun _ => "2023-11-14T22:15:00";
     now_isoformat := fun _ => "2023-11-14T22:15:00";
     store_fault := fault;
     slack_reply := fun _ => Ok [("ok", PBool true);
                                 ("ts", PStr "1700000100.000100")];
     stdio_open := connect;
     session_initialize := Ok tt;
     closed_session_error := Exn "ClosedResourceError" "";
     agent_invoke := fun _ _ => Ok (PDict [("output", PStr "done")]);
     agent_invoke_stream := fun _ _ => (demo_stream, None);
     loop_running := false;
     no_current_loop := None |}.

Definition demo_env : gmap string string :=
  {[ "SLACK_SIGNING_SECRET" := "s3cr3t" ]}.

Definition demo : runtime := demo_with demo_env (fun _ => None) (Ok tt).

Definition demo_production : runtime :=
  demo_with (<["ENVIRONMENT" := "production"]> demo_env) (fun _ => None) (Ok tt).

Definition demo_store_down : runtime :=
  demo_with demo_env
    (fun _ => Some (Exn "EndpointConnectionError" "Could not connect"))
    (Ok tt).

(** A request signed 100 seconds before the clock of [demo] was read. *)
Definition signed_event (content_type body : string) : pyval :=
  PDict [("headers",
          PDict [("x-slack-request-timestamp", PStr "1700000000");
                 ("x-slack-signature", PStr ("v0=" ++ demo_digest));
                 ("content-type", PStr content_type)]);
         ("body", PStr body)].

Definition challenge_event : pyval :=
  signed_event "application/json" challenge_body.

(** ** Vocabulary of the statements *)

(** The signature Slack computes for a request: ['v0='] and the hex
    HMAC-SHA256 of ['v0:{timestamp}:{body}'] under the signing secret. *)
Definition expected_signature (R : runtime) (timestamp body : pyval) : string :=
  "v0=" ++ hmac_sha256_hexdigest R (SLACK_SIGNING_SECRET R)
             ("v0:" ++ py_str R timestamp ++ ":" ++ py_str R body).

(** The number a double stands for. *)
Definition double_value (d : double) : Q :=
  if 0 <=? exponent d then inject_Z (mantissa d * 2 ^ exponent d)
  else mantissa d # Z.to_pos (2 ^ (- exponent d)).

(** What holds of every runtime of our days: a hex digest is made of ASCII
    characters, and the clock reads a double that is a multiple of 2^-44
    and less than 2^52 in magnitude, written with an exponent from -44 to
    -1, as every double from 2^8 to 2^52 seconds can be. *)
Record runtime_sane (R : runtime) : Prop := RuntimeSane {
  hexdigest_is_ascii :
    forall key msg, is_ascii (hmac_sha256_hexdigest R key msg) = true;
  clock_mantissa : Z.abs (mantissa (time_time R)) < 2 ^ 53;
  clock_exponent : - 44 <= exponent (time_time R) <= - 1
}.

(** The UTF-8 bytes of a code point below 2048. *)
Definition utf8_of (n : N) : string :=
  if (n <? 128)%N then String (ascii_of_N n) ""
  else String (ascii_of_N (192 + n / 64))
         (String (ascii_of_N (128 + n mod 64)) "").

(** The string with bit [i] flipped: bit [i mod 8] (least significant
    first) of character [i / 8], for a string of ASCII characters. Flipping
    the top bit gives a character of Latin-1, which takes two bytes. *)
Fixpoint flip_bit (i : nat) (s : string) : string :=
  match s with
  | EmptyString => EmptyString
  | String c s' =>
      if (i <? 8)%nat then utf8_of (N.lxor (code c) (2 ^ N.of_nat i)) ++ s'
      else String c (flip_bit (i - 8) s')
  end.

(** A keyed digest for the examples: the bytes of the key and of the
    message in hexadecimal. It stands for HMAC-SHA256 where the value of
    the digest does not matter, but that it depends on both. *)
Definition hex_digit (n : N) : ascii :=
  match String.get (N.to_nat n) "0123456789abcdef" with
  | Some c => c
  | None => "0"%char
  end.

Fixpoint hex_of (l : list N) : string :=
  match l with
  | [] => ""
  | b :: rest =>
      String (hex_digit (b / 16)) (String (hex_digit (b mod 16)) (hex_of rest))
  end.

Definition keyed_digest (key msg : string) : string :=
  hex_of (codes_of key ++ codes_of msg).

(** [demo] with the keyed digest. *)
Definition demo_keyed : runtime :=
  {| hmac_sha256_hexdigest := keyed_digest;
     json_loads := json_loads demo;
     json_dumps := json_dumps demo;
     parse_qs := parse_qs demo;
     py_repr := py_repr demo;
     int_max_str_digits := int_max_str_digits demo;
     unicode_decimal := unicode_decimal demo;
     environ := environ demo;
     time_time := time_time demo;
     utcnow_isoformat := utcnow_isoformat demo;
     now_isoformat := now_isoformat demo;
     store_fault := store_fault demo;
     slack_reply := slack_reply demo;
     stdio_open := stdio_open demo;
     session_initialize := session_initialize demo;
     closed_session_error := closed_session_error demo;
     agent_invoke := agent_invoke demo;
     agent_invoke_stream := agent_invoke_stream demo;
     loop_running := loop_running demo;
     no_current_loop := no_current_loop demo |}.

(** A request with the given stamp, signature and body. *)
Definition request (timestamp signature body : string) : pyval :=
  PDict [("headers",
          PDict [("x-slack-request-timestamp", PStr timestamp);
                 ("x-slack-signature", PStr signature);
                 ("content-type", PStr "application/json")]);
         ("body", PStr body)].

Definition is_log (e : effect) : Prop :=
  match e with ELog _ _ => True | _ => False end.

(** The world after more external calls were recorded, and nothing else
    changed. *)
Definition add_trace (w : world) (es : list effect) : world :=
  World (sessions_table w) (store_calls w) (slack_calls w) (clock_reads w)
        (agent_system w) (cells w) (trace w ++ es).

(** The world with another agent system. *)
Definition with_agent_system (w : world) (a : JamfAgentSystem) : world :=
  World (sessions_table w) (store_calls w) (slack_calls w) (clock_reads w) a
        (cells w) (trace w).

(** The action group [JamfAgentSystem.initialize] creates, with a session
    or without, before any tool is discovered. *)
Definition fresh_group (R : runtime) (session : bool) : JamfMCPActionGroup :=
  ActionGroup (default "http://localhost:3000" (environ R !! "MCP_SERVER_URL"))
              session [].

(** The world after an attempt to initialize that made the calls [es] and
    did not succeed: the system holds a new action group and is not
    initialized. *)
Definition after_attempt (R : runtime) (w : world) (session : bool)
    (es : list effect) : world :=
  add_trace
    (with_agent_system w
       (AgentSystem (agents (agent_system w)) (Some (fresh_group R session))
                    false))
    es.

(** Calls to the tool bridge (connection, discovery, tool invocation) and
    to the agent runtime. *)
Definition is_agent_or_tool (e : effect) : Prop :=
  match e with
  | EStdioConnect | ESessionInitialize | EStdioClose | EListTools
  | ECallTool _ _ | ECreateAgents
  | EAgentInvoke _ _ | EAgentInvokeStream _ _ => True
  | _ => False
  end.

(** Calls to the session table, and log records. *)
Definition is_store_or_log (e : effect) : Prop :=
  match e with
  | EGetItem _ | EUpdateItem _ _ | EPutItem _ _ _ _ _ | ELog _ _ => True
  | _ => False
  end.

(** What [create_tool_functions] makes of one item of [available_tools]. *)
Definition make_tool_function (c : nat) (item : string * tool) : tool_function :=
  ToolFunction (fst item) (tool_description (snd item)) c.

(** The world after the loop has assigned [tool_name] for the last time. *)
Definition with_cell (w : world) (c : nat) (items : list (string * tool))
  : world :=
  match last (dict_keys items) with
  | Some name =>
      World (sessions_table w) (store_calls w) (slack_calls w) (clock_reads w)
            (agent_system w) (<[c := Some name]> (cells w)) (trace w)
  | None => w
  end.

(** A world in which the agent system is initialized and its action group
    holds a session and the tools of [demo_tools] under their names. *)
Definition discovered_world : world :=
  World ∅ 0 0 0
    (AgentSystem true
       (Some (ActionGroup "http://localhost:3000" true (store_tools [] demo_tools)))
       true)
    [] [].


(** Two callers of [initialize], none of which has started. *)
Definition two_callers : list task * conc_state := ([TStart; TStart], conc_initial).

(** A task that is not in the middle of an initialization. *)
Definition idle (t : task) : Prop :=
  match t with
  | TConnecting _ | TInitializing _ => False
  | _ => True
  end.

(** A chunk the streaming loop keeps: [chunk.get('type') == 'content']. *)
Definition is_content (chunk : pyval) : bool :=
  match py_get chunk "type" PNone with
  | Ok ty => py_eq_str ty "content"
  | _ => false
  end.

(** [chunk.get('text', '')] of a chunk that is a dict. *)
Definition chunk_text (chunk : pyval) : pyval :=
  match py_get chunk "text" (PStr "") with
  | Ok v => v
  | _ => PStr ""
  end.

Definition is_dict (v : pyval) : Prop := exists d, v = PDict d.

(** Calls to the Slack Web API. *)
Definition is_slack (e : effect) : bool :=
  match e with
  | EPostMessage _ _ _ | EChatUpdate _ _ _ => true
  | _ => false
  end.

(** How the streaming loop shows the text gathered so far: it edits the
    message it has posted, or posts one when it has no message yet. *)
Definition show_text (channel_id message_ts : pyval) (full_text : string)
  : effect :=
  if truthy message_ts
  then EChatUpdate channel_id message_ts (PStr full_text)
  else EPostMessage channel_id (PStr full_text) None.

(** [demo] with another answer of [parse_qs]. *)
Definition demo_parsing (parsed : list (string * list string)) : runtime :=
  {| hmac_sha256_hexdigest := hmac_sha256_hexdigest demo;
     json_loads := json_loads demo;
     json_dumps := json_dumps demo;
     parse_qs := fun _ => Ok parsed;
     py_repr := py_repr demo;
     int_max_str_digits := int_max_str_digits demo;
     unicode_decimal := unicode_decimal demo;
     environ := environ demo;
     time_time := time_time demo;
     utcnow_isoformat := utcnow_isoformat demo;
     now_isoformat := now_isoformat demo;
     store_fault := store_fault demo;
     slack_reply := slack_reply demo;
     stdio_open := stdio_open demo;
     session_initialize := session_initialize demo;
     closed_session_error := closed_session_error demo;
     agent_invoke := agent_invoke demo;
     agent_invoke_stream := agent_invoke_stream demo;
     loop_running := loop_running demo;
     no_current_loop := no_current_loop demo |}.

(** The fields of a slash command of user [U1] in channel [C1]. *)
Definition slash_command (command text : string) : list (string * pyval) :=
  [("command", PStr command); ("text", PStr text);
   ("user_id", PStr "U1"); ("channel_id", PStr "C1")].

Definition callback_body : string :=
  "{" ++ dq ++ "type" ++ dq ++ ":" ++ dq ++ "event_callback" ++ dq ++ "}".

(** [demo] receiving event callbacks, inside a running event loop or not. *)
Definition demo_events (running : bool) : runtime :=
  {| hmac_sha256_hexdigest := hmac_sha256_hexdigest demo;
     json_loads := fun v =>
       if py_eq_str v callback_body
       then Ok (PDict [("type", PStr "event_callback")])
       else json_loads demo v;
     json_dumps := json_dumps demo;
     parse_qs := parse_qs demo;
     py_repr := py_repr demo;
     int_max_str_digits := int_max_str_digits demo;
     unicode_decimal := unicode_decimal demo;
     environ := environ demo;
     time_time := time_time demo;
     utcnow_isoformat := utcnow_isoformat demo;
     now_isoformat := now_isoformat demo;
     store_fault := store_fault demo;
     slack_reply := slack_reply demo;
     stdio_open := stdio_open demo;
     session_initialize := session_initialize demo;
     closed_session_error := closed_session_error demo;
     agent_invoke := agent_invoke demo;
     agent_invoke_stream := agent_invoke_stream demo;
     loop_running := running;
     no_current_loop := no_current_loop demo |}.

(** The line of [format_response_blocks] for one agent action. *)
Definition tool_line (R : runtime) (action : pyval) : string :=
  bullet ++ py_str R (match action with
                      | PDict a => default (PStr "Unknown") (dict_get a "actionName")
                      | _ => PStr "Unknown"
                      end).

(** The context block that lists the tools. *)
Definition tools_block (lines : list string) : pyval :=
  PDict [("type", PStr "context");
         ("elements",
          PList [PDict [("type", PStr "mrkdwn");
                        ("text", PStr ("_Tools used: "
                                       ++ str_join ", " lines ++ "_"))]])].

(** A direct message of user [U1] in the channel [D1]. *)
Definition direct_message (text : string) : list (string * pyval) :=
  [("type", PStr "message"); ("channel_type", PStr "im");
   ("user", PStr "U1"); ("channel", PStr "D1"); ("text", PStr text)].

(** [demo] with an agent whose stream breaks after seven chunks. *)
Definition demo_breaking : runtime :=
  {| hmac_sha256_hexdigest := hmac_sha256_hexdigest demo;
     json_loads := json_loads demo;
     json_dumps := json_dumps demo;
     parse_qs := parse_qs demo;
     py_repr := py_repr demo;
     int_max_str_digits := int_max_str_digits demo;
     unicode_decimal := unicode_decimal demo;
     environ := environ demo;
     time_time := time_time demo;
     utcnow_isoformat := utcnow_isoformat demo;
     now_isoformat := now_isoformat demo;
     store_fault := store_fault demo;
     slack_reply := slack_reply demo;
     stdio_open := stdio_open demo;
     session_initialize := session_initialize demo;
     closed_session_error := closed_session_error demo;
     agent_invoke := agent_invoke demo;
     agent_invoke_stream := fun _ _ =>
       (map content_chunk ["a"; "b"; "c"; "d"; "e"; "f"; "g"],
        Some (Exception (Exn "RuntimeError" "stream closed")));
     loop_running := loop_running demo;
     no_current_loop := no_current_loop demo |}.

(** * Properties *)

Section Properties.

Variable R : runtime.

(** C8. When the environment flag says [production], initialization of the
    tool bridge raises [NotImplementedError] at once: nothing is sent to
    the provider (no connection, no [list_tools]), and the state is as it
    was. The same holds for the agent system that starts the bridge: it
    raises the same error, records no discovery call and stays
    uninitialized. *)
Theorem initialize_production_fails_fast (w : world) (g : JamfMCPActionGroup) :
  environ R !! "ENVIRONMENT" = Some "production" ->
  (mcp_action_group (agent_system w) = Some g ->
   JamfMCPActionGroup_initialize R w =
     (Raise (Exn "NotImplementedError" "HTTP MCP connection not yet implemented"),
      w)) /\
  (initialized (agent_system w) = false ->
   let r := JamfAgentSystem_initialize R w in
   fst r = Raise (Exn "NotImplementedError"
                      "HTTP MCP connection not yet implemented") /\
   trace (snd r) = trace w /\
   initialized (agent_system (snd r)) = false).
Proof.
  intros Henv. split.
  - intros Hg. unfold JamfMCPActionGroup_initialize, self_action_group, bind,
      get_world. rewrite Hg. cbn.
    destruct (decide _) as [_|Hn]; [reflexivity | contradiction].
  - intros Hi. unfold JamfAgentSystem_initialize, bind, get_world.
    rewrite Hi. cbn.
    unfold JamfMCPActionGroup_initialize, self_action_group, bind, get_world.
    cbn. destruct (decide _) as [_|Hn]; [| contradiction].
    cbn. auto.
Qed.

(** C10. A request without the timestamp header, or with a timestamp that
    [int()] refuses, makes [verify_slack_request] raise at the conversion;
    nothing catches the exception, so [lambda_handler] raises it too and
    returns no response at all (no 401, no 200, no 400). For the missing
    header the exception is the [ValueError] of [int('')]. *)
Theorem lambda_handler_bad_timestamp (event : pyval)
    (d : list (string * pyval)) (w : world) :
  py_getitem event "headers" = Ok (PDict d) ->
  (dict_get d "x-slack-request-timestamp" = None ->
   let e := Exn "ValueError"
                ("invalid literal for int() with base 10: "
                 ++ take_chars 200 (py_repr R (PStr ""))) in
   fst (verify_slack_request R event w) = Raise e /\
   fst (lambda_handler R event w) = Raise e) /\
  (forall v e,
     dict_get d "x-slack-request-timestamp" = Some v ->
     py_int R v = Raise e ->
     fst (verify_slack_request R event w) = Raise e /\
     fst (lambda_handler R event w) = Raise e).
Proof.
  intros Hh. split.
  - intros Hd. cbn zeta.
    unfold lambda_handler, verify_slack_request, bind, lift, logger, emit.
    cbn. rewrite Hh. cbn. rewrite Hd. cbn. split; reflexivity.
  - intros v e Hd Hv.
    unfold lambda_handler, verify_slack_request, bind, lift, logger, emit.
    cbn. rewrite Hh. cbn. rewrite Hd. cbn. rewrite Hv. split; reflexivity.
Qed.

(** The session identifier does not depend on the store: on every path
    [get_or_create_session] returns the formatted pair. *)
Lemma get_or_create_session_result (user_id channel_id : pyval) (w : world) :
  fst (get_or_create_session R user_id channel_id w)
  = Ok (py_str R user_id ++ "_" ++ py_str R channel_id).
Proof.
  unfold get_or_create_session, try_except, bind, store_call, utcnow, logger,
    emit, get_world, set_store_calls, set_clock_reads, set_sessions_table,
    raise, ret.
  cbn.
  destruct (store_fault R (store_calls w)); cbn; [reflexivity |].
  destruct (sessions_table w !! _); cbn;
    destruct (store_fault R (S (store_calls w))); reflexivity.
Qed.

(** C6. For every pair of user and channel, [get_or_create_session]
    returns [user_id + "_" + channel_id]: on the first call, on a repeated
    call in the state the first one left, and when a call to the session
    store raises, in which case the failure is logged (the error record is
    the last thing the function does) before the same identifier is
    returned. *)
Theorem get_or_create_session_deterministic (user_id channel_id : string)
    (w : world) :
  let r := get_or_create_session R (PStr user_id) (PStr channel_id) w in
  fst r = Ok (user_id ++ "_" ++ channel_id) /\
  fst (get_or_create_session R (PStr user_id) (PStr channel_id) (snd r))
    = Ok (user_id ++ "_" ++ channel_id) /\
  (forall k err,
     (store_calls w <= k < store_calls (snd r))%nat ->
     store_fault R k = Some err ->
     fst r = Ok (user_id ++ "_" ++ channel_id) /\
     last (trace (snd r))
       = Some (ELog "ERROR" ("Session management error: " ++ exn_str err))).
Proof.
  cbn zeta. split; [apply get_or_create_session_result |].
  split; [apply get_or_create_session_result |].
  intros k err Hk Hf. split; [apply get_or_create_session_result |].
  revert Hk.
  unfold get_or_create_session, try_except, bind, store_call, utcnow, logger,
    emit, get_world, set_store_calls, set_clock_reads, set_sessions_table,
    raise, ret.
  cbn.
  destruct (store_fault R (store_calls w)) as [e0|] eqn:E0; cbn.
  - intros Hk. assert (k = store_calls w) by lia. subst k.
    rewrite E0 in Hf. injection Hf as ->. apply last_snoc.
  - destruct (sessions_table w !! _); cbn;
      destruct (store_fault R (S (store_calls w))) as [e1|] eqn:E1; cbn;
      intros Hk;
      (assert (k = store_calls w \/ k = S (store_calls w)) as [->| ->] by lia;
       [rewrite E0 in Hf; discriminate | rewrite E1 in Hf]);
      try discriminate;
      injection Hf as ->; apply last_snoc.
Qed.

(** *** Strings and bits *)

Lemma list_ascii_of_string_app (a b : string) :
  list_ascii_of_string (a ++ b)
  = (list_ascii_of_string a ++ list_ascii_of_string b)%list.
Proof. induction a as [|c a IH]; simpl; [reflexivity | f_equal; exact IH]. Qed.

Lemma is_ascii_app (a b : string) :
  is_ascii (a ++ b) = is_ascii a && is_ascii b.
Proof.
  unfold is_ascii. rewrite list_ascii_of_string_app. apply forallb_app.
Qed.

Lemma utf8_of_flip_neq (c : ascii) (k : nat) (s' : string) :
  (code c <? 128)%N = true -> (k < 8)%nat ->
  utf8_of (N.lxor (code c) (2 ^ N.of_nat k)) ++ s' <> String c s'.
Proof.
  intros Hc Hk.
  destruct c as [b0 b1 b2 b3 b4 b5 b6 b7].
  destruct b7; [destruct b0, b1, b2, b3, b4, b5, b6; discriminate Hc |].
  do 8 (destruct k as [|k];
        [destruct b0, b1, b2, b3, b4, b5, b6; vm_compute; intros H;
         discriminate H |]).
  lia.
Qed.

Lemma flip_bit_neq (s : string) (i : nat) :
  is_ascii s = true -> (i < 8 * String.length s)%nat -> flip_bit i s <> s.
Proof.
  revert i. induction s as [|c s IH]; intros i Ha Hi.
  { cbn in Hi. lia. }
  change (String.length (String c s)) with (S (String.length s)) in Hi.
  unfold is_ascii in Ha. cbn [list_ascii_of_string forallb] in Ha.
  apply andb_prop in Ha as [Hc Hs].
  cbn [flip_bit]. destruct (i <? 8)%nat eqn:E.
  - apply Nat.ltb_lt in E. apply utf8_of_flip_neq; assumption.
  - apply Nat.ltb_ge in E. intros H. injection H as H.
    apply (IH (i - 8)%nat); [exact Hs | lia | exact H].
Qed.

Lemma hex_digit_ascii (n : N) : (code (hex_digit n) <? 128)%N = true.
Proof.
  unfold hex_digit. generalize (N.to_nat n). intros k.
  do 16 (destruct k as [|k]; [reflexivity |]). reflexivity.
Qed.

Lemma hex_of_ascii (l : list N) : is_ascii (hex_of l) = true.
Proof.
  unfold is_ascii. induction l as [|b l IH]; [reflexivity |].
  cbn [hex_of list_ascii_of_string forallb].
  rewrite !hex_digit_ascii. exact IH.
Qed.

Lemma add_trace_nil (w : world) : add_trace w [] = w.
Proof. destruct w. unfold add_trace. cbn. rewrite app_nil_r. reflexivity. Qed.

Lemma add_trace_app (w : world) (a b : list effect) :
  add_trace (add_trace w a) b = add_trace w (a ++ b).
Proof. unfold add_trace. cbn. rewrite app_assoc. reflexivity. Qed.

(** *** Doubles *)

Lemma bit_length_le (m k : Z) :
  0 <= k -> (bit_length m <= k <-> Z.abs m < 2 ^ k).
Proof.
  intros Hk. unfold bit_length. destruct (m =? 0) eqn:E.
  - apply Z.eqb_eq in E. subst m. cbn [Z.abs].
    pose proof (Z.pow_pos_nonneg 2 k ltac:(lia) Hk). lia.
  - apply Z.eqb_neq in E.
    rewrite (Z.log2_lt_pow2 (Z.abs m) k) by lia. lia.
Qed.

Lemma round_exact (m e : Z) :
  Z.abs m < 2 ^ 53 -> - 1074 <= e -> round_to_double m e = Double m e.
Proof.
  intros Hm He. unfold round_to_double.
  apply (bit_length_le m 53) in Hm; [| lia].
  destruct (Z.max _ _ <=? 0) eqn:E; [reflexivity |].
  apply Z.leb_gt in E. lia.
Qed.

Lemma round_big (m e : Z) :
  2 ^ 53 <= Z.abs m -> - 1074 <= e ->
  exists q s,
    round_to_double m e = Double (Z.sgn m * q) (e + s) /\
    0 < s /\ 2 ^ 52 <= q /\ 2 ^ (52 + s) <= Z.abs m.
Proof.
  intros Hm He. unfold round_to_double.
  assert (Hbl : 53 < bit_length m).
  { destruct (Z_le_gt_dec (bit_length m) 53) as [H|H]; [| lia].
    apply bit_length_le in H; lia. }
  set (s := Z.max (bit_length m - 53) (- 1074 - e)).
  assert (Hs : s = bit_length m - 53) by lia.
  assert (Hpow : 2 ^ (52 + s) <= Z.abs m).
  { rewrite Hs. unfold bit_length in *. destruct (m =? 0) eqn:E; [lia |].
    apply Z.eqb_neq in E.
    replace (52 + (Z.log2 (Z.abs m) + 1 - 53)) with (Z.log2 (Z.abs m)) by lia.
    apply Z.log2_spec. lia. }
  destruct (s <=? 0) eqn:E; [apply Z.leb_le in E; lia |].
  assert (Hq : 2 ^ 52 <= Z.abs m / 2 ^ s).
  { apply Z.div_le_lower_bound; [apply Z.pow_pos_nonneg; lia |].
    rewrite <- Z.pow_add_r by lia. replace (s + 52) with (52 + s) by lia.
    exact Hpow. }
  eexists _, s. split; [reflexivity |]. split; [lia |]. split; [| exact Hpow].
  destruct (_ <? _); [exact Hq |].
  destruct (_ <? _); [lia |].
  destruct (Z.even _); lia.
Qed.

Lemma big_double_gt (n q x : Z) :
  n * 2 ^ 43 < 2 ^ 52 -> 0 <= n -> 2 ^ 52 <= q -> - 43 <= x ->
  double_abs_gt (Double q x) n = true.
Proof.
  intros Hn H0 Hq Hx. unfold double_abs_gt. cbn [mantissa exponent].
  destruct (0 <=? x) eqn:E.
  - apply Z.leb_le in E. apply Z.ltb_lt.
    assert (1 <= 2 ^ x) by (apply (Z.pow_le_mono_r 2 0 x); lia).
    assert (n < 2 ^ 52) by lia. nia.
  - apply Z.leb_gt in E. apply Z.ltb_lt.
    assert (2 ^ (- x) <= 2 ^ 43) by (apply Z.pow_le_mono_r; lia).
    assert (0 < 2 ^ (- x)) by (apply Z.pow_pos_nonneg; lia).
    nia.
Qed.

Lemma abs_sgn_mul (t q : Z) : t <> 0 -> 0 <= q -> Z.abs (Z.sgn t * q) = q.
Proof. intros Ht Hq. destruct t; [contradiction | |]; cbn [Z.sgn]; lia. Qed.

Lemma timestamp_too_old_exact (t : Z) :
  runtime_sane R ->
  timestamp_too_old R t
  = (300 * 2 ^ (- exponent (time_time R))
     <? Z.abs (mantissa (time_time R) - t * 2 ^ (- exponent (time_time R)))).
Proof.
  intros [_ Hm He]. unfold timestamp_too_old.
  destruct (time_time R) as [m e]. cbn [mantissa exponent] in *.
  set (p := 2 ^ (- e)).
  assert (Hp1 : 2 <= p).
  { change 2 with (2 ^ 1) at 1. apply Z.pow_le_mono_r; lia. }
  assert (Hp2 : p <= 2 ^ 44) by (apply Z.pow_le_mono_r; lia).
  assert (H53 : 2 ^ 53 = 9007199254740992) by reflexivity.
  assert (H44 : 2 ^ 44 = 17592186044416) by reflexivity.
  assert (H52 : 2 ^ 52 = 4503599627370496) by reflexivity.
  assert (H43 : 2 ^ 43 = 8796093022208) by reflexivity.
  (* the value of the stamp as a double *)
  assert (HT : exists mt et,
             round_to_double t 0 = Double mt et /\ 0 <= et /\
             (Z.abs t < 2 ^ 53 -> mt = t /\ et = 0) /\
             (2 ^ 53 <= Z.abs t -> 2 ^ 53 <= Z.abs mt * 2 ^ et)).
  { destruct (Z_lt_le_dec (Z.abs t) (2 ^ 53)) as [Hs|Hb].
    - exists t, 0. rewrite round_exact by lia. repeat split; lia.
    - destruct (round_big t 0 Hb ltac:(lia)) as (q & s & -> & Hs & Hq & _).
      exists (Z.sgn t * q), (0 + s). split; [reflexivity |].
      split; [lia |]. split; [lia |]. intros _.
      rewrite abs_sgn_mul by lia.
      assert (2 <= 2 ^ (0 + s)).
      { change 2 with (2 ^ 1) at 1. apply Z.pow_le_mono_r; lia. }
      nia. }
  destruct HT as (mt & et & -> & Het & Hsmall & Hbig).
  unfold double_sub. cbn [mantissa exponent].
  rewrite Z.min_l by lia. rewrite Z.sub_diag, Z.pow_0_r, Z.mul_1_r.
  set (M := m - mt * 2 ^ (et - e)).
  destruct (Z_lt_le_dec (Z.abs M) (2 ^ 53)) as [HM|HM].
  - (* an exact difference: the stamp is exact too *)
    assert (Ht : Z.abs t < 2 ^ 53).
    { destruct (Z_lt_le_dec (Z.abs t) (2 ^ 53)) as [?|Hb]; [assumption |].
      exfalso. specialize (Hbig Hb). subst M.
      replace (et - e) with (et + - e) in HM by lia.
      rewrite Z.pow_add_r in HM by lia. fold p in HM.
      assert (0 < 2 ^ et) by (apply Z.pow_pos_nonneg; lia).
      destruct (Z.abs_spec mt) as [[? Ea]|[? Ea]]; rewrite Ea in Hbig; nia. }
    destruct (Hsmall Ht) as [-> ->]. subst M.
    rewrite Z.sub_0_l in *. fold p in HM |- *.
    rewrite round_exact by lia.
    assert (E0 : (0 <=? e) = false) by (apply Z.leb_gt; lia).
    unfold double_at_least_pow2. cbn [mantissa exponent]. rewrite E0.
    replace (2 ^ (1024 - e) <=? Z.abs (m - t * p)) with false.
    + unfold double_abs_gt. cbn [mantissa exponent]. rewrite E0. reflexivity.
    + symmetry. apply Z.leb_gt.
      assert (2 ^ 53 <= 2 ^ (1024 - e)) by (apply Z.pow_le_mono_r; lia). lia.
  - (* a difference of more than 53 bits: it is greater than 300 however
       it is rounded, and so is the exact difference *)
    destruct (round_big M e HM ltac:(lia)) as (q & s & -> & Hs & Hq & HMs).
    assert (Hgt : double_abs_gt (Double (Z.sgn M * q) (e + s)) 300 = true).
    { unfold double_abs_gt. cbn [mantissa exponent].
      rewrite abs_sgn_mul by lia.
      pose proof (big_double_gt 300 q (e + s) ltac:(lia) ltac:(lia) Hq
                    ltac:(lia)) as B.
      unfold double_abs_gt in B. cbn [mantissa exponent] in B.
      replace (Z.abs q) with q in * by lia. exact B. }
    assert (Hres : match
               (if double_at_least_pow2 1024 (Double (Z.sgn M * q) (e + s))
                then None else Some (Double (Z.sgn M * q) (e + s)))
             with Some d => double_abs_gt d 300 | None => true end = true).
    { destruct (double_at_least_pow2 _ _); [reflexivity | exact Hgt]. }
    rewrite Hres. symmetry. apply Z.ltb_lt.
    (* the exact difference *)
    destruct (Z_lt_le_dec (Z.abs t) (2 ^ 53)) as [Ht|Ht].
    + destruct (Hsmall Ht) as [-> ->]. subst M.
      rewrite Z.sub_0_l in HM. fold p in HM. lia.
    + assert (2 ^ 53 * p <= Z.abs t * p) by nia.
      destruct (Z.abs_spec t) as [[? Ea]|[? Ea]]; rewrite Ea in *;
        destruct (Z.abs_spec (m - t * p)) as [[? Eb]|[? Eb]]; rewrite Eb;
        destruct (Z.abs_spec m) as [[? Ec]|[? Ec]]; rewrite Ec in *; nia.
Qed.


Lemma within_exact (t n : Z) :
  runtime_sane R ->
  (Qabs (double_value (time_time R) - inject_Z t) <= inject_Z n)%Q <->
  Z.abs (mantissa (time_time R) - t * 2 ^ (- exponent (time_time R)))
  <= n * 2 ^ (- exponent (time_time R)).
Proof.
  intros [_ Hm He]. unfold double_value.
  destruct (time_time R) as [m e]. cbn [mantissa exponent] in *.
  replace (0 <=? e) with false by (symmetry; apply Z.leb_gt; lia).
  assert (Hp : 0 < 2 ^ (- e)) by (apply Z.pow_pos_nonneg; lia).
  set (p := 2 ^ (- e)) in *.
  unfold Qle, Qabs, Qminus, Qplus, Qopp, inject_Z. cbn [Qnum Qden].
  rewrite !Pos2Z.inj_mul, Z2Pos.id by exact Hp.
  replace (m * 1 + - t * p) with (m - t * p) by ring.
  rewrite !Z.mul_1_r. reflexivity.
Qed.

Lemma fresh_exact (t : Z) :
  runtime_sane R ->
  timestamp_too_old R t = false <->
  (Qabs (double_value (time_time R) - inject_Z t) <= 300 # 1)%Q.
Proof.
  intros Hs. rewrite (timestamp_too_old_exact t Hs).
  change (300 # 1)%Q with (inject_Z 300). rewrite (within_exact t 300 Hs).
  rewrite Z.ltb_ge. reflexivity.
Qed.

(** A stamp within 301 s of a sane clock converts to a float. *)
Lemma fresh_converts (t : Z) :
  runtime_sane R ->
  (Qabs (double_value (time_time R) - inject_Z t) <= 301 # 1)%Q ->
  float_overflows t = false.
Proof.
  intros Hs Hf. change (301 # 1)%Q with (inject_Z 301) in Hf.
  apply (within_exact t 301 Hs) in Hf. destruct Hs as [_ Hm He].
  destruct (time_time R) as [m e]. cbn [mantissa exponent] in *.
  assert (Hp1 : 2 <= 2 ^ (- e)).
  { change 2 with (2 ^ 1) at 1. apply Z.pow_le_mono_r; lia. }
  set (p := 2 ^ (- e)) in *.
  assert (H53 : 2 ^ 53 = 9007199254740992) by reflexivity.
  assert (Ht : Z.abs t < 2 ^ 53) by nia.
  unfold float_overflows. apply Z.leb_gt.
  assert (Hb : 2 ^ 53 < 2 ^ 1024 - 2 ^ 970)
    by (apply Z.ltb_lt; vm_compute; reflexivity).
  lia.
Qed.

(** *** Request verification *)

(** What [verify_slack_request] computes once the headers are read and the
    stamp is an integer that converts to a float. *)
Lemma verify_slack_request_eq (event : pyval) (w : world)
    (headers timestamp signature : pyval) (t : Z) :
  py_getitem event "headers" = Ok headers ->
  py_get headers "x-slack-request-timestamp" (PStr "") = Ok timestamp ->
  py_get headers "x-slack-signature" (PStr "") = Ok signature ->
  py_int R timestamp = Ok t ->
  float_overflows t = false ->
  verify_slack_request R event w =
    if timestamp_too_old R t
    then (Ok false, add_trace w [ELog "WARNING" "Request timestamp too old"])
    else match py_getitem event "body" with
         | Ok body =>
             (compare_digest (expected_signature R timestamp body) signature, w)
         | Raise e => (Raise e, w)
         | Abort e => (Abort e, w)
         end.
Proof.
  intros Hh Ht Hs Hi Hf.
  unfold verify_slack_request, bind, lift, logger, emit, raise, ret.
  rewrite Hh, Ht, Hs, Hi, Hf.
  destruct (timestamp_too_old R t); [reflexivity |].
  destruct (py_getitem event "body"); reflexivity.
Qed.

(** The result of the verification does not depend on the world, and the
    only mark it leaves is the warning of a stale stamp. *)
Lemma verify_slack_request_frame (event : pyval) (w : world) :
  exists logs,
    verify_slack_request R event w
    = (fst (verify_slack_request R event initial_world), add_trace w logs) /\
    Forall is_log logs.
Proof.
  unfold verify_slack_request, bind, lift, logger, emit, raise, ret.
  destruct (py_getitem event "headers") as [headers|e|e];
    [| exists []; rewrite add_trace_nil; auto ..].
  destruct (py_get headers "x-slack-request-timestamp" (PStr "")) as [ts|e|e];
    [| exists []; rewrite add_trace_nil; auto ..].
  destruct (py_get headers "x-slack-signature" (PStr "")) as [sg|e|e];
    [| exists []; rewrite add_trace_nil; auto ..].
  destruct (py_int R ts) as [t|e|e];
    [| exists []; rewrite add_trace_nil; auto ..].
  destruct (float_overflows t); [exists []; rewrite add_trace_nil; auto |].
  destruct (timestamp_too_old R t).
  - eexists. split; [reflexivity |]. repeat constructor.
  - destruct (py_getitem event "body");
      exists []; rewrite add_trace_nil; auto.
Qed.

Lemma compare_digest_true (a : string) (b : pyval) :
  compare_digest a b = Ok true -> b = PStr a.
Proof.
  unfold compare_digest. destruct b; try discriminate.
  destruct (is_ascii a && is_ascii s); [| discriminate].
  intros H. injection H as H. apply String.eqb_eq in H. now subst.
Qed.

Lemma expected_signature_ascii (timestamp body : pyval) :
  runtime_sane R -> is_ascii (expected_signature R timestamp body) = true.
Proof.
  intros [Ha _ _]. unfold expected_signature. rewrite is_ascii_app, Ha.
  reflexivity.
Qed.

(** The shape of [lambda_handler]: log, verify, then answer 401 or go on. *)
Lemma lambda_handler_eq (event : pyval) :
  exists route : M pyval, forall w,
    lambda_handler R event w =
    match verify_slack_request R event
            (add_trace w [ELog "INFO" ("Received event: " ++ json_dumps R event)])
    with
    | (Ok verified, w') =>
        if negb verified
        then (Ok (response 401
                    (json_dumps R (PDict [("error", PStr "Unauthorized")]))), w')
        else route w'
    | (Raise e, w') => (Raise e, w')
    | (Abort e, w') => (Abort e, w')
    end.
Proof.
  eexists. intros w. unfold lambda_handler, bind, logger, emit, ret, add_trace.
  cbn beta iota.
  destruct (verify_slack_request R event _) as [[v|e|e] w']; [| reflexivity ..].
  destruct v; cbn; reflexivity.
Qed.

(** The handler answers 401 and does nothing else when the verification
    says no. *)
Lemma lambda_handler_unauthorized (event : pyval) (w : world) :
  fst (verify_slack_request R event w) = Ok false ->
  exists logs,
    lambda_handler R event w
    = (Ok (response 401 (json_dumps R (PDict [("error", PStr "Unauthorized")]))),
       add_trace w logs) /\
    Forall is_log logs.
Proof.
  intros H.
  destruct (lambda_handler_eq event) as [route Hl]. rewrite Hl.
  destruct (verify_slack_request_frame event w) as (l0 & E0 & _).
  destruct (verify_slack_request_frame event
              (add_trace w [ELog "INFO" ("Received event: " ++ json_dumps R event)]))
    as (l1 & E1 & F1).
  pose proof (f_equal fst E0) as E0'. cbn [fst] in E0'.
  rewrite E0' in H. clear E0 E0'.
  destruct (verify_slack_request R event (add_trace w _)) as [r w'].
  injection E1 as -> ->. rewrite H. cbn.
  eexists. split.
  - rewrite add_trace_app. reflexivity.
  - constructor; [exact I | exact F1].
Qed.

(** An accepted request leaves no mark, whatever the world. *)
Lemma verify_slack_request_true (event : pyval) (w w' : world) :
  fst (verify_slack_request R event w) = Ok true ->
  verify_slack_request R event w' = (Ok true, w').
Proof.
  unfold verify_slack_request, bind, lift, logger, emit, raise, ret.
  destruct (py_getitem event "headers") as [headers|e|e]; [| discriminate ..].
  destruct (py_get headers "x-slack-request-timestamp" (PStr "")) as [ts|e|e];
    [| discriminate ..].
  destruct (py_get headers "x-slack-signature" (PStr "")) as [sg|e|e];
    [| discriminate ..].
  destruct (py_int R ts) as [t|e|e]; [| discriminate ..].
  destruct (float_overflows t); [discriminate |].
  destruct (timestamp_too_old R t); [discriminate |].
  destruct (py_getitem event "body"); [| discriminate ..].
  cbn. intros ->. reflexivity.
Qed.

(** The handler raises what the verification raises. *)
Lemma lambda_handler_raises (event : pyval) (w : world) (e : exn) :
  (forall w', verify_slack_request R event w' = (Raise e, w')) ->
  lambda_handler R event w
  = (Raise e,
     add_trace w [ELog "INFO" ("Received event: " ++ json_dumps R event)]).
Proof.
  intros H. destruct (lambda_handler_eq event) as [route Hl].
  rewrite Hl, H. reflexivity.
Qed.

(** C2. [verify_slack_request] returns [True] exactly when the signature
    header is ['v0='] followed by the hex HMAC-SHA256 of
    ['v0:{timestamp}:{body}'] under the signing secret and the stamp is
    within 300 seconds of the clock. A request whose stamp is 301 seconds
    old gets [False], with a warning logged. A request that gets [False] is
    answered with status 401 and body [{"error": "Unauthorized"}], the
    handler doing nothing but logging. A request whose signature differs
    from the expected one in a single bit gets [False] when the altered
    character is still an ASCII character; when the top bit of a character
    was flipped, [hmac.compare_digest] raises [TypeError], nothing catches
    it, and the handler raises it instead of answering 401. *)
Theorem verify_slack_request_accepts (event : pyval) (w : world) :
  runtime_sane R ->
  (fst (verify_slack_request R event w) = Ok true <->
   exists headers timestamp body t,
     py_getitem event "headers" = Ok headers /\
     py_get headers "x-slack-request-timestamp" (PStr "") = Ok timestamp /\
     py_getitem event "body" = Ok body /\
     py_int R timestamp = Ok t /\
     (Qabs (double_value (time_time R) - inject_Z t) <= 300 # 1)%Q /\
     py_get headers "x-slack-signature" (PStr "")
       = Ok (PStr (expected_signature R timestamp body))) /\
  (forall headers timestamp signature t,
     py_getitem event "headers" = Ok headers ->
     py_get headers "x-slack-request-timestamp" (PStr "") = Ok timestamp ->
     py_get headers "x-slack-signature" (PStr "") = Ok signature ->
     py_int R timestamp = Ok t ->
     (double_value (time_time R) == inject_Z t + (301 # 1))%Q ->
     verify_slack_request R event w
     = (Ok false, add_trace w [ELog "WARNING" "Request timestamp too old"])) /\
  (fst (verify_slack_request R event w) = Ok false ->
   exists logs,
     lambda_handler R event w
     = (Ok (PDict [("statusCode", PInt 401);
                   ("body", PStr (json_dumps R
                                    (PDict [("error", PStr "Unauthorized")])))]),
        add_trace w logs) /\
     Forall is_log logs) /\
  (forall headers timestamp body t i,
     py_getitem event "headers" = Ok headers ->
     py_get headers "x-slack-request-timestamp" (PStr "") = Ok timestamp ->
     py_get headers "x-slack-signature" (PStr "")
       = Ok (PStr (flip_bit i (expected_signature R timestamp body))) ->
     py_getitem event "body" = Ok body ->
     py_int R timestamp = Ok t ->
     (Qabs (double_value (time_time R) - inject_Z t) <= 300 # 1)%Q ->
     (i < 8 * String.length (expected_signature R timestamp body))%nat ->
     if is_ascii (flip_bit i (expected_signature R timestamp body))
     then verify_slack_request R event w = (Ok false, w)
     else
       let e := Exn "TypeError"
                    "comparing strings with non-ASCII characters is not supported" in
       verify_slack_request R event w = (Raise e, w) /\
       lambda_handler R event w
       = (Raise e,
          add_trace w [ELog "INFO" ("Received event: " ++ json_dumps R event)])).
Proof.
  intros Hsane.
  assert (Hconv : forall t,
            (Qabs (double_value (time_time R) - inject_Z t) <= 300 # 1)%Q ->
            float_overflows t = false).
  { intros t Ht. apply fresh_converts; [exact Hsane |].
    eapply Qle_trans; [exact Ht | discriminate]. }
  split; [| split; [| split]].
  - split.
    + intros H.
      destruct (py_getitem event "headers") as [headers| |] eqn:Hh;
        [| unfold verify_slack_request, bind, lift in H; rewrite Hh in H;
           discriminate ..].
      destruct (py_get headers "x-slack-request-timestamp" (PStr ""))
        as [ts| |] eqn:Hts;
        [| unfold verify_slack_request, bind, lift in H; rewrite Hh, Hts in H;
           discriminate ..].
      destruct (py_get headers "x-slack-signature" (PStr "")) as [sg| |] eqn:Hsg;
        [| unfold verify_slack_request, bind, lift in H;
           rewrite Hh, Hts, Hsg in H; discriminate ..].
      destruct (py_int R ts) as [t| |] eqn:Hi;
        [| unfold verify_slack_request, bind, lift in H;
           rewrite Hh, Hts, Hsg, Hi in H; discriminate ..].
      destruct (float_overflows t) eqn:Hf;
        [unfold verify_slack_request, bind, lift in H;
         rewrite Hh, Hts, Hsg, Hi, Hf in H; discriminate |].
      pose proof (verify_slack_request_eq event w headers ts sg t
                    Hh Hts Hsg Hi Hf) as E.
      apply (f_equal fst) in E. rewrite H in E.
      destruct (timestamp_too_old R t) eqn:Hold; [discriminate |].
      apply (fresh_exact t Hsane) in Hold.
      destruct (py_getitem event "body") as [body| |] eqn:Hb;
        [| discriminate ..].
      cbn [fst] in E. symmetry in E. apply compare_digest_true in E. subst sg.
      exists headers, ts, body, t. auto 10.
    + intros (headers & ts & body & t & Hh & Hts & Hb & Hi & Hfr & Hsg).
      pose proof (verify_slack_request_eq event w headers ts _ t
                    Hh Hts Hsg Hi (Hconv t Hfr)) as E.
      apply (f_equal fst) in E.
      rewrite (proj2 (fresh_exact t Hsane) Hfr), Hb in E. cbn [fst] in E.
      rewrite E. unfold compare_digest.
      rewrite expected_signature_ascii by exact Hsane.
      rewrite String.eqb_refl. reflexivity.
  - intros headers ts sg t Hh Hts Hsg Hi Hq.
    assert (Hd : (double_value (time_time R) - inject_Z t == 301 # 1)%Q)
      by (rewrite Hq; ring).
    assert (Hf : float_overflows t = false).
    { apply fresh_converts; [exact Hsane |]. rewrite Hd. discriminate. }
    rewrite (verify_slack_request_eq event w headers ts sg t Hh Hts Hsg Hi Hf).
    destruct (timestamp_too_old R t) eqn:Hold; [reflexivity |].
    apply (fresh_exact t Hsane) in Hold. rewrite Hd in Hold.
    exfalso. apply Hold. reflexivity.
  - intros H.
    destruct (lambda_handler_unauthorized event w H) as (logs & E & F).
    exists logs. split; [exact E | exact F].
  - intros headers ts body t i Hh Hts Hsg Hb Hi Hfr Hlen.
    assert (E : forall w',
              verify_slack_request R event w'
              = (compare_digest (expected_signature R ts body)
                   (PStr (flip_bit i (expected_signature R ts body))), w')).
    { intros w'.
      rewrite (verify_slack_request_eq event w' headers ts _ t
                 Hh Hts Hsg Hi (Hconv t Hfr)).
      rewrite (proj2 (fresh_exact t Hsane) Hfr), Hb. reflexivity. }
    pose proof (flip_bit_neq _ i (expected_signature_ascii ts body Hsane) Hlen)
      as Hne.
    unfold compare_digest in E.
    rewrite expected_signature_ascii in E by exact Hsane.
    destruct (is_ascii (flip_bit i _)) eqn:Hasc; cbn [andb] in E.
    + rewrite E. f_equal. f_equal.
      destruct (String.eqb _ _) eqn:Heq; [| reflexivity].
      apply String.eqb_eq in Heq. exfalso. exact (Hne (eq_sym Heq)).
    + cbn zeta. split; [apply E |].
      apply lambda_handler_raises. exact E.
Qed.

(** C7. A verified request with a JSON content type whose payload has type
    [url_verification] and carries a challenge is answered with status 200
    and body [{"challenge": <the token>}]. The only external call is the
    log record of the event: the session table, the agent system and Slack
    are not touched. *)
Theorem url_verification_echo (event : pyval) (w : world)
    (headers content_type body challenge : pyval)
    (d : list (string * pyval)) :
  fst (verify_slack_request R event w) = Ok true ->
  py_get event "body" (PStr "") = Ok body ->
  py_getitem event "headers" = Ok headers ->
  py_get headers "content-type" (PStr "") = Ok content_type ->
  py_in "application/json" content_type = Ok true ->
  json_loads R body = Ok (PDict d) ->
  dict_get d "type" = Some (PStr "url_verification") ->
  dict_get d "challenge" = Some challenge ->
  lambda_handler R event w
  = (Ok (response 200 (json_dumps R (PDict [("challenge", challenge)]))),
     add_trace w [ELog "INFO" ("Received event: " ++ json_dumps R event)]).
Proof.
  intros Hv Hb Hh Hct Hin Hj Hty Hch.
  unfold lambda_handler, bind, logger, emit, ret, lift.
  match goal with
  | |- context [verify_slack_request R event ?x] =>
      pose proof (verify_slack_request_true event w x Hv) as E;
      destruct (verify_slack_request R event x) as [r w']
  end.
  injection E as -> ->. cbn.
  rewrite Hb, Hh, Hct, Hin, Hj. cbn. rewrite Hty. cbn. rewrite Hch.
  reflexivity.
Qed.

(** *** Slash commands *)

(** The session keeper talks to the session table and the log only. *)
Lemma get_or_create_session_frame (user_id channel_id : pyval) (w : world) :
  let r := get_or_create_session R user_id channel_id w in
  exists es,
    trace (snd r) = (trace w ++ es)%list /\
    Forall is_store_or_log es /\
    agent_system (snd r) = agent_system w /\
    slack_calls (snd r) = slack_calls w /\
    cells (snd r) = cells w.
Proof.
  cbn zeta.
  unfold get_or_create_session, try_except, bind, store_call, utcnow, logger,
    emit, get_world, set_store_calls, set_clock_reads, set_sessions_table,
    raise, ret.
  cbn.
  destruct (store_fault R (store_calls w)); cbn.
  { eexists. rewrite <- app_assoc. split; [reflexivity |].
    split; [repeat constructor | auto]. }
  destruct (sessions_table w !! _); cbn;
    destruct (store_fault R (S (store_calls w))); cbn;
    eexists; rewrite <- ?app_assoc;
    (split; [reflexivity | split; [repeat constructor | auto]]).
Qed.

Lemma store_or_log_not_agent (e : effect) :
  is_store_or_log e -> ~ is_agent_or_tool e.
Proof. destruct e; cbn; tauto. Qed.

(** C9. For the command [/jamf] whose text, stripped of whitespace, is
    empty or is [help] in any letter case, [process_slash_command] returns
    a fixed text (the usage text for the empty text, the help text for
    [help]) as an ephemeral reply, and its only external calls are those of
    the session keeper: no call to the tool bridge, none to the agent
    runtime, none to Slack, and the agent system is left as it was. *)
Theorem process_slash_command_help (d : list (string * pyval)) (text : string)
    (w : world) :
  py_get (PDict d) "command" (PStr "") = Ok (PStr "/jamf") ->
  py_get (PDict d) "text" (PStr "") = Ok (PStr text) ->
  strip text = "" \/ lower (strip text) = "help" ->
  let r := process_slash_command R (PDict d) w in
  (strip text = "" ->
   fst r = Ok (PDict [("response_type", PStr "ephemeral");
                      ("text", PStr usage_text)])) /\
  (lower (strip text) = "help" ->
   fst r = Ok (PDict [("response_type", PStr "ephemeral");
                      ("text", PStr help_text)])) /\
  exists es,
    trace (snd r) = (trace w ++ es)%list /\
    Forall (fun e => ~ is_agent_or_tool e) es /\
    Forall is_store_or_log es /\
    agent_system (snd r) = agent_system w /\
    slack_calls (snd r) = slack_calls w.
Proof.
  intros Hc Ht Hcase. cbn zeta.
  unfold process_slash_command, bind, lift, ret.
  rewrite Hc, Ht. cbn [as_str py_eq_str py_get].
  pose proof (get_or_create_session_result
                (match dict_get d "user_id" with Some x => x | None => PStr "" end)
                (match dict_get d "channel_id" with Some x => x | None => PStr "" end)
                w) as Hr.
  destruct (get_or_create_session_frame
              (match dict_get d "user_id" with Some x => x | None => PStr "" end)
              (match dict_get d "channel_id" with Some x => x | None => PStr "" end)
              w) as (es & Htr & Hes & Hag & Hsl & _).
  destruct (get_or_create_session R _ _ w) as [r w']. cbn [fst snd] in *.
  subst r.
  assert (Hno : Forall (fun e => ~ is_agent_or_tool e) es)
    by (eapply Forall_impl; [exact Hes | exact store_or_log_not_agent]).
  change (String.eqb "/jamf" "/jamf") with true. cbn iota.
  destruct (String.eqb (strip text) "") eqn:Hs.
  - apply String.eqb_eq in Hs. cbn [fst snd].
    split; [intros _; reflexivity |].
    split; [intros Hx; rewrite Hs in Hx; discriminate Hx |].
    exists es; auto.
  - destruct Hcase as [He | Hh];
      [rewrite He in Hs; discriminate Hs |].
    rewrite Hh. change (String.eqb "help" "help") with true. cbn [fst snd].
    split; [intros Hx; rewrite Hx in Hs; discriminate Hs |].
    split; [intros _; reflexivity |].
    exists es; auto.
Qed.

(** *** The tool bridge *)

Lemma last_cons_some {A} (x : A) (l : list A) : exists y, last (x :: l) = Some y.
Proof.
  revert x. induction l as [|z l IH]; intros x; [exists x; reflexivity |].
  destruct (IH z) as [y Hy]. exists y. exact Hy.
Qed.

Lemma create_tool_functions_loop_spec (c : nat) (items : list (string * tool)) :
  forall (acc : list tool_function) (w : world),
    create_tool_functions_loop c items acc w
    = (Ok (acc ++ map (make_tool_function c) items)%list, with_cell w c items).
Proof.
  induction items as [|[name spec] rest IH]; intros acc w.
  - cbn. unfold ret, with_cell. cbn. rewrite app_nil_r. reflexivity.
  - cbn [create_tool_functions_loop]. unfold bind, get_world, set_cells.
    rewrite IH. f_equal.
    + rewrite <- app_assoc. reflexivity.
    + unfold with_cell.
      destruct rest as [|[name' spec'] rest']; [reflexivity |].
      change (dict_keys ((name, spec) :: (name', spec') :: rest'))
        with (name :: dict_keys ((name', spec') :: rest')).
      change (dict_keys ((name', spec') :: rest'))
        with (name' :: dict_keys rest').
      rewrite last_cons_cons.
      destruct (last_cons_some name' (dict_keys rest')) as [y ->].
      cbn [cells sessions_table store_calls slack_calls clock_reads
           agent_system trace].
      rewrite list_insert_insert_eq. reflexivity.
Qed.

(** Every function made by [create_tool_functions] reads the same cell,
    and that cell holds the name of the last tool. *)
Lemma create_tool_functions_spec (w : world) (g : JamfMCPActionGroup) :
  mcp_action_group (agent_system w) = Some g ->
  let c := List.length (cells w) in
  let w0 := World (sessions_table w) (store_calls w) (slack_calls w)
                  (clock_reads w) (agent_system w) (cells w ++ [None])%list
                  (trace w) in
  create_tool_functions w
  = (Ok (map (make_tool_function c) (available_tools g)),
     with_cell w0 c (available_tools g)).
Proof.
  intros Hg. cbn zeta.
  unfold create_tool_functions, self_action_group, bind, get_world, set_cells.
  rewrite Hg. cbn. rewrite create_tool_functions_loop_spec. reflexivity.
Qed.

(** C1, as the code behaves. The functions made by [create_tool_functions]
    share the variable [tool_name] of the enclosing call, and they read it
    when they are called, after the loop has ended: every one of them,
    whatever its [__name__], sends [call_tool] with the name of the last
    discovered tool. A wrapper whose own name is another one therefore
    invokes the provider with the wrong tool name. *)
Theorem tool_function_calls_last_name (w : world) (g : JamfMCPActionGroup)
    (f : tool_function) (kwargs : pyval) (last_name : string) :
  mcp_action_group (agent_system w) = Some g ->
  mcp_session g = true ->
  last (dict_keys (available_tools g)) = Some last_name ->
  In f (match fst (create_tool_functions w) with Ok fs => fs | _ => [] end) ->
  trace (snd (call_tool_function R f kwargs (snd (create_tool_functions w))))
  = (trace w ++ [ECallTool last_name kwargs])%list.
Proof.
  intros Hg Hs Hl Hin.
  rewrite (create_tool_functions_spec w g Hg) in *. cbn [fst snd] in *.
  apply in_map_iff in Hin as ((name & spec) & <- & _).
  unfold with_cell. rewrite Hl.
  unfold call_tool_function, bind, get_world, self_action_group, emit, lift, ret.
  cbn [cells make_tool_function fn_cell agent_system trace sessions_table
       store_calls slack_calls clock_reads].
  rewrite list_lookup_insert_eq by (rewrite length_app; cbn; lia).
  unfold bind, get_world. cbn [agent_system]. rewrite Hg. cbn. rewrite Hs.
  reflexivity.
Qed.

Lemma dict_get_None_not_in {V} (d : list (string * V)) (k : string) :
  dict_get d k = None -> ~ In k (dict_keys d).
Proof.
  induction d as [|[k' v] d IH]; cbn; [tauto |].
  destruct (String.eqb k' k) eqn:E; [discriminate |].
  intros H [->|Hin]; [rewrite String.eqb_refl in E; discriminate |].
  exact (IH H Hin).
Qed.



(** *** Concurrent initialization *)

Lemma count_effect_snoc (p : effect -> bool) (t : list effect) (e : effect) :
  count_effect p (t ++ [e]) = (count_effect p t + (if p e then 1 else 0))%nat.
Proof.
  unfold count_effect. rewrite List.filter_app, length_app. cbn.
  destruct (p e); reflexivity.
Qed.

Lemma conc_run_app (a b : list nat) (x : list task * conc_state) :
  conc_run R (a ++ b) x = conc_run R b (conc_run R a x).
Proof. unfold conc_run. apply fold_left_app. Qed.

Lemma conc_run_cons (i : nat) (schedule : list nat) (x : list task * conc_state) :
  conc_run R (i :: schedule) x = conc_run R schedule (conc_step R i x).
Proof. reflexivity. Qed.

(** A task that has started never connects again, and never becomes one
    that has not started. *)
Lemma task_step_started (t : task) (s : conc_state) :
  t <> TStart ->
  (fst (task_step R t s) <> TStart) /\
  count_effect is_connection (c_trace (snd (task_step R t s)))
  = count_effect is_connection (c_trace s).
Proof.
  intros Ht. destruct t; [contradiction | | | |]; cbn [task_step].
  - destruct (stdio_open R); cbn [fst snd c_trace];
      rewrite ?count_effect_snoc; cbn; split; first [discriminate | lia].
  - destruct (session_initialize R); cbn [fst snd c_trace c_heap];
      [destruct (_ !! _); cbn [fst snd c_trace] | |];
      rewrite ?count_effect_snoc; cbn; split; first [discriminate | lia].
  - split; [discriminate | reflexivity].
  - split; [discriminate | reflexivity].
Qed.

(** A caller that starts while the flag is not set connects. *)
Lemma task_step_start (s : conc_state) :
  environ R !! "ENVIRONMENT" <> Some "production" ->
  c_initialized s = false ->
  (fst (task_step R TStart s) <> TStart) /\
  count_effect is_connection (c_trace (snd (task_step R TStart s)))
  = S (count_effect is_connection (c_trace s)).
Proof.
  intros Henv Hi. cbn [task_step]. rewrite Hi.
  destruct (decide _) as [He|_]; [contradiction |].
  cbn [fst snd c_trace]. rewrite count_effect_snoc. cbn.
  split; [discriminate | lia].
Qed.

(** Once every caller has started, nobody connects. *)
Lemma conc_run_started (schedule : list nat) :
  forall (ts : list task) (s : conc_state),
    Forall (fun t => t <> TStart) ts ->
    count_effect is_connection (c_trace (snd (conc_run R schedule (ts, s))))
    = count_effect is_connection (c_trace s).
Proof.
  induction schedule as [|i schedule IH]; intros ts s Hts; [reflexivity |].
  rewrite conc_run_cons. unfold conc_step. cbn [fst snd].
  destruct (ts !! i) as [t|] eqn:Ht; [| apply IH; exact Hts].
  pose proof (task_step_started t s (Forall_lookup_1 _ _ _ _ Hts Ht)) as [H1 H2].
  destruct (task_step R t s) as [t' s']. cbn [fst snd] in *.
  rewrite IH; [exact H2 |]. apply Forall_insert; assumption.
Qed.

(** While the second caller has not run, it has not started; a first
    caller that has started does not connect again. *)
Lemma conc_run_second_waits (pre : list nat) :
  ~ In 1%nat pre ->
  forall (t0 : task) (s : conc_state),
    t0 <> TStart ->
    exists t0' s',
      conc_run R pre ([t0; TStart], s) = ([t0'; TStart], s') /\
      (t0' <> TStart) /\
      count_effect is_connection (c_trace s')
      = count_effect is_connection (c_trace s).
Proof.
  induction pre as [|i pre IH]; intros H1 t0 s Hne.
  { exists t0, s. auto. }
  assert (H1' : ~ In 1%nat pre) by (intros H; apply H1; right; exact H).
  rewrite conc_run_cons. unfold conc_step. cbn [fst snd].
  destruct i as [|[|i]]; cbn [lookup list_lookup].
  - pose proof (task_step_started t0 s Hne) as [Hs Hc].
    destruct (task_step R t0 s) as [t1 s1]. cbn [fst snd] in *.
    destruct (IH H1' t1 s1 Hs) as (t0' & s' & E & Hst & Hcount).
    exists t0', s'. split; [exact E |]. split; [exact Hst | congruence].
  - exfalso. apply H1. left. reflexivity.
  - apply IH; assumption.
Qed.

(** The first caller connects when it starts. *)
Lemma conc_run_first (pre : list nat) :
  environ R !! "ENVIRONMENT" <> Some "production" ->
  In 0%nat pre ->
  ~ In 1%nat pre ->
  forall s : conc_state,
    c_initialized s = false ->
    exists t0' s',
      conc_run R pre ([TStart; TStart], s) = ([t0'; TStart], s') /\
      (t0' <> TStart) /\
      count_effect is_connection (c_trace s')
      = S (count_effect is_connection (c_trace s)).
Proof.
  intros Henv.
  induction pre as [|i pre IH]; intros H0 H1 s Hi; [destruct H0 |].
  assert (H1' : ~ In 1%nat pre) by (intros H; apply H1; right; exact H).
  rewrite conc_run_cons. unfold conc_step. cbn [fst snd].
  destruct i as [|[|i]]; cbn [lookup list_lookup].
  - pose proof (task_step_start s Henv Hi) as [Hs Hc].
    destruct (task_step R TStart s) as [t1 s1]. cbn [fst snd] in *.
    destruct (conc_run_second_waits pre H1' t1 s1 Hs)
      as (t0' & s' & E & Hst & Hcount).
    exists t0', s'. split; [exact E |]. split; [exact Hst | congruence].
  - exfalso. apply H1. left. reflexivity.
  - apply IH; [| assumption ..].
    destruct H0 as [H0|H0]; [discriminate H0 | exact H0].
Qed.

(** Once the flag is set and no task is in the middle of an
    initialization, nothing more is sent, whoever runs. *)
Lemma conc_run_initialized (schedule : list nat) :
  forall (ts : list task) (s : conc_state),
    c_initialized s = true -> Forall idle ts ->
    snd (conc_run R schedule (ts, s)) = s.
Proof.
  induction schedule as [|i schedule IH]; intros ts s Hi Hts; [reflexivity |].
  rewrite conc_run_cons. unfold conc_step. cbn [fst snd].
  destruct (ts !! i) as [t|] eqn:Ht; [| apply IH; assumption].
  pose proof (Forall_lookup_1 _ _ _ _ Hts Ht) as Hidle.
  destruct t; cbn in Hidle; try contradiction; cbn [task_step]; rewrite ?Hi;
    (apply IH; [exact Hi | apply Forall_insert; [exact Hts | exact I]]).
Qed.

(** C4, as the code behaves. [initialize] is guarded by the flag
    [initialized] alone: there is no lock, and a caller does not wait for
    an initialization that is in flight. Of two callers, when the second
    starts after the first and finds the flag not set, whatever the first
    has done by then and whatever runs afterwards, each of them opens its
    own connection to the provider: two in all. And once the flag is set,
    callers that start send nothing. (Development mode.) *)
Theorem initialize_guard_is_a_flag (pre post : list nat) :
  environ R !! "ENVIRONMENT" <> Some "production" ->
  (In 0%nat pre ->
   ~ In 1%nat pre ->
   c_initialized (snd (conc_run R pre two_callers)) = false ->
   count_effect is_connection
     (c_trace (snd (conc_run R (pre ++ 1%nat :: post) two_callers)))
   = 2%nat) /\
  (forall (ts : list task) (s : conc_state),
     c_initialized s = true ->
     Forall idle ts ->
     c_trace (snd (conc_run R post (ts, s))) = c_trace s).
Proof.
  intros Henv. split.
  - intros H0 H1 Hflag. unfold two_callers in *.
    destruct (conc_run_first pre Henv H0 H1 conc_initial eq_refl)
      as (t0 & s1 & E & Hst & Hcount).
    rewrite conc_run_app, conc_run_cons, E. rewrite E in Hflag.
    cbn [snd] in Hflag.
    unfold conc_step. cbn [fst snd lookup list_lookup].
    pose proof (task_step_start s1 Henv Hflag) as [Hs Hc].
    destruct (task_step R TStart s1) as [t1 s2]. cbn [fst snd] in *.
    rewrite conc_run_started.
    + rewrite Hc, Hcount. reflexivity.
    + cbn [insert list_insert]. repeat constructor; assumption.
  - intros ts s Hi Hts. rewrite conc_run_initialized by assumption.
    reflexivity.
Qed.

(** *** Direct messages *)

Lemma session_id_truthy (a b : string) : truthy (PStr (a ++ "_" ++ b)) = true.
Proof. destruct a; reflexivity. Qed.

Lemma stream_loop_cons (channel_id chunk : pyval) (rest : list pyval) st w :
  stream_loop R channel_id st (chunk :: rest) w
  = match stream_step R channel_id st chunk w with
    | (Ok st', w') => stream_loop R channel_id st' rest w'
    | (Raise e, w') => (Raise e, w')
    | (Abort e, w') => (Abort e, w')
    end.
Proof. reflexivity. Qed.

(** Chunks of another type leave the loop state and the world alone. *)
Lemma stream_loop_skips (channel_id : pyval) (stream : list pyval) :
  Forall is_dict stream ->
  forall st w,
    stream_loop R channel_id st stream w
    = stream_loop R channel_id st (List.filter is_content stream) w.
Proof.
  induction 1 as [|c rest [d ->] _ IH]; intros st w; [reflexivity |].
  cbn [List.filter]. unfold is_content at 1. cbn [py_get].
  destruct (py_eq_str _ "content") eqn:Hty.
  - rewrite !stream_loop_cons.
    destruct (stream_step R channel_id st (PDict d) w) as [[st'|e|e] w'];
      [apply IH | reflexivity ..].
  - rewrite stream_loop_cons.
    destruct st as [message_ts chunks].
    unfold stream_step, bind, lift, ret. cbn [py_get]. rewrite Hty.
    apply IH.
Qed.

(** Of a content chunk the loop uses the text only. *)
Lemma stream_loop_texts (channel_id : pyval) (texts : list string) :
  forall (stream : list pyval) st w,
    Forall is_dict stream ->
    Forall (fun c => is_content c = true) stream ->
    map chunk_text stream = map PStr texts ->
    stream_loop R channel_id st stream w
    = stream_loop R channel_id st (map content_chunk texts) w.
Proof.
  induction texts as [|t texts IH]; intros stream st w Hd Hc Ht.
  - destruct stream; [reflexivity | discriminate Ht].
  - destruct stream as [|c rest]; [discriminate Ht |].
    inversion Hd as [|? ? [d ->] Hd']; subst.
    inversion Hc as [|? ? Hc1 Hc']; subst.
    cbn [map] in Ht. injection Ht as Ht1 Ht2.
    cbn [map]. rewrite !stream_loop_cons.
    assert (E : stream_step R channel_id st (PDict d) w
                = stream_step R channel_id st (content_chunk t) w).
    { destruct st as [message_ts chunks].
      unfold stream_step, bind, lift, ret, content_chunk.
      unfold is_content in Hc1. unfold chunk_text in Ht1.
      cbn [py_get] in *. rewrite Hc1, Ht1. reflexivity. }
    rewrite E.
    destruct (stream_step R channel_id st (content_chunk t) w) as [[st'|e|e] w'];
      [apply IH; assumption | reflexivity ..].
Qed.

Lemma filter_is_content (stream : list pyval) :
  Forall (fun c => is_content c = true) (List.filter is_content stream).
Proof.
  apply Forall_forall. intros c Hc. apply list_elem_of_In in Hc.
  apply List.filter_In in Hc. tauto.
Qed.

Lemma filter_is_dict (stream : list pyval) :
  Forall is_dict stream -> Forall is_dict (List.filter is_content stream).
Proof.
  induction 1 as [|c rest Hc _ IH]; [constructor |].
  cbn [List.filter]. destruct (is_content c); [constructor |]; assumption.
Qed.

(** Twelve content chunks: one message after the fifth, one after the
    tenth, one at the end. *)
Lemma stream_twelve (channel_id : pyval) (texts : list string)
    (r1 r2 r3 : list (string * pyval)) (w : world) :
  List.length texts = 12%nat ->
  slack_reply R (slack_calls w) = Ok r1 ->
  slack_reply R (S (slack_calls w)) = Ok r2 ->
  slack_reply R (S (S (slack_calls w))) = Ok r3 ->
  let ts1 := slack_getitem r1 "ts" in
  let ts2 := if truthy ts1 then ts1 else slack_getitem r2 "ts" in
  bind (stream_loop R channel_id (PNone, []) (map content_chunk texts))
       (final_update R channel_id) w
  = (Ok tt,
     World (sessions_table w) (store_calls w) (S (S (S (slack_calls w))))
       (clock_reads w) (agent_system w) (cells w)
       (trace w ++
        [EPostMessage channel_id (PStr (str_concat (take 5 texts))) None;
         show_text channel_id ts1 (str_concat (take 10 texts));
         show_text channel_id ts2 (str_concat texts)])).
Proof.
  intros Hlen H1 H2 H3.
  do 12 (destruct texts as [|? texts]; [discriminate Hlen |]).
  destruct texts; [| discriminate Hlen]. clear Hlen.
  cbn zeta. unfold show_text.
  unfold bind, stream_loop, stream_step, final_update, slack_call, bind, lift,
    ret, emit, get_world, set_slack_calls, content_chunk.
  cbn. rewrite H1. cbn.
  destruct (truthy (slack_getitem r1 "ts")) eqn:Hts; cbn; rewrite H2; cbn.
  - rewrite Hts. cbn. rewrite H3. cbn. rewrite <- !app_assoc. reflexivity.
  - destruct (truthy (slack_getitem r2 "ts")) eqn:Hts2; cbn; rewrite H3; cbn;
      rewrite <- !app_assoc; reflexivity.
Qed.

Lemma filter_is_slack_store (es : list effect) :
  Forall is_store_or_log es -> List.filter is_slack es = [].
Proof.
  induction 1 as [|e es He _ IH]; [reflexivity |].
  cbn [List.filter]. destruct e; cbn in He; try contradiction; exact IH.
Qed.

Lemma process_request_streaming_ready (user_message session_id : pyval)
    (w : world) :
  initialized (agent_system w) = true ->
  agents (agent_system w) = true ->
  truthy session_id = true ->
  process_request_streaming R user_message session_id w
  = (Ok (agent_invoke_stream R user_message session_id),
     add_trace w [EAgentInvokeStream user_message session_id]).
Proof.
  intros Hi Ha Hs.
  unfold process_request_streaming, orchestrator, session_or_fresh, bind,
    get_world, emit, ret.
  rewrite Hi. cbn. rewrite Ha, Hs. reflexivity.
Qed.

(** C5. A direct message to an initialized agent system whose stream
    yields exactly twelve chunks of type [content] (among chunks of other
    types) and does not fail, with Slack answering each call: the handler
    makes three calls to Slack and no more. After the fifth content chunk
    it posts the first five texts, after the tenth it shows the first ten,
    and at the end it shows the concatenation of all twelve, in the order
    they were yielded. A text is shown by editing the posted message, or by
    posting when Slack has returned no [ts] so far. *)
Theorem direct_message_twelve_chunks (ed ev : list (string * pyval))
    (text : pyval) (stream : list pyval) (texts : list string)
    (r1 r2 r3 : list (string * pyval)) (w : world) :
  py_get (PDict ed) "event" (PDict []) = Ok (PDict ev) ->
  dict_get ev "type" = Some (PStr "message") ->
  dict_get ev "channel_type" = Some (PStr "im") ->
  dict_get ev "bot_id" = None ->
  dict_get ev "text" = Some text ->
  truthy text = true ->
  let user_id := default (PStr "") (dict_get ev "user") in
  let channel_id := default (PStr "") (dict_get ev "channel") in
  initialized (agent_system w) = true ->
  agents (agent_system w) = true ->
  agent_invoke_stream R text
    (PStr (py_str R user_id ++ "_" ++ py_str R channel_id)) = (stream, None) ->
  Forall is_dict stream ->
  map chunk_text (List.filter is_content stream) = map PStr texts ->
  List.length texts = 12%nat ->
  slack_reply R (slack_calls w) = Ok r1 ->
  slack_reply R (S (slack_calls w)) = Ok r2 ->
  slack_reply R (S (S (slack_calls w))) = Ok r3 ->
  let r := process_event R (PDict ed) w in
  let ts1 := slack_getitem r1 "ts" in
  let ts2 := if truthy ts1 then ts1 else slack_getitem r2 "ts" in
  fst r = Ok tt /\
  exists es,
    trace (snd r) = (trace w ++ es)%list /\
    List.filter is_slack es
    = [EPostMessage channel_id (PStr (str_concat (take 5 texts))) None;
       show_text channel_id ts1 (str_concat (take 10 texts));
       show_text channel_id ts2 (str_concat texts)].
Proof.
  intros Hev Hty Hct Hbot Htext Htruthy user_id channel_id Hinit Hagents
    Hstream Hdict Htexts Hlen H1 H2 H3.
  cbn zeta.
  pose proof (get_or_create_session_result user_id channel_id w) as Hr.
  destruct (get_or_create_session_frame user_id channel_id w)
    as (es0 & Htr & Hes & Hag & Hsl & _).
  destruct (get_or_create_session R user_id channel_id w) as [sid w0] eqn:Hg.
  cbn [fst snd] in *. subst sid.
  assert (E : process_event R (PDict ed) w
              = bind (stream_loop R channel_id (PNone, [])
                        (map content_chunk texts))
                     (final_update R channel_id)
                  (add_trace w0
                     [EAgentInvokeStream text
                        (PStr (py_str R user_id ++ "_" ++ py_str R channel_id))])).
  { unfold process_event. unfold bind at 1, lift at 1. rewrite Hev.
    unfold bind at 1, lift at 1. cbn [py_get]. rewrite Hty.
    change (py_eq_str (PStr "message") "app_mention") with false. cbn iota.
    unfold bind at 1, lift at 1. rewrite Hct.
    change (py_eq_str (PStr "message") "message" && py_eq_str (PStr "im") "im")
      with true. cbn iota.
    unfold bind at 1, lift at 1. cbn [py_in]. rewrite Hbot. cbn iota.
    unfold bind at 1, lift at 1. unfold bind at 1, lift at 1.
    unfold bind at 1, lift at 1. rewrite Htext, Htruthy.
    change (match dict_get ev "user" with Some x => x | None => PStr "" end)
      with user_id.
    change (match dict_get ev "channel" with Some x => x | None => PStr "" end)
      with channel_id.
    unfold bind at 1. rewrite Hg.
    unfold try_except. unfold bind at 1.
    rewrite process_request_streaming_ready
      by (rewrite ?Hag; auto using session_id_truthy).
    rewrite Hstream. cbn [fst snd]. unfold bind.
    rewrite stream_loop_skips by exact Hdict.
    rewrite (stream_loop_texts channel_id texts)
      by (auto using filter_is_dict, filter_is_content).
    match goal with
    | |- context [stream_loop R channel_id (PNone, []) _ ?w1] =>
        pose proof (stream_twelve channel_id texts r1 r2 r3 w1 Hlen) as Hrun
    end.
    cbn [slack_calls add_trace] in Hrun. rewrite Hsl in Hrun.
    specialize (Hrun H1 H2 H3). cbn zeta in Hrun.
    unfold bind in Hrun.
    destruct (stream_loop R channel_id (PNone, []) _ _) as [[st|e|e] w2];
      [rewrite Hrun; reflexivity | discriminate Hrun ..]. }
  rewrite E.
  pose proof (stream_twelve channel_id texts r1 r2 r3
                (add_trace w0
                   [EAgentInvokeStream text
                      (PStr (py_str R user_id ++ "_" ++ py_str R channel_id))])
                Hlen) as Hrun.
  cbn [slack_calls add_trace] in Hrun. rewrite Hsl in Hrun.
  specialize (Hrun H1 H2 H3). cbn zeta in Hrun. rewrite Hrun.
  cbn [fst snd trace add_trace]. split; [reflexivity |].
  eexists. rewrite Htr, <- !app_assoc. split; [reflexivity |].
  rewrite List.filter_app, (filter_is_slack_store es0 Hes).
  unfold show_text.
  destruct (truthy (slack_getitem r1 "ts")) eqn:Ht1.
  - rewrite ?Ht1. reflexivity.
  - destruct (truthy (slack_getitem r2 "ts")); reflexivity.
Qed.

(** ** Further properties of the code *)

(** *** The session table *)

Ltac unfold_session :=
  unfold get_or_create_session, try_except, bind, store_call, utcnow, logger,
    emit, get_world, set_store_calls, set_clock_reads, set_sessions_table,
    raise, ret.

(** X1. Whatever the session store does, [get_or_create_session] keeps the
    user, the channel and the creation time of a session that exists; the
    only field it may change is [last_accessed], to the time it reads. *)
Theorem session_keeps_creation (user_id channel_id : pyval) (w : world)
    (item : session_item) :
  let sid := py_str R user_id ++ "_" ++ py_str R channel_id in
  sessions_table w !! sid = Some item ->
  exists item',
    sessions_table (snd (get_or_create_session R user_id channel_id w)) !! sid
    = Some item' /\
    item_user_id item' = item_user_id item /\
    item_channel_id item' = item_channel_id item /\
    item_created_at item' = item_created_at item /\
    (item_last_accessed item' = item_last_accessed item \/
     item_last_accessed item' = utcnow_isoformat R (clock_reads w)).
Proof.
  cbn zeta. intros Hitem. unfold_session. cbn.
  destruct (store_fault R (store_calls w)); cbn.
  { exists item. repeat split; auto. }
  rewrite Hitem. cbn.
  destruct (store_fault R (S (store_calls w))); cbn.
  - exists item. repeat split; auto.
  - eexists. rewrite lookup_insert_eq. split; [reflexivity |]. cbn.
    repeat split; auto.
Qed.

(** X2. [get_or_create_session] leaves every other session of the table
    as it was, whatever the session store does. *)
Theorem session_only_own (user_id channel_id : pyval) (w : world)
    (other : string) :
  other <> py_str R user_id ++ "_" ++ py_str R channel_id ->
  sessions_table (snd (get_or_create_session R user_id channel_id w)) !! other
  = sessions_table w !! other.
Proof.
  intros Hne. unfold_session. cbn.
  destruct (store_fault R (store_calls w)); cbn; [reflexivity |].
  destruct (sessions_table w !! _); cbn;
    destruct (store_fault R (S (store_calls w))); cbn;
    rewrite ?lookup_insert_ne by (intros E; apply Hne; symmetry; exact E);
    reflexivity.
Qed.

(** X3. With a session store that answers, the first contact of a user in
    a channel puts a session with two readings of the clock (creation and
    last access), and the next contact finds that session and moves its
    last access only: four calls to the store in all, get, put, get,
    update. *)
Theorem session_first_and_second_contact (user_id channel_id : pyval)
    (w : world) :
  let sid := py_str R user_id ++ "_" ++ py_str R channel_id in
  sessions_table w !! sid = None ->
  (forall n, store_fault R n = None) ->
  let t0 := utcnow_isoformat R (clock_reads w) in
  let t1 := utcnow_isoformat R (S (clock_reads w)) in
  let t2 := utcnow_isoformat R (S (S (clock_reads w))) in
  let w1 := snd (get_or_create_session R user_id channel_id w) in
  let w2 := snd (get_or_create_session R user_id channel_id w1) in
  sessions_table w1 !! sid = Some (SessionItem user_id channel_id t0 t1) /\
  sessions_table w2 !! sid = Some (SessionItem user_id channel_id t0 t2) /\
  trace w2
  = (trace w ++ [EGetItem sid; EPutItem sid user_id channel_id t0 t1;
                 EGetItem sid; EUpdateItem sid t2])%list.
Proof.
  cbn zeta. intros Hnone Hok. unfold_session. cbn.
  rewrite !Hok. cbn. rewrite Hnone. cbn. rewrite !Hok. cbn.
  rewrite !lookup_insert_eq. cbn. rewrite !Hok. cbn.
  rewrite !lookup_insert_eq, <- !app_assoc. auto.
Qed.

(** *** Slash commands, continued *)

(** X4. A command other than [/jamf] is answered with [Unknown command],
    as an ephemeral reply, after the session has been looked up: the
    session store is called, the agent system and Slack are not. *)
Theorem process_slash_command_unknown (d : list (string * pyval))
    (command : pyval) (text : string) (w : world) :
  py_get (PDict d) "command" (PStr "") = Ok command ->
  py_eq_str command "/jamf" = false ->
  py_get (PDict d) "text" (PStr "") = Ok (PStr text) ->
  let r := process_slash_command R (PDict d) w in
  fst r = Ok (ephemeral "Unknown command") /\
  exists sid es,
    trace (snd r) = (trace w ++ EGetItem sid :: es)%list /\
    Forall is_store_or_log es /\
    agent_system (snd r) = agent_system w /\
    slack_calls (snd r) = slack_calls w.
Proof.
  intros Hc Hne Ht. cbn zeta.
  unfold process_slash_command, bind, lift, ret.
  rewrite Hc, Ht. cbn [as_str py_get]. rewrite Hne.
  unfold_session. cbn.
  destruct (store_fault R (store_calls w)); cbn.
  { split; [reflexivity |]. do 2 eexists. rewrite <- app_assoc.
    split; [reflexivity |]. split; [repeat constructor | auto]. }
  destruct (sessions_table w !! _); cbn;
    destruct (store_fault R (S (store_calls w))); cbn;
    (split; [reflexivity |]); do 2 eexists; rewrite <- ?app_assoc;
    (split; [reflexivity | split; [repeat constructor | auto]]).
Qed.

(** X5. A slash command whose body carries the field [text] more than
    once: [parse_slack_body] leaves the values as a list, and
    [process_slash_command] raises [AttributeError] on [.strip()] before
    it has called the session store or anything else. *)
Theorem process_slash_command_repeated_text (body : pyval)
    (parsed : list (string * list string)) (values : list string) (w : world) :
  parse_qs R body = Ok parsed ->
  dict_get parsed "text" = Some values ->
  List.length values <> 1%nat ->
  exists command_data,
    parse_slack_body R body = Ok command_data /\
    process_slash_command R command_data w
    = (Raise (attribute_error (PList (map PStr values)) "strip"), w).
Proof.
  intros Hp Ht Hlen. unfold parse_slack_body. rewrite Hp. cbn [res_bind].
  eexists. split; [reflexivity |].
  unfold process_slash_command, bind, lift. cbn [py_get].
  assert (E : dict_get
                (map (fun kv : string * list string =>
                        (kv.1, match kv.2 with
                               | [x] => PStr x
                               | v => PList (map PStr v)
                               end)) parsed) "text"
              = Some (PList (map PStr values))).
  { clear Hp. induction parsed as [|[k v] rest IH]; [discriminate Ht |].
    cbn in Ht |- *. destruct (String.eqb k "text").
    - injection Ht as ->. destruct values as [|x [|y l]]; try reflexivity.
      exfalso. apply Hlen. reflexivity.
    - exact (IH Ht). }
  rewrite E. reflexivity.
Qed.

(** X6. For the command [/jamf] with a text, no exception that derives
    from [Exception] leaves [process_slash_command]: whatever fails while
    the request is processed (the acknowledgement to Slack, the
    initialization, the agent, the formatting) is logged and turned into
    the ephemeral reply that carries the text of the error. So the
    function returns a reply, unless an exception that [except Exception]
    does not catch (a cancellation, say) passes through it. *)
Theorem process_slash_command_always_replies (d : list (string * pyval))
    (text : string) (w : world) :
  py_get (PDict d) "command" (PStr "") = Ok (PStr "/jamf") ->
  py_get (PDict d) "text" (PStr "") = Ok (PStr text) ->
  let r := process_slash_command R (PDict d) w in
  (forall e, fst r <> Raise e) /\
  (forall v, fst r = Ok v ->
   exists reply,
     v = PDict reply /\
     (dict_get reply "response_type" = Some (PStr "in_channel") \/
      reply = [("response_type", PStr "ephemeral"); ("text", PStr usage_text)] \/
      reply = [("response_type", PStr "ephemeral"); ("text", PStr help_text)] \/
      exists e,
        reply = [("response_type", PStr "ephemeral");
                 ("text", PStr (error_request_prefix ++ exn_str e))] /\
        last (trace (snd r))
        = Some (ELog "ERROR" ("Error processing command: " ++ exn_str e)))).
Proof.
  intros Hc Ht. cbn zeta.
  destruct (process_slash_command R (PDict d) w) as [res w'] eqn:E.
  cbn [fst snd]. revert E.
  unfold process_slash_command, try_except, bind, lift, ret, logger, emit.
  rewrite Hc, Ht. cbn [as_str py_get].
  pose proof (get_or_create_session_result
                (match dict_get d "user_id" with Some x => x | None => PStr "" end)
                (match dict_get d "channel_id" with Some x => x | None => PStr "" end)
                w) as Hr.
  destruct (get_or_create_session R _ _ w) as [r w0]. cbn [fst] in Hr. subst r.
  change (py_eq_str (PStr "/jamf") "/jamf") with true. cbn iota.
  destruct (String.eqb (strip text) "").
  { intros E. injection E as <- <-. split; [discriminate |].
    intros v Hv. injection Hv as <-. eexists. split; [reflexivity |]. auto. }
  destruct (String.eqb (lower (strip text)) "help").
  { intros E. injection E as <- <-. split; [discriminate |].
    intros v Hv. injection Hv as <-. eexists. split; [reflexivity |]. auto. }
  assert (Herr : forall e w1,
            (Ok (ephemeral (error_request_prefix ++ exn_str e)),
             World (sessions_table w1) (store_calls w1) (slack_calls w1)
               (clock_reads w1) (agent_system w1) (cells w1)
               (trace w1 ++ [ELog "ERROR"
                               ("Error processing command: " ++ exn_str e)]))
            = (res, w') ->
            (forall e, res <> Raise e) /\
            (forall v, res = Ok v ->
             exists reply,
               v = PDict reply /\
               (dict_get reply "response_type" = Some (PStr "in_channel") \/
                reply = [("response_type", PStr "ephemeral");
                         ("text", PStr usage_text)] \/
                reply = [("response_type", PStr "ephemeral");
                         ("text", PStr help_text)] \/
                exists e,
                  reply = [("response_type", PStr "ephemeral");
                           ("text", PStr (error_request_prefix ++ exn_str e))] /\
                  last (trace w')
                  = Some (ELog "ERROR"
                            ("Error processing command: " ++ exn_str e))))).
  { intros e w1 E. injection E as <- <-. split; [discriminate |].
    intros v Hv. injection Hv as <-.
    eexists. split; [reflexivity |].
    right. right. right. exists e. split; [reflexivity |]. apply last_snoc. }
  assert (Habort : forall (e : exn) (w1 : world),
            (@Abort pyval e, w1) = (res, w') ->
            (forall e, res <> Raise e) /\
            (forall v, res = Ok v ->
             exists reply,
               v = PDict reply /\
               (dict_get reply "response_type" = Some (PStr "in_channel") \/
                reply = [("response_type", PStr "ephemeral");
                         ("text", PStr usage_text)] \/
                reply = [("response_type", PStr "ephemeral");
                         ("text", PStr help_text)] \/
                exists e,
                  reply = [("response_type", PStr "ephemeral");
                           ("text", PStr (error_request_prefix ++ exn_str e))] /\
                  last (trace w')
                  = Some (ELog "ERROR"
                            ("Error processing command: " ++ exn_str e))))).
  { intros e w1 E. injection E as <- <-. split; discriminate. }
  destruct (slack_call R _ w0) as [[ack|e|e] w2];
    [| apply Herr | apply Habort].
  destruct (process_request R _ _ w2) as [[resp|e|e] w3];
    [| apply Herr | apply Habort].
  destruct (py_getitem resp "response") as [x|e|e];
    [| apply Herr | apply Habort].
  destruct (format_response_blocks R resp) as [x0|e|e];
    [| apply Herr | apply Habort].
  intros E. injection E as <- <-. split; [discriminate |].
  intros v Hv. injection Hv as <-. eexists. split; [reflexivity |].
  left. reflexivity.
Qed.

Lemma process_request_ready (user_message session_id : pyval)
    (resp : list (string * pyval)) (w : world) :
  initialized (agent_system w) = true ->
  agents (agent_system w) = true ->
  truthy session_id = true ->
  agent_invoke R user_message session_id = Ok (PDict resp) ->
  process_request R user_message session_id w
  = (Ok (PDict [("response", default (PStr "") (dict_get resp "output"));
                ("trace", default (PDict []) (dict_get resp "trace"));
                ("session_id", default session_id (dict_get resp "session_id"))]),
     add_trace w [EAgentInvoke user_message session_id]).
Proof.
  intros Hi Ha Hs Hr.
  unfold process_request, orchestrator, session_or_fresh, bind, get_world,
    emit, ret, lift.
  rewrite Hi. cbn. rewrite Ha, Hs. cbn. rewrite Hr. reflexivity.
Qed.

Lemma slack_call_ok (e : effect) (w : world) (r : list (string * pyval)) :
  slack_reply R (slack_calls w) = Ok r ->
  slack_call R e w
  = (Ok r,
     World (sessions_table w) (store_calls w) (S (slack_calls w))
       (clock_reads w) (agent_system w) (cells w) (trace w ++ [e])).
Proof.
  intros H. unfold slack_call, bind, emit, get_world, set_slack_calls, lift.
  cbn. rewrite H. reflexivity.
Qed.

(** X7. A [/jamf] request that is neither empty nor [help], on an
    initialized agent system: the handler looks up the session, posts the
    acknowledgement to the channel, and invokes the agent once, with the
    stripped text and with the session id [user_channel]. When the agent
    answers without a trace, the reply goes to the channel with the agent's
    output as text and as its only block. *)
Theorem process_slash_command_asks_agent (d resp ack : list (string * pyval))
    (text : string) (w : world) :
  py_get (PDict d) "command" (PStr "") = Ok (PStr "/jamf") ->
  py_get (PDict d) "text" (PStr "") = Ok (PStr text) ->
  strip text <> "" ->
  lower (strip text) <> "help" ->
  initialized (agent_system w) = true ->
  agents (agent_system w) = true ->
  slack_reply R (slack_calls w) = Ok ack ->
  let user_id := default (PStr "") (dict_get d "user_id") in
  let channel_id := default (PStr "") (dict_get d "channel_id") in
  let session_id := PStr (py_str R user_id ++ "_" ++ py_str R channel_id) in
  agent_invoke R (PStr (strip text)) session_id = Ok (PDict resp) ->
  dict_get resp "trace" = None ->
  let output := default (PStr "") (dict_get resp "output") in
  let r := process_slash_command R (PDict d) w in
  fst r = Ok (PDict [("response_type", PStr "in_channel");
                     ("text", output);
                     ("blocks", PList [mrkdwn_section output])]) /\
  exists es,
    Forall is_store_or_log es /\
    trace (snd r)
    = (trace w ++ es ++
       [EPostMessage channel_id
          (PStr (processing_prefix ++ strip text ++ "_")) None;
        EAgentInvoke (PStr (strip text)) session_id])%list.
Proof.
  intros Hc Ht Hne Hnh Hi Ha Hack user_id channel_id session_id Hinv Htr.
  cbn zeta.
  destruct (process_slash_command R (PDict d) w) as [res w'] eqn:E.
  cbn [fst snd]. revert E.
  unfold process_slash_command, try_except, bind, lift, ret.
  rewrite Hc, Ht. cbn [as_str py_get].
  change (match dict_get d "user_id" with Some x => x | None => PStr "" end)
    with user_id.
  change (match dict_get d "channel_id" with Some x => x | None => PStr "" end)
    with channel_id.
  pose proof (get_or_create_session_result user_id channel_id w) as Hr.
  destruct (get_or_create_session_frame user_id channel_id w)
    as (es & Htrace & Hes & Hag & Hsl & _).
  destruct (get_or_create_session R user_id channel_id w) as [r w0].
  cbn [fst snd] in *. subst r.
  change (py_eq_str (PStr "/jamf") "/jamf") with true. cbn iota.
  apply String.eqb_neq in Hne, Hnh. rewrite Hne, Hnh.
  rewrite (slack_call_ok _ _ ack) by (rewrite Hsl; exact Hack).
  rewrite (process_request_ready _ _ resp)
    by (cbn [agent_system]; rewrite ?Hag; auto using session_id_truthy).
  cbn [py_getitem dict_get String.eqb Ascii.eqb Bool.eqb].
  unfold format_response_blocks. cbn [py_getitem py_get dict_get res_bind].
  cbn. rewrite Htr. cbn.
  intros E. injection E as <- <-. split; [reflexivity |].
  exists es. split; [exact Hes |]. cbn [trace add_trace].
  rewrite Htrace, <- !app_assoc. reflexivity.
Qed.

(** *** The routes of the handler *)

Ltac verified_handler Hv :=
  unfold lambda_handler, bind, logger, emit, ret, lift;
  match goal with
  | |- context [verify_slack_request R ?event ?x] =>
      let E := fresh "E" in
      let r := fresh "r" in
      let w' := fresh "w'" in
      pose proof (verify_slack_request_true event _ x Hv) as E;
      destruct (verify_slack_request R event x) as [r w'];
      injection E as -> ->
  end;
  cbn [negb].

(** X8. A verified request is answered with status 400 and body
    [{"error": "Bad request"}] when its content type names neither JSON nor
    a form (a missing [content-type] header included), and when its JSON
    payload has a type other than [url_verification] and [event_callback].
    Nothing but the log record of the event is done. *)
Theorem lambda_handler_bad_request (event headers content_type body : pyval)
    (w : world) :
  fst (verify_slack_request R event w) = Ok true ->
  py_get event "body" (PStr "") = Ok body ->
  py_getitem event "headers" = Ok headers ->
  py_get headers "content-type" (PStr "") = Ok content_type ->
  (py_in "application/json" content_type = Ok false /\
   py_in "application/x-www-form-urlencoded" content_type = Ok false) \/
  (py_in "application/json" content_type = Ok true /\
   exists d ty,
     json_loads R body = Ok (PDict d) /\
     py_get (PDict d) "type" PNone = Ok ty /\
     py_eq_str ty "url_verification" = false /\
     py_eq_str ty "event_callback" = false) ->
  lambda_handler R event w
  = (Ok (response 400 (json_dumps R (PDict [("error", PStr "Bad request")]))),
     add_trace w [ELog "INFO" ("Received event: " ++ json_dumps R event)]).
Proof.
  intros Hv Hb Hh Hct Hcase. verified_handler Hv.
  rewrite Hb, Hh, Hct.
  destruct Hcase as [[Hj Hf] | (Hj & d & ty & Hl & Hty & H1 & H2)].
  - rewrite Hj, Hf. reflexivity.
  - rewrite Hj, Hl. cbn iota beta. rewrite Hty, H1, H2. reflexivity.
Qed.

(** X9. No runtime serves both kinds of request. An event callback is
    handed to [asyncio.create_task], which needs a running event loop; a
    slash command is run with [run_until_complete], which refuses a running
    event loop. So, of a verified event callback and a verified slash
    command, one ends in [RuntimeError] before the event or the command is
    processed. *)
Theorem lambda_handler_loop_dilemma
    (callback command : pyval) (h1 h2 ct1 ct2 b1 b2 command_data : pyval)
    (d : list (string * pyval)) (w : world) :
  fst (verify_slack_request R callback w) = Ok true ->
  py_get callback "body" (PStr "") = Ok b1 ->
  py_getitem callback "headers" = Ok h1 ->
  py_get h1 "content-type" (PStr "") = Ok ct1 ->
  py_in "application/json" ct1 = Ok true ->
  json_loads R b1 = Ok (PDict d) ->
  dict_get d "type" = Some (PStr "event_callback") ->
  fst (verify_slack_request R command w) = Ok true ->
  py_get command "body" (PStr "") = Ok b2 ->
  py_getitem command "headers" = Ok h2 ->
  py_get h2 "content-type" (PStr "") = Ok ct2 ->
  py_in "application/json" ct2 = Ok false ->
  py_in "application/x-www-form-urlencoded" ct2 = Ok true ->
  parse_slack_body R b2 = Ok command_data ->
  lambda_handler R callback w
  = (Raise (Exn "RuntimeError" "no running event loop"),
     add_trace w [ELog "INFO" ("Received event: " ++ json_dumps R callback)]) \/
  lambda_handler R command w
  = (Raise (Exn "RuntimeError" "This event loop is already running"),
     add_trace w [ELog "INFO" ("Received event: " ++ json_dumps R command)]).
Proof.
  intros Hv1 Hb1 Hh1 Hct1 Hj1 Hl1 Hty1 Hv2 Hb2 Hh2 Hct2 Hj2 Hf2 Hp2.
  destruct (loop_running R) eqn:Hloop; [right | left].
  - verified_handler Hv2. rewrite Hb2, Hh2, Hct2, Hj2, Hf2, Hp2.
    unfold get_event_loop. rewrite Hloop. reflexivity.
  - verified_handler Hv1. rewrite Hb1, Hh1, Hct1, Hj1, Hl1.
    cbn [py_get]. rewrite Hty1. cbn. rewrite Hloop. reflexivity.
Qed.

(** X10. With a running event loop, a verified event callback is
    answered with status 200 and [{"status": "ok"}] while the event is only
    scheduled: when the handler returns, no call to Slack, to the session
    store or to the agent system has been made for it. *)
Theorem lambda_handler_event_callback_scheduled
    (event headers content_type body : pyval) (d : list (string * pyval))
    (w : world) :
  loop_running R = true ->
  fst (verify_slack_request R event w) = Ok true ->
  py_get event "body" (PStr "") = Ok body ->
  py_getitem event "headers" = Ok headers ->
  py_get headers "content-type" (PStr "") = Ok content_type ->
  py_in "application/json" content_type = Ok true ->
  json_loads R body = Ok (PDict d) ->
  dict_get d "type" = Some (PStr "event_callback") ->
  lambda_handler R event w
  = (Ok (response 200 (json_dumps R (PDict [("status", PStr "ok")]))),
     add_trace w [ELog "INFO" ("Received event: " ++ json_dumps R event);
                  ECreateTask (PDict d)]).
Proof.
  intros Hloop Hv Hb Hh Hct Hj Hl Hty. verified_handler Hv.
  rewrite Hb, Hh, Hct, Hj, Hl. cbn [py_get]. rewrite Hty. cbn.
  rewrite Hloop. cbn. unfold add_trace. cbn. rewrite <- app_assoc. reflexivity.
Qed.

(** X11. A request without a body is not answered: with a stamp that is
    fresh, [verify_slack_request] raises [KeyError] on [event['body']], so
    the default of [event.get('body', '')] in the handler is never used. *)
Theorem lambda_handler_missing_body (d : list (string * pyval))
    (headers timestamp signature : pyval) (t : Z) (w : world) :
  dict_get d "body" = None ->
  dict_get d "headers" = Some headers ->
  py_get headers "x-slack-request-timestamp" (PStr "") = Ok timestamp ->
  py_get headers "x-slack-signature" (PStr "") = Ok signature ->
  py_int R timestamp = Ok t ->
  float_overflows t = false ->
  timestamp_too_old R t = false ->
  lambda_handler R (PDict d) w
  = (Raise (Exn "KeyError" "'body'"),
     add_trace w [ELog "INFO" ("Received event: " ++ json_dumps R (PDict d))]).
Proof.
  intros Hb Hh Ht Hs Hi Hf Hold.
  unfold lambda_handler, bind, logger, emit, ret.
  rewrite (verify_slack_request_eq (PDict d) _ headers timestamp signature t)
    by (cbn [py_getitem]; rewrite ?Hh; first [assumption | reflexivity]).
  rewrite Hold. cbn [py_getitem]. rewrite Hb. reflexivity.
Qed.

(** X12. [async_lambda_handler] never returns a response. It asks for the
    event loop first, and raises if there is none. Otherwise it runs
    [lambda_handler] to its end, with all its effects, and then raises: the
    exception of [lambda_handler] if there was one, and if not the one of
    [run_until_complete], which refuses to run in a running loop and is
    given a dict, not a coroutine. *)
Theorem async_lambda_handler_never_answers (event : pyval) (w : world) :
  let r := async_lambda_handler R event w in
  (forall v, fst r <> Ok v) /\
  (forall e,
     loop_running R = false -> no_current_loop R = Some e -> r = (Raise e, w)) /\
  (loop_running R = true \/ no_current_loop R = None ->
   snd r = snd (lambda_handler R event w) /\
   fst r
   = match fst (lambda_handler R event w) with
     | Ok _ =>
         Raise (if loop_running R
                then Exn "RuntimeError" "This event loop is already running"
                else Exn "TypeError"
                       "An asyncio.Future, a coroutine or an awaitable is required")
     | Raise e => Raise e
     | Abort e => Abort e
     end).
Proof.
  cbn zeta. unfold async_lambda_handler, get_event_loop, bind, raise, ret.
  destruct (loop_running R) eqn:Hloop.
  - destruct (lambda_handler R event w) as [[result|e|e] w']; cbn [fst snd];
      (split; [discriminate |]); (split; [discriminate |]); auto.
  - destruct (no_current_loop R) as [e0|] eqn:Hno.
    + split; [discriminate |]. split.
      * intros e _ H. injection H as ->. reflexivity.
      * intros [H|H]; discriminate H.
    + destruct (lambda_handler R event w) as [[result|e|e] w']; cbn [fst snd];
        (split; [discriminate |]); (split; [discriminate |]); auto.
Qed.

(** *** Formatting a response *)

(** X13. With no trace, an empty trace, or a trace without agent actions,
    [format_response_blocks] returns the single section block that carries
    the response text. *)
Theorem format_response_blocks_plain (d : list (string * pyval)) (text : pyval) :
  dict_get d "response" = Some text ->
  truthy (default PNone (dict_get d "trace")) = false \/
  (exists tr, dict_get d "trace" = Some (PDict tr) /\
              truthy (default PNone (dict_get tr "agentActions")) = false) ->
  format_response_blocks R (PDict d) = Ok (PList [mrkdwn_section text]).
Proof.
  intros H [Htr | (tr & Htr & Hact)];
    unfold format_response_blocks; cbn [py_getitem py_get res_bind];
    rewrite H; cbn [res_bind].
  - unfold default, from_option, id in Htr.
    destruct (dict_get d "trace"); rewrite Htr; cbn; rewrite ?Htr; reflexivity.
  - rewrite Htr. cbn [res_bind].
    destruct (truthy (PDict tr)) eqn:E; cbn [res_bind py_get py_getitem];
      rewrite ?E; [| reflexivity].
    unfold default, from_option, id in Hact.
    destruct (dict_get tr "agentActions"); rewrite ?Hact; reflexivity.
Qed.

Lemma tools_used_of_dicts (actions : list pyval) :
  Forall is_dict actions ->
  tools_used_of R actions = Ok (map (tool_line R) actions).
Proof.
  induction 1 as [|a rest [d ->] _ IH]; [reflexivity |].
  cbn [tools_used_of py_get res_bind map]. rewrite IH. reflexivity.
Qed.

(** X14. When the trace lists agent actions, the result has two blocks:
    the section with the response text, and a context block whose text is
    [_Tools used: ..._] with one bulleted name per action, in order,
    separated by commas, [Unknown] standing for an action without a
    name. *)
Theorem format_response_blocks_tools (d tr : list (string * pyval))
    (text : pyval) (actions : list pyval) :
  dict_get d "response" = Some text ->
  dict_get d "trace" = Some (PDict tr) ->
  dict_get tr "agentActions" = Some (PList actions) ->
  actions <> [] ->
  Forall is_dict actions ->
  format_response_blocks R (PDict d)
  = Ok (PList [mrkdwn_section text;
               tools_block (map (tool_line R) actions)]).
Proof.
  intros Hr Ht Ha Hne Hd.
  unfold format_response_blocks. cbn [py_getitem py_get res_bind].
  rewrite Hr, Ht. cbn [res_bind].
  assert (Htr : truthy (PDict tr) = true) by (destruct tr; [discriminate Ha | reflexivity]).
  rewrite Htr. cbn [res_bind py_get py_getitem]. rewrite Ha.
  assert (Hact : truthy (PList actions) = true)
    by (destruct actions; [contradiction | reflexivity]).
  rewrite Hact. cbn [res_bind py_iter]. rewrite (tools_used_of_dicts _ Hd).
  cbn [res_bind]. destruct actions; [contradiction | reflexivity].
Qed.

(** *** Events *)

(** X15. [process_event] does nothing at all, neither a call nor a log
    record, for an event that is neither an app mention nor a direct
    message, for a direct message of a bot, and for a direct message
    without text. *)
Theorem process_event_ignores (ed ev : list (string * pyval)) (w : world) :
  py_get (PDict ed) "event" (PDict []) = Ok (PDict ev) ->
  let event_type := default (PStr "") (dict_get ev "type") in
  let channel_type := default PNone (dict_get ev "channel_type") in
  py_eq_str event_type "app_mention" = false ->
  py_eq_str event_type "message" && py_eq_str channel_type "im" = false \/
  dict_get ev "bot_id" <> None \/
  truthy (default (PStr "") (dict_get ev "text")) = false ->
  process_event R (PDict ed) w = (Ok tt, w).
Proof.
  intros Hev event_type channel_type Hm Hcase.
  unfold process_event, bind, lift, ret. rewrite Hev. cbn [py_get py_in].
  change (match dict_get ev "type" with Some x => x | None => PStr "" end)
    with event_type.
  change (match dict_get ev "channel_type" with Some x => x | None => PNone end)
    with channel_type.
  rewrite Hm.
  destruct (py_eq_str event_type "message" && py_eq_str channel_type "im") eqn:E;
    [| reflexivity].
  destruct Hcase as [H | [H | H]]; [discriminate H | |].
  - destruct (dict_get ev "bot_id"); [reflexivity | contradiction].
  - destruct (dict_get ev "bot_id"); [reflexivity |].
    unfold default, from_option, id in H. rewrite H. reflexivity.
Qed.

(** X16. An app mention whose payload has an empty list of
    authorizations raises [IndexError], before the session store, the agent
    or Slack is called. *)
Theorem process_event_no_authorization (ed ev : list (string * pyval))
    (w : world) :
  py_get (PDict ed) "event" (PDict []) = Ok (PDict ev) ->
  dict_get ev "type" = Some (PStr "app_mention") ->
  dict_get ed "authorizations" = Some (PList []) ->
  process_event R (PDict ed) w
  = (Raise (Exn "IndexError" "list index out of range"), w).
Proof.
  intros Hev Hty Hauth.
  unfold process_event, bind, lift, ret. rewrite Hev. cbn [py_get].
  rewrite Hty, Hauth. reflexivity.
Qed.

(** X17. In production a direct message is answered with the apology:
    the first use of the agent system fails in [initialize] with
    [NotImplementedError], the handler logs it and posts its text to the
    channel. The agent is not invoked and the system stays uninitialized,
    so the next message fares the same. *)
Theorem process_event_production (ed ev ack : list (string * pyval))
    (text : pyval) (w : world) :
  environ R !! "ENVIRONMENT" = Some "production" ->
  initialized (agent_system w) = false ->
  py_get (PDict ed) "event" (PDict []) = Ok (PDict ev) ->
  dict_get ev "type" = Some (PStr "message") ->
  dict_get ev "channel_type" = Some (PStr "im") ->
  dict_get ev "bot_id" = None ->
  dict_get ev "text" = Some text ->
  truthy text = true ->
  slack_reply R (slack_calls w) = Ok ack ->
  let channel_id := default (PStr "") (dict_get ev "channel") in
  let r := process_event R (PDict ed) w in
  fst r = Ok tt /\
  initialized (agent_system (snd r)) = false /\
  exists es,
    Forall is_store_or_log es /\
    trace (snd r)
    = (trace w ++ es ++
       [ELog "ERROR"
          "Error processing DM: HTTP MCP connection not yet implemented";
        EPostMessage channel_id
          (PStr (sorry_prefix ++ "HTTP MCP connection not yet implemented"))
          None])%list.
Proof.
  intros Henv Hinit Hev Hty Hct Hbot Htext Htruthy Hack channel_id. cbn zeta.
  destruct (process_event R (PDict ed) w) as [res w'] eqn:E.
  cbn [fst snd]. revert E.
  unfold process_event. unfold bind at 1, lift at 1. rewrite Hev.
  unfold bind at 1, lift at 1. cbn [py_get]. rewrite Hty.
  change (py_eq_str (PStr "message") "app_mention") with false. cbn iota.
  unfold bind at 1, lift at 1. rewrite Hct.
  change (py_eq_str (PStr "message") "message" && py_eq_str (PStr "im") "im")
    with true. cbn iota.
  unfold bind at 1, lift at 1. cbn [py_in]. rewrite Hbot. cbn iota.
  unfold bind at 1, lift at 1. unfold bind at 1, lift at 1.
  unfold bind at 1, lift at 1. rewrite Htext, Htruthy.
  change (match dict_get ev "channel" with Some x => x | None => PStr "" end)
    with channel_id.
  set (user_id := match dict_get ev "user" with Some x => x | None => PStr "" end).
  pose proof (get_or_create_session_result user_id channel_id w) as Hr.
  destruct (get_or_create_session_frame user_id channel_id w)
    as (es & Htrace & Hes & Hag & Hsl & _).
  unfold bind at 1.
  destruct (get_or_create_session R user_id channel_id w) as [r w0].
  cbn [fst snd] in *. subst r.
  unfold try_except, bind at 1.
  assert (Hfail : process_request_streaming R text
                    (PStr (py_str R user_id ++ "_" ++ py_str R channel_id)) w0
                  = (Raise (Exn "NotImplementedError"
                              "HTTP MCP connection not yet implemented"),
                     World (sessions_table w0) (store_calls w0) (slack_calls w0)
                       (clock_reads w0)
                       (AgentSystem (agents (agent_system w0))
                          (Some (ActionGroup
                                   (default "http://localhost:3000"
                                      (environ R !! "MCP_SERVER_URL")) false []))
                          false)
                       (cells w0) (trace w0))).
  { unfold process_request_streaming, JamfAgentSystem_initialize,
      JamfMCPActionGroup_initialize, self_action_group, _connect_http_mcp,
      bind, get_world, set_agent_system, raise, ret.
    cbn. rewrite !Hag, !Hinit. cbn.
    destruct (decide _) as [_ | Hne]; [| contradiction].
    cbn. rewrite ?Hag, ?Hinit. reflexivity. }
  rewrite Hfail.
  unfold post_error, logger, emit, ret, bind. cbn beta iota.
  rewrite (slack_call_ok _ _ ack) by (cbn [slack_calls]; rewrite Hsl; exact Hack).
  cbn. intros E. injection E as <- <-. cbn.
  split; [reflexivity |]. split; [reflexivity |].
  exists es. split; [exact Hes |]. rewrite Htrace, <- !app_assoc. reflexivity.
Qed.

(** *** The streaming loop, for any number of chunks *)

Lemma py_join_from_strs (l : list string) :
  forall i, py_join_from i (map PStr l) = Ok (str_concat l).
Proof.
  induction l as [|s l IH]; intros i; [reflexivity |].
  cbn [map py_join_from]. rewrite IH. reflexivity.
Qed.

Lemma py_join_strs (l : list string) : py_join (map PStr l) = Ok (str_concat l).
Proof. apply py_join_from_strs. Qed.

Lemma div5_succ (n : nat) :
  ((n + 1) / 5 = n / 5 + (if (n + 1) mod 5 =? 0 then 1 else 0))%nat.
Proof.
  pose proof (Nat.div_mod_eq n 5) as H1.
  pose proof (Nat.mod_upper_bound n 5 ltac:(lia)) as H2.
  pose proof (Nat.div_mod_eq (n + 1) 5) as H3.
  pose proof (Nat.mod_upper_bound (n + 1) 5 ltac:(lia)) as H4.
  destruct ((n + 1) mod 5 =? 0)%nat eqn:E;
    [apply Nat.eqb_eq in E | apply Nat.eqb_neq in E]; lia.
Qed.

(** One content chunk: the text joins the list, and when the list has
    reached a multiple of five the whole text is shown. *)
Lemma stream_step_content (channel_id message_ts : pyval) (acc : list string)
    (t : string) (w : world) :
  (forall n, exists r, slack_reply R n = Ok r) ->
  exists message_ts' w',
    stream_step R channel_id (message_ts, map PStr acc) (content_chunk t) w
    = (Ok (message_ts', map PStr (acc ++ [t])), w') /\
    count_effect is_slack (trace w')
    = (count_effect is_slack (trace w)
       + (if (List.length (acc ++ [t]) mod 5 =? 0)%nat then 1 else 0))%nat.
Proof.
  intros Hok.
  unfold stream_step, bind, lift, ret, content_chunk. cbn [py_get dict_get].
  cbn [String.eqb Ascii.eqb Bool.eqb py_eq_str]. cbn iota.
  replace (map PStr acc ++ [PStr t])%list with (map PStr (acc ++ [t]))
    by (rewrite map_app; reflexivity).
  rewrite length_map, py_join_strs.
  destruct (List.length (acc ++ [t]) mod 5 =? 0)%nat; [| do 2 eexists; split; [reflexivity | lia]].
  destruct (Hok (slack_calls w)) as [r Hr].
  destruct (truthy message_ts) eqn:Hts.
  - rewrite (slack_call_ok _ _ r Hr). do 2 eexists. split; [reflexivity |].
    cbn [trace]. rewrite count_effect_snoc. reflexivity.
  - rewrite (slack_call_ok _ _ r Hr). do 2 eexists. split; [reflexivity |].
    cbn [trace]. rewrite count_effect_snoc. reflexivity.
Qed.

Lemma stream_loop_content (channel_id : pyval) (texts : list string) :
  (forall n, exists r, slack_reply R n = Ok r) ->
  forall (message_ts : pyval) (acc : list string) (w : world),
  exists message_ts' w',
    stream_loop R channel_id (message_ts, map PStr acc)
      (map content_chunk texts) w
    = (Ok (message_ts', map PStr (acc ++ texts)), w') /\
    (count_effect is_slack (trace w') + List.length acc / 5
     = count_effect is_slack (trace w)
       + List.length (acc ++ texts) / 5)%nat.
Proof.
  intros Hok. induction texts as [|t texts IH]; intros message_ts acc w.
  - cbn. rewrite app_nil_r. do 2 eexists. split; [reflexivity | lia].
  - cbn [map]. rewrite stream_loop_cons.
    destruct (stream_step_content channel_id message_ts acc t w Hok)
      as (ts1 & w1 & -> & Hc1).
    destruct (IH ts1 (acc ++ [t])%list w1) as (ts2 & w2 & -> & Hc2).
    rewrite <- app_assoc in *. cbn [app] in *.
    do 2 eexists. split; [reflexivity |].
    rewrite length_app in Hc1, Hc2. cbn [List.length] in Hc1, Hc2.
    rewrite length_app. cbn [List.length].
    rewrite length_app in Hc2. cbn [List.length] in Hc2.
    rewrite (div5_succ (List.length acc)) in Hc2. lia.
Qed.

(** X18. The streaming loop of a direct message, for a stream of [n]
    content chunks and a Slack that answers: it calls Slack once for every
    fifth chunk and once more at the end when there was a chunk at all,
    that is [n / 5] times and one more for [n > 0]; and the last call shows
    the concatenation of all the texts, in order. A stream without content
    makes no call. *)
Theorem stream_loop_call_count (channel_id : pyval) (texts : list string)
    (w : world) :
  (forall n, exists r, slack_reply R n = Ok r) ->
  let r := bind (stream_loop R channel_id (PNone, []) (map content_chunk texts))
                (final_update R channel_id) w in
  fst r = Ok tt /\
  count_effect is_slack (trace (snd r))
  = (count_effect is_slack (trace w) + List.length texts / 5
     + (if List.length texts =? 0 then 0 else 1))%nat /\
  (texts <> [] ->
   exists message_ts,
     last (trace (snd r))
     = Some (show_text channel_id message_ts (str_concat texts))).
Proof.
  intros Hok. cbn zeta. unfold bind.
  destruct (stream_loop_content channel_id texts Hok PNone [] w)
    as (ts & w1 & E & Hc).
  change (map PStr []) with (@nil pyval) in E. rewrite E. cbn [app] in *.
  cbn [List.length] in Hc. change (0 / 5)%nat with 0%nat in Hc.
  destruct texts as [|t texts].
  - cbn. split; [reflexivity |]. split; [cbn in Hc; lia | congruence].
  - unfold final_update. cbn [map]. unfold bind, lift, ret.
    change (PStr t :: map PStr texts) with (map PStr (t :: texts)).
    rewrite py_join_strs. cbn [map].
    destruct (Hok (slack_calls w1)) as [r Hr].
    assert (Hshow : forall e, is_slack e = true ->
              (let r :=
                 (let (r0, w') := slack_call R e w1 in
                  match r0 with
                  | Ok _ => (Ok tt, w')
                  | Raise e0 => (Raise e0, w')
                  | Abort e0 => (Abort e0, w')
                  end) in
               fst r = Ok tt /\
               count_effect is_slack (trace (snd r))
               = (count_effect is_slack (trace w) + List.length (t :: texts) / 5
                  + 1)%nat /\
               last (trace (snd r)) = Some e)).
    { intros e He. cbn zeta. rewrite (slack_call_ok _ _ r Hr). cbn [fst snd trace].
      split; [reflexivity |]. rewrite count_effect_snoc, He.
      split; [lia | apply last_snoc]. }
    destruct (truthy ts) eqn:Hts.
    + destruct (Hshow (EChatUpdate channel_id ts (PStr (str_concat (t :: texts))))
                  eq_refl) as (H1 & H2 & H3).
      split; [exact H1 |]. split; [exact H2 |].
      intros _. exists ts. unfold show_text. rewrite Hts. exact H3.
    + destruct (Hshow (EPostMessage channel_id (PStr (str_concat (t :: texts))) None)
                  eq_refl) as (H1 & H2 & H3).
      split; [exact H1 |]. split; [exact H2 |].
      intros _. exists ts. unfold show_text. rewrite Hts. exact H3.
Qed.

(** X19. An app mention on an initialized agent system: the mention of
    the bot (the user of the first authorization) is cut out of the text
    and the rest is stripped; the handler looks up the session, posts the
    thinking note, invokes the agent once with that text and the session id
    [user_channel], and posts the agent's output with its blocks. *)
Theorem process_event_app_mention
    (ed ev auth0 resp ack1 ack2 : list (string * pyval)) (rest : list pyval)
    (text0 : string) (w : world) :
  py_get (PDict ed) "event" (PDict []) = Ok (PDict ev) ->
  dict_get ev "type" = Some (PStr "app_mention") ->
  dict_get ev "text" = Some (PStr text0) ->
  default (PList [PDict []]) (dict_get ed "authorizations")
  = PList (PDict auth0 :: rest) ->
  let bot_user_id := default (PStr "") (dict_get auth0 "user_id") in
  let text := strip (str_replace text0 ("<@" ++ py_str R bot_user_id ++ ">") "") in
  text <> "" ->
  initialized (agent_system w) = true ->
  agents (agent_system w) = true ->
  slack_reply R (slack_calls w) = Ok ack1 ->
  slack_reply R (S (slack_calls w)) = Ok ack2 ->
  let user_id := default (PStr "") (dict_get ev "user") in
  let channel_id := default (PStr "") (dict_get ev "channel") in
  let session_id := PStr (py_str R user_id ++ "_" ++ py_str R channel_id) in
  agent_invoke R (PStr text) session_id = Ok (PDict resp) ->
  dict_get resp "trace" = None ->
  let output := default (PStr "") (dict_get resp "output") in
  let r := process_event R (PDict ed) w in
  fst r = Ok tt /\
  exists es,
    Forall is_store_or_log es /\
    trace (snd r)
    = (trace w ++ es ++
       [EPostMessage channel_id (PStr thinking_text) None;
        EAgentInvoke (PStr text) session_id;
        EPostMessage channel_id output
          (Some (PList [mrkdwn_section output]))])%list.
Proof.
  intros Hev Hty Htext Hauth bot_user_id text Hne Hi Ha Hack1 Hack2
    user_id channel_id session_id Hinv Htr output.
  cbn zeta.
  destruct (process_event R (PDict ed) w) as [res w'] eqn:E.
  cbn [fst snd]. revert E.
  unfold process_event. unfold bind at 1, lift at 1. rewrite Hev.
  unfold bind at 1, lift at 1. cbn [py_get]. rewrite Hty.
  change (py_eq_str (PStr "app_mention") "app_mention") with true. cbn iota.
  do 4 (unfold bind at 1, lift at 1).
  rewrite Htext.
  change (match dict_get ed "authorizations" with
          | Some x => x
          | None => PList [PDict []]
          end)
    with (default (PList [PDict []]) (dict_get ed "authorizations")).
  rewrite Hauth. cbn [py_index0].
  do 2 (unfold bind at 1, lift at 1). cbn [py_get as_str].
  unfold bind at 1, lift at 1.
  change (match dict_get auth0 "user_id" with Some x => x | None => PStr "" end)
    with bot_user_id.
  fold text.
  change (match dict_get ev "user" with Some x => x | None => PStr "" end)
    with user_id.
  change (match dict_get ev "channel" with Some x => x | None => PStr "" end)
    with channel_id.
  apply String.eqb_neq in Hne. rewrite Hne.
  pose proof (get_or_create_session_result user_id channel_id w) as Hr.
  destruct (get_or_create_session_frame user_id channel_id w)
    as (es & Htrace & Hes & Hag & Hsl & _).
  unfold bind at 1.
  destruct (get_or_create_session R user_id channel_id w) as [r w0].
  cbn [fst snd] in *. subst r.
  unfold try_except, bind, lift, ret.
  rewrite (slack_call_ok _ _ ack1) by (rewrite Hsl; exact Hack1).
  rewrite (process_request_ready _ _ resp)
    by (cbn [agent_system]; rewrite ?Hag; auto using session_id_truthy).
  cbn [py_getitem dict_get String.eqb Ascii.eqb Bool.eqb].
  unfold format_response_blocks at 1.
  cbn [py_getitem py_get dict_get res_bind String.eqb Ascii.eqb Bool.eqb].
  rewrite Htr.
  cbn [default from_option id truthy res_bind py_getitem py_get dict_get
       String.eqb Ascii.eqb Bool.eqb].
  rewrite (slack_call_ok _ _ ack2)
    by (cbn [slack_calls add_trace]; rewrite Hsl; exact Hack2).
  intros E. injection E as <- <-. split; [reflexivity |].
  exists es. split; [exact Hes |]. cbn [trace add_trace].
  rewrite Htrace, <- !app_assoc. reflexivity.
Qed.

(** *** Discovery and initialization *)

Lemma dict_get_set_eq {V} (d : list (string * V)) (k : string) (v : V) :
  dict_get (dict_set d k v) k = Some v.
Proof.
  induction d as [|[k' v'] d IH]; cbn.
  - rewrite String.eqb_refl. reflexivity.
  - destruct (String.eqb k' k) eqn:E; cbn; rewrite E; auto.
Qed.

Lemma dict_get_set_ne {V} (d : list (string * V)) (k k' : string) (v : V) :
  k <> k' -> dict_get (dict_set d k v) k' = dict_get d k'.
Proof.
  intros Hne. induction d as [|[k0 v0] d IH]; cbn.
  - apply String.eqb_neq in Hne. rewrite Hne. reflexivity.
  - destruct (String.eqb k0 k) eqn:E; cbn.
    + apply String.eqb_eq in E. subst k0.
      apply String.eqb_neq in Hne. rewrite Hne. reflexivity.
    + destruct (String.eqb k0 k'); auto.
Qed.

Lemma dict_set_keys {V} (d : list (string * V)) (k : string) (v : V) :
  dict_keys (dict_set d k v)
  = match dict_get d k with
    | Some _ => dict_keys d
    | None => (dict_keys d ++ [k])%list
    end.
Proof.
  induction d as [|[k0 v0] d IH]; cbn; [reflexivity |].
  destruct (String.eqb k0 k) eqn:E; cbn; [reflexivity |].
  unfold dict_keys in IH. rewrite IH.
  destruct (dict_get d k); reflexivity.
Qed.

(** X20. What [_discover_tools] stores: after the loop over the listed
    tools, a name is bound to the last listed tool of that name, and a name
    that no listed tool has keeps what it was bound to before. *)
Theorem store_tools_lookup (tools : list tool) :
  forall (d : list (string * tool)) (name : string),
    dict_get (store_tools d tools) name
    = match last (List.filter (fun t => String.eqb (tool_name_of t) name) tools) with
      | Some t => Some t
      | None => dict_get d name
      end.
Proof.
  induction tools as [|t rest IH]; intros d name; [reflexivity |].
  cbn [store_tools List.filter]. rewrite IH.
  destruct (String.eqb (tool_name_of t) name) eqn:E.
  - apply String.eqb_eq in E. subst name.
    destruct (List.filter _ rest) as [|x l].
    + cbn. apply dict_get_set_eq.
    + rewrite last_cons_cons.
      destruct (last_cons_some x l) as [y ->]. reflexivity.
  - apply String.eqb_neq in E.
    rewrite (dict_get_set_ne _ _ _ _ E). reflexivity.
Qed.

(** The association list that stands for [available_tools] stays a
    dictionary: distinct names before, distinct names after. *)
Lemma store_tools_keys_unique (tools : list tool) :
  forall d : list (string * tool),
    NoDup (dict_keys d) -> NoDup (dict_keys (store_tools d tools)).
Proof.
  induction tools as [|t rest IH]; intros d Hd; [exact Hd |].
  cbn [store_tools]. apply IH. rewrite dict_set_keys.
  destruct (dict_get d (tool_name_of t)) eqn:E; [exact Hd |].
  apply NoDup_app. split; [exact Hd |]. split; [| apply NoDup_singleton].
  intros x Hx Hin. apply list_elem_of_singleton in Hin. subst x.
  apply list_elem_of_In in Hx.
  exact (dict_get_None_not_in _ _ E Hx).
Qed.

Ltac unfold_initialize :=
  unfold JamfAgentSystem_initialize, JamfMCPActionGroup_initialize,
    _discover_tools, _connect_stdio_mcp, _connect_http_mcp, self_action_group,
    closed_session_request, closing, set_action_group, bind, get_world,
    set_agent_system, emit, lift, raise, ret.

(** What [JamfAgentSystem.initialize] does on a system that is not
    initialized. *)
Lemma JamfAgentSystem_initialize_eq (w : world) :
  initialized (agent_system w) = false ->
  JamfAgentSystem_initialize R w
  = if decide (environ R !! "ENVIRONMENT" = Some "production")
    then (Raise (Exn "NotImplementedError"
                     "HTTP MCP connection not yet implemented"),
          after_attempt R w false [])
    else
      match stdio_open R with
      | Ok _ =>
          match session_initialize R with
          | Ok _ =>
              (Raise (closed_session_error R),
               after_attempt R w true
                 [EStdioConnect; ESessionInitialize; EStdioClose; EListTools])
          | Raise e =>
              (Raise e,
               after_attempt R w false
                 [EStdioConnect; ESessionInitialize; EStdioClose])
          | Abort e =>
              (Abort e,
               after_attempt R w false
                 [EStdioConnect; ESessionInitialize; EStdioClose])
          end
      | Raise e => (Raise e, after_attempt R w false [EStdioConnect])
      | Abort e => (Abort e, after_attempt R w false [EStdioConnect])
      end.
Proof.
  intros Hi. unfold_initialize.
  unfold after_attempt, with_agent_system, fresh_group, add_trace.
  destruct w as [st sc sl cr [ag g i] c tr]. cbn in *. subst i. cbn.
  destruct (decide _) as [He | _]; cbn.
  { rewrite app_nil_r. reflexivity. }
  destruct (stdio_open R) as [[]|e0|e0]; cbn; [| reflexivity ..].
  destruct (session_initialize R) as [[]|e0|e0]; cbn;
    rewrite <- !app_assoc; reflexivity.
Qed.

(** X22. The flag [initialized] tells whether [initialize] has succeeded.
    When [initialize] returns, the flag is set and a further call does
    nothing; when it raises, whatever the reason, the flag and the agents
    are as before, so that the next request tries again. *)
Theorem initialize_flag (w : world) :
  let r := JamfAgentSystem_initialize R w in
  (fst r = Ok tt ->
   initialized (agent_system (snd r)) = true /\
   JamfAgentSystem_initialize R (snd r) = (Ok tt, snd r)) /\
  (forall e, fst r = Raise e ->
   initialized (agent_system (snd r)) = initialized (agent_system w) /\
   agents (agent_system (snd r)) = agents (agent_system w)).
Proof.
  cbn zeta. destruct (initialized (agent_system w)) eqn:Hi.
  { unfold JamfAgentSystem_initialize, bind, get_world, ret. rewrite Hi.
    cbn. rewrite Hi. split; [auto | discriminate]. }
  rewrite (JamfAgentSystem_initialize_eq w Hi).
  destruct (decide _) as [He | _].
  { split; [discriminate | auto]. }
  destruct (stdio_open R) as [[]|e0|e0];
    [| split; [discriminate | auto] ..].
  destruct (session_initialize R) as [[]|e0|e0];
    (split; [discriminate | auto]).
Qed.

(** X21. In development mode, with a provider that starts and answers the
    handshake, [JamfAgentSystem.initialize] on a system that is not
    initialized does not succeed: [_connect_stdio_mcp] returns from inside
    its [async with] blocks, so the session it hands over has been closed
    and the provider stopped; the request for the tools is then made on the
    closed session and raises. No tool is discovered, no agent is created
    and the system stays uninitialized. *)
Theorem initialize_on_closed_session (w : world) :
  environ R !! "ENVIRONMENT" <> Some "production" ->
  initialized (agent_system w) = false ->
  stdio_open R = Ok tt ->
  session_initialize R = Ok tt ->
  JamfAgentSystem_initialize R w
  = (Raise (closed_session_error R),
     World (sessions_table w) (store_calls w) (slack_calls w) (clock_reads w)
       (AgentSystem (agents (agent_system w))
          (Some (ActionGroup
                   (default "http://localhost:3000" (environ R !! "MCP_SERVER_URL"))
                   true []))
          false)
       (cells w)
       (trace w ++ [EStdioConnect; ESessionInitialize; EStdioClose; EListTools])).
Proof.
  intros Henv Hi Ho Hs. rewrite (JamfAgentSystem_initialize_eq w Hi).
  destruct (decide _) as [He | _]; [contradiction |].
  rewrite Ho, Hs. reflexivity.
Qed.

(** X23. Because initialization never completes, every request starts it
    again: of two requests in a row on a fresh system, in development mode
    with a provider that starts and answers the handshake, each starts the
    provider, makes the handshake, closes the session, asks it for the
    tools and ends with the error of the closed session; the agent is not
    invoked. *)
Theorem process_request_initializes_again (m1 s1 m2 s2 : pyval) (w : world) :
  environ R !! "ENVIRONMENT" <> Some "production" ->
  initialized (agent_system w) = false ->
  stdio_open R = Ok tt ->
  session_initialize R = Ok tt ->
  let attempt := [EStdioConnect; ESessionInitialize; EStdioClose; EListTools] in
  let r1 := process_request R m1 s1 w in
  let r2 := process_request R m2 s2 (snd r1) in
  fst r1 = Raise (closed_session_error R) /\
  fst r2 = Raise (closed_session_error R) /\
  trace (snd r1) = (trace w ++ attempt)%list /\
  trace (snd r2) = (trace w ++ attempt ++ attempt)%list.
Proof.
  intros Henv Hi Ho Hs. cbn zeta.
  assert (E : forall m s w0,
            initialized (agent_system w0) = false ->
            process_request R m s w0
            = (Raise (closed_session_error R),
               after_attempt R w0 true
                 [EStdioConnect; ESessionInitialize; EStdioClose; EListTools])).
  { intros m s w0 Hi0. unfold process_request.
    unfold bind at 1, get_world at 1. rewrite Hi0. unfold bind at 1.
    rewrite (JamfAgentSystem_initialize_eq w0 Hi0).
    destruct (decide _) as [He | _]; [contradiction |].
    rewrite Ho, Hs. reflexivity. }
  rewrite (E m1 s1 w Hi). cbn [fst snd].
  rewrite (E m2 s2 (after_attempt R w true _) eq_refl). cbn [fst snd].
  unfold after_attempt, add_trace, with_agent_system. cbn [trace].
  rewrite <- !app_assoc. auto.
Qed.

(** *** Tool functions and requests *)

(** X24. [create_tool_functions] returns one function per discovered
    tool, in the order of discovery, each with the name and the description
    of its tool, and makes no external call. *)
Theorem create_tool_functions_metadata (w : world) (g : JamfMCPActionGroup) :
  mcp_action_group (agent_system w) = Some g ->
  exists fs,
    fst (create_tool_functions w) = Ok fs /\
    map fn_name fs = dict_keys (available_tools g) /\
    map fn_doc fs
    = map (fun item : string * tool => tool_description (snd item))
        (available_tools g) /\
    trace (snd (create_tool_functions w)) = trace w.
Proof.
  intros Hg. rewrite (create_tool_functions_spec w g Hg). cbn [fst snd].
  eexists. split; [reflexivity |].
  split; [| split].
  - unfold dict_keys. rewrite map_map. reflexivity.
  - rewrite map_map. reflexivity.
  - unfold with_cell. destruct (last _); reflexivity.
Qed.

(** X25. A request without a session id: the agent is invoked under a
    generated id [session_<time>], but when the agent's answer carries no
    session id the result reports the caller's own empty value, not the
    generated id under which the conversation was held. *)
Theorem process_request_forgets_session (user_message session_id : pyval)
    (resp : list (string * pyval)) (w : world) :
  initialized (agent_system w) = true ->
  agents (agent_system w) = true ->
  truthy session_id = false ->
  let generated := PStr ("session_" ++ now_isoformat R (clock_reads w)) in
  agent_invoke R user_message generated = Ok (PDict resp) ->
  dict_get resp "session_id" = None ->
  let r := process_request R user_message session_id w in
  (exists out,
     fst r = Ok (PDict out) /\
     dict_get out "session_id" = Some session_id) /\
  trace (snd r) = (trace w ++ [EAgentInvoke user_message generated])%list /\
  session_id <> generated.
Proof.
  intros Hi Ha Hs generated Hinv Hsid. cbn zeta.
  unfold process_request, orchestrator, session_or_fresh, bind, get_world,
    set_clock_reads, emit, ret, lift.
  rewrite Hi. cbn. rewrite Ha, Hs. cbn. fold generated. rewrite Hinv. cbn.
  rewrite Hsid. split; [eexists; split; reflexivity |].
  split; [reflexivity |].
  intros ->. discriminate Hs.
Qed.

(** *** Form bodies *)

(** X26. [parse_slack_body] keeps the fields of the body, in their
    order: a field sent once is bound to its value as a string, a field
    sent several times to the list of its values, and a field that was not
    sent is absent. *)
Theorem parse_slack_body_fields (body : pyval)
    (parsed : list (string * list string)) :
  parse_qs R body = Ok parsed ->
  exists d,
    parse_slack_body R body = Ok (PDict d) /\
    dict_keys d = dict_keys parsed /\
    forall k,
      dict_get d k
      = match dict_get parsed k with
        | Some [x] => Some (PStr x)
        | Some values => Some (PList (map PStr values))
        | None => None
        end.
Proof.
  intros Hp. unfold parse_slack_body. rewrite Hp. cbn [res_bind].
  eexists. split; [reflexivity |]. split.
  - unfold dict_keys. rewrite map_map. reflexivity.
  - intros k. clear Hp. induction parsed as [|[k0 v] rest IH]; [reflexivity |].
    cbn [map dict_get fst snd]. destruct (String.eqb k0 k); [| exact IH].
    destruct v as [|x [|y l]]; reflexivity.
Qed.

(** *** A stream that breaks *)

Lemma count_effect_app (p : effect -> bool) (a b : list effect) :
  count_effect p (a ++ b) = (count_effect p a + count_effect p b)%nat.
Proof. unfold count_effect. rewrite List.filter_app, length_app. reflexivity. Qed.

Lemma slack_call_extends (e : effect) (w : world) :
  trace (snd (slack_call R e w)) = (trace w ++ [e])%list.
Proof.
  unfold slack_call, bind, emit, get_world, set_slack_calls, lift. cbn.
  destruct (slack_reply R (slack_calls w)); reflexivity.
Qed.

Lemma stream_step_extends (channel_id chunk : pyval) st (w : world) :
  exists es,
    trace (snd (stream_step R channel_id st chunk w)) = (trace w ++ es)%list.
Proof.
  destruct st as [message_ts chunks]. unfold stream_step, bind, lift, ret.
  destruct (py_get chunk "type" PNone) as [ty|e|e];
    [| exists []; rewrite app_nil_r; reflexivity ..].
  destruct (py_eq_str ty "content"); [| exists []; rewrite app_nil_r; reflexivity].
  destruct (py_get chunk "text" (PStr "")) as [piece|e|e];
    [| exists []; rewrite app_nil_r; reflexivity ..].
  destruct (_ =? 0)%nat; [| exists []; rewrite app_nil_r; reflexivity].
  destruct (py_join _) as [full|e|e];
    [| exists []; rewrite app_nil_r; reflexivity ..].
  destruct (truthy message_ts).
  - pose proof (slack_call_extends
                  (EChatUpdate channel_id message_ts (PStr full)) w) as H.
    destruct (slack_call R _ w) as [[r|e|e] w']; eexists; exact H.
  - pose proof (slack_call_extends
                  (EPostMessage channel_id (PStr full) None) w) as H.
    destruct (slack_call R _ w) as [[r|e|e] w']; eexists; exact H.
Qed.

Lemma stream_loop_extends (channel_id : pyval) (stream : list pyval) :
  forall st (w : world),
  exists es,
    trace (snd (stream_loop R channel_id st stream w)) = (trace w ++ es)%list.
Proof.
  induction stream as [|chunk rest IH]; intros st w.
  - exists []. rewrite app_nil_r. reflexivity.
  - rewrite stream_loop_cons.
    destruct (stream_step_extends channel_id chunk st w) as [es1 H1].
    destruct (stream_step R channel_id st chunk w) as [[st'|e|e] w1];
      cbn [snd] in H1.
    + destruct (IH st' w1) as [es2 H2]. exists (es1 ++ es2)%list.
      rewrite H2, H1, app_assoc. reflexivity.
    + exists es1. exact H1.
    + exists es1. exact H1.
Qed.

(** X27. A direct message whose stream breaks after [n] content chunks:
    the handler has shown the text after every fifth chunk; there is no
    final update, so the chunks that came after the last multiple of five
    are never shown. When the stream broke with an exception that derives
    from [Exception], the handler logs the error and posts the apology
    with the text of the exception; an exception that [except Exception]
    does not catch (a cancellation, say) leaves the handler, and the user
    is told nothing. *)
Theorem direct_message_stream_breaks (ed ev : list (string * pyval))
    (text : pyval) (stream : list pyval) (texts : list string) (broken : raised)
    (w : world) :
  py_get (PDict ed) "event" (PDict []) = Ok (PDict ev) ->
  dict_get ev "type" = Some (PStr "message") ->
  dict_get ev "channel_type" = Some (PStr "im") ->
  dict_get ev "bot_id" = None ->
  dict_get ev "text" = Some text ->
  truthy text = true ->
  let user_id := default (PStr "") (dict_get ev "user") in
  let channel_id := default (PStr "") (dict_get ev "channel") in
  initialized (agent_system w) = true ->
  agents (agent_system w) = true ->
  agent_invoke_stream R text
    (PStr (py_str R user_id ++ "_" ++ py_str R channel_id))
  = (stream, Some broken) ->
  Forall is_dict stream ->
  map chunk_text (List.filter is_content stream) = map PStr texts ->
  (forall n, exists r, slack_reply R n = Ok r) ->
  let r := process_event R (PDict ed) w in
  exists es,
    trace (snd r) = (trace w ++ es)%list /\
    match broken with
    | Exception e =>
        fst r = Ok tt /\
        count_effect is_slack es = (List.length texts / 5 + 1)%nat /\
        last es
        = Some (EPostMessage channel_id (PStr (sorry_prefix ++ exn_str e)) None)
    | BaseException e =>
        fst r = Abort e /\
        count_effect is_slack es = (List.length texts / 5)%nat
    end.
Proof.
  intros Hev Hty Hct Hbot Htext Htruthy user_id channel_id Hinit Hagents
    Hstream Hdict Htexts Hok.
  cbn zeta.
  pose proof (get_or_create_session_result user_id channel_id w) as Hr.
  destruct (get_or_create_session_frame user_id channel_id w)
    as (es0 & Htr & Hes & Hag & Hsl & _).
  destruct (get_or_create_session R user_id channel_id w) as [sid w0] eqn:Hg.
  cbn [fst snd] in *. subst sid.
  set (w1 := add_trace w0
               [EAgentInvokeStream text
                  (PStr (py_str R user_id ++ "_" ++ py_str R channel_id))]).
  destruct (stream_loop_content channel_id texts Hok PNone [] w1)
    as (ts & w2 & Hloop & Hcount).
  change (map PStr []) with (@nil pyval) in Hloop. cbn [app] in Hloop, Hcount.
  cbn [List.length] in Hcount. change (0 / 5)%nat with 0%nat in Hcount.
  destruct (stream_loop_extends channel_id (map content_chunk texts)
              (PNone, []) w1) as [es1 Hext].
  rewrite Hloop in Hext. cbn [snd] in Hext.
  destruct (Hok (slack_calls w2)) as [ack Hack].
  assert (Hc1 : count_effect is_slack es1 = (List.length texts / 5)%nat).
  { rewrite Hext, count_effect_app in Hcount. lia. }
  assert (H0 : count_effect is_slack es0 = 0%nat)
    by (unfold count_effect; rewrite (filter_is_slack_store es0 Hes); reflexivity).
  assert (E : process_event R (PDict ed) w
              = match broken with
                | Exception e =>
                    (Ok tt,
                     World (sessions_table w2) (store_calls w2)
                       (S (slack_calls w2)) (clock_reads w2) (agent_system w2)
                       (cells w2)
                       (trace w2 ++
                        [ELog "ERROR" ("Error processing DM: " ++ exn_str e);
                         EPostMessage channel_id
                           (PStr (sorry_prefix ++ exn_str e)) None]))
                | BaseException e => (Abort e, w2)
                end).
  { unfold process_event. unfold bind at 1, lift at 1. rewrite Hev.
    unfold bind at 1, lift at 1. cbn [py_get]. rewrite Hty.
    change (py_eq_str (PStr "message") "app_mention") with false. cbn iota.
    unfold bind at 1, lift at 1. rewrite Hct.
    change (py_eq_str (PStr "message") "message" && py_eq_str (PStr "im") "im")
      with true. cbn iota.
    unfold bind at 1, lift at 1. cbn [py_in]. rewrite Hbot. cbn iota.
    unfold bind at 1, lift at 1. unfold bind at 1, lift at 1.
    unfold bind at 1, lift at 1. rewrite Htext, Htruthy.
    change (match dict_get ev "user" with Some x => x | None => PStr "" end)
      with user_id.
    change (match dict_get ev "channel" with Some x => x | None => PStr "" end)
      with channel_id.
    unfold bind at 1. rewrite Hg.
    unfold try_except. unfold bind at 1.
    rewrite process_request_streaming_ready
      by (rewrite ?Hag; auto using session_id_truthy).
    rewrite Hstream. cbn [fst snd]. unfold bind at 1.
    rewrite stream_loop_skips by exact Hdict.
    rewrite (stream_loop_texts channel_id texts)
      by (auto using filter_is_dict, filter_is_content).
    fold w1. rewrite Hloop. unfold lift, throw.
    destruct broken as [e|e]; [| reflexivity].
    unfold post_error, logger, emit, ret, bind. cbn beta iota.
    rewrite (slack_call_ok _ _ ack) by exact Hack.
    cbn. rewrite <- app_assoc. reflexivity. }
  rewrite E. destruct broken as [e|e]; cbn [fst snd trace].
  - exists (es0 ++ [EAgentInvokeStream text
                      (PStr (py_str R user_id ++ "_" ++ py_str R channel_id))]
            ++ es1 ++
            [ELog "ERROR" ("Error processing DM: " ++ exn_str e);
             EPostMessage channel_id (PStr (sorry_prefix ++ exn_str e)) None])%list.
    split; [| split; [reflexivity | split]].
    + rewrite Hext. unfold w1. cbn [trace add_trace]. rewrite Htr.
      rewrite <- !app_assoc. reflexivity.
    + rewrite !count_effect_app, Hc1, H0. cbn. lia.
    + rewrite !app_assoc.
      change ([ELog "ERROR" ("Error processing DM: " ++ exn_str e);
               EPostMessage channel_id (PStr (sorry_prefix ++ exn_str e)) None])
        with ([ELog "ERROR" ("Error processing DM: " ++ exn_str e)]
              ++ [EPostMessage channel_id
                    (PStr (sorry_prefix ++ exn_str e)) None])%list.
      rewrite app_assoc. apply last_snoc.
  - exists (es0 ++ [EAgentInvokeStream text
                      (PStr (py_str R user_id ++ "_" ++ py_str R channel_id))]
            ++ es1)%list.
    split; [| split; [reflexivity |]].
    + rewrite Hext. unfold w1. cbn [trace add_trace]. rewrite Htr.
      rewrite <- !app_assoc. reflexivity.
    + rewrite !count_effect_app, Hc1, H0. cbn. lia.
Qed.

End Properties.

Lemma initialize_production_fails_fast_witness :
  JamfMCPActionGroup_initialize demo_production
    (World ∅ 0 0 0 (AgentSystem false (Some (ActionGroup "http://mcp" false [])) false) [] [])
  = (Raise (Exn "NotImplementedError" "HTTP MCP connection not yet implemented"),
     World ∅ 0 0 0 (AgentSystem false (Some (ActionGroup "http://mcp" false [])) false) [] []).
Proof.
  apply (proj1 (initialize_production_fails_fast demo_production _
                  (ActionGroup "http://mcp" false []) eq_refl)).
  reflexivity.
Defined.

Lemma lambda_handler_bad_timestamp_witness :
  fst (lambda_handler demo
         (PDict [("headers", PDict [("x-slack-signature", PStr "v0=00")]);
                 ("body", PStr "text=help")]) initial_world)
  = Raise (Exn "ValueError" "invalid literal for int() with base 10: ''") /\
  fst (lambda_handler demo
         (PDict [("headers", PDict [("x-slack-request-timestamp", PStr "soon")]);
                 ("body", PStr "text=help")]) initial_world)
  = Raise (Exn "ValueError" "invalid literal for int() with base 10: 'soon'") /\
  fst (lambda_handler demo
         (PDict [("headers",
                  PDict [("x-slack-request-timestamp", PStr "1700000000.5")]);
                 ("body", PStr "text=help")]) initial_world)
  = Raise (Exn "ValueError"
             "invalid literal for int() with base 10: '1700000000.5'").
Proof.
  split; [| split].
  - apply (proj1 (lambda_handler_bad_timestamp demo
                    (PDict [("headers", PDict [("x-slack-signature", PStr "v0=00")]);
                            ("body", PStr "text=help")])
                    [("x-slack-signature", PStr "v0=00")] initial_world eq_refl)).
    reflexivity.
  - apply (proj2 (lambda_handler_bad_timestamp demo
                    (PDict [("headers",
                             PDict [("x-slack-request-timestamp", PStr "soon")]);
                            ("body", PStr "text=help")])
                    [("x-slack-request-timestamp", PStr "soon")]
                    initial_world eq_refl) (PStr "soon")).
    + reflexivity.
    + vm_compute. reflexivity.
  - apply (proj2 (lambda_handler_bad_timestamp demo
                    (PDict [("headers",
                             PDict [("x-slack-request-timestamp",
                                     PStr "1700000000.5")]);
                            ("body", PStr "text=help")])
                    [("x-slack-request-timestamp", PStr "1700000000.5")]
                    initial_world eq_refl) (PStr "1700000000.5")).
    + reflexivity.
    + vm_compute. reflexivity.
Defined.

Lemma get_or_create_session_deterministic_witness :
  fst (get_or_create_session demo_store_down (PStr "U1") (PStr "C1") initial_world)
    = Ok "U1_C1" /\
  last (trace (snd (get_or_create_session demo_store_down (PStr "U1") (PStr "C1")
                      initial_world)))
    = Some (ELog "ERROR" "Session management error: Could not connect").
Proof.
  apply (proj2 (proj2 (get_or_create_session_deterministic demo_store_down
                         "U1" "C1" initial_world))
           0%nat (Exn "EndpointConnectionError" "Could not connect")).
  - vm_compute. split; [apply le_n | apply le_n].
  - reflexivity.
Defined.

Lemma demo_sane : runtime_sane demo.
Proof.
  split.
  - intros key msg. reflexivity.
  - vm_compute. reflexivity.
  - split; vm_compute; intros H; discriminate H.
Qed.

Lemma demo_keyed_sane : runtime_sane demo_keyed.
Proof.
  split.
  - intros key msg. apply hex_of_ascii.
  - vm_compute. reflexivity.
  - split; vm_compute; intros H; discriminate H.
Qed.

Lemma verify_slack_request_accepts_witness :
  let good := "v0=" ++ keyed_digest "s3cr3t" "v0:1700000000:ping" in
  let stale := "v0=" ++ keyed_digest "s3cr3t" "v0:1699999799:ping" in
  let type_error :=
    Exn "TypeError"
        "comparing strings with non-ASCII characters is not supported" in
  let received := ELog "INFO" "Received event: null" in
  runtime_sane demo_keyed /\
  fst (verify_slack_request demo_keyed (request "1700000000" good "ping")
         initial_world) = Ok true /\
  fst (verify_slack_request demo_keyed (request "1700000000" good "pong")
         initial_world) <> Ok true /\
  verify_slack_request demo_keyed (request "1699999799" stale "ping")
    initial_world
  = (Ok false,
     add_trace initial_world [ELog "WARNING" "Request timestamp too old"]) /\
  lambda_handler demo_keyed (request "1699999799" stale "ping") initial_world
  = (Ok (PDict [("statusCode", PInt 401);
                ("body", PStr ("{" ++ dq ++ "error" ++ dq ++ ": "
                               ++ dq ++ "Unauthorized" ++ dq ++ "}"))]),
     add_trace initial_world
       [received; ELog "WARNING" "Request timestamp too old"]) /\
  verify_slack_request demo_keyed
    (request "1700000000" (flip_bit 0 good) "ping") initial_world
  = (Ok false, initial_world) /\
  flip_bit 7 good
  = String (ascii_of_N 195) (String (ascii_of_N 182)
      ("0=" ++ keyed_digest "s3cr3t" "v0:1700000000:ping")) /\
  lambda_handler demo_keyed (request "1700000000" (flip_bit 7 good) "ping")
    initial_world
  = (Raise type_error, add_trace initial_world [received]).
Proof.
  cbn zeta.
  set (good := "v0=" ++ keyed_digest "s3cr3t" "v0:1700000000:ping").
  set (stale := "v0=" ++ keyed_digest "s3cr3t" "v0:1699999799:ping").
  pose (headers := fun ts sg =>
          PDict [("x-slack-request-timestamp", PStr ts);
                 ("x-slack-signature", PStr sg);
                 ("content-type", PStr "application/json")]).
  split; [exact demo_keyed_sane |].
  split; [| split; [| split; [| split; [| split; [| split]]]]].
  - apply (proj1 (verify_slack_request_accepts demo_keyed
                    (request "1700000000" good "ping") initial_world
                    demo_keyed_sane)).
    exists (headers "1700000000" good), (PStr "1700000000"), (PStr "ping"),
      1700000000.
    repeat split; try reflexivity.
    vm_compute. intros H. discriminate H.
  - intros H.
    apply (proj1 (verify_slack_request_accepts demo_keyed
                    (request "1700000000" good "pong") initial_world
                    demo_keyed_sane)) in H
      as (hs & ts & body & t & Hh & Hts & Hb & _ & _ & Hsg).
    injection Hh as <-. injection Hts as <-. injection Hb as <-.
    vm_compute in Hsg. discriminate Hsg.
  - apply (proj1 (proj2 (verify_slack_request_accepts demo_keyed
                           (request "1699999799" stale "ping") initial_world
                           demo_keyed_sane))
             (headers "1699999799" stale) (PStr "1699999799") (PStr stale)
             1699999799);
      reflexivity.
  - destruct (proj1 (proj2 (proj2 (verify_slack_request_accepts demo_keyed
                           (request "1699999799" stale "ping") initial_world
                           demo_keyed_sane))))
      as (logs & E & _); [reflexivity |].
    rewrite E. vm_compute in E. injection E as E. subst logs.
    vm_compute. reflexivity.
  - apply (proj2 (proj2 (proj2 (verify_slack_request_accepts demo_keyed
                           (request "1700000000" (flip_bit 0 good) "ping")
                           initial_world demo_keyed_sane)))
             (headers "1700000000" (flip_bit 0 good)) (PStr "1700000000")
             (PStr "ping") 1700000000 0%nat);
      try reflexivity.
    + vm_compute. intros H. discriminate H.
    + vm_compute. lia.
  - vm_compute. reflexivity.
  - apply (proj2 (proj2 (proj2 (verify_slack_request_accepts demo_keyed
                           (request "1700000000" (flip_bit 7 good) "ping")
                           initial_world demo_keyed_sane)))
             (headers "1700000000" (flip_bit 7 good)) (PStr "1700000000")
             (PStr "ping") 1700000000 7%nat);
      try reflexivity.
    + vm_compute. intros H. discriminate H.
    + vm_compute. lia.
Defined.

Lemma url_verification_echo_witness :
  lambda_handler demo challenge_event initial_world
  = (Ok (PDict [("statusCode", PInt 200);
                ("body", PStr ("{" ++ dq ++ "challenge" ++ dq ++ ": "
                                   ++ dq ++ "abc123" ++ dq ++ "}"))]),
     add_trace initial_world [ELog "INFO" "Received event: null"]).
Proof.
  apply (url_verification_echo demo challenge_event initial_world
           (PDict [("x-slack-request-timestamp", PStr "1700000000");
                   ("x-slack-signature", PStr ("v0=" ++ demo_digest));
                   ("content-type", PStr "application/json")])
           (PStr "application/json") (PStr challenge_body) (PStr "abc123")
           [("type", PStr "url_verification"); ("challenge", PStr "abc123")]);
    vm_compute; reflexivity.
Defined.

Lemma tool_function_calls_last_name_witness :
  let f := ToolFunction "searchDevices" (PStr "Search for devices") 0 in
  let kwargs := PDict [("query", PStr "mac")] in
  fst (create_tool_functions discovered_world)
  = Ok [f;
        ToolFunction "getDeviceDetails" (PStr "Details of one device") 0;
        ToolFunction "updateInventory" (PStr "Force an inventory update") 0] /\
  trace (snd (call_tool_function demo f kwargs
                (snd (create_tool_functions discovered_world))))
  = (trace discovered_world ++ [ECallTool "updateInventory" kwargs])%list.
Proof.
  cbn zeta. split; [vm_compute; reflexivity |].
  apply (tool_function_calls_last_name demo discovered_world
           (ActionGroup "http://localhost:3000" true
              [("searchDevices", Tool "searchDevices" (PStr "Search for devices"));
               ("getDeviceDetails",
                Tool "getDeviceDetails" (PStr "Details of one device"));
               ("updateInventory",
                Tool "updateInventory" (PStr "Force an inventory update"))])).
  - vm_compute. reflexivity.
  - reflexivity.
  - reflexivity.
  - vm_compute. left. reflexivity.
Defined.

Lemma direct_message_twelve_chunks_witness :
  let event :=
    [("type", PStr "message"); ("channel_type", PStr "im");
     ("user", PStr "U1"); ("channel", PStr "D1"); ("text", PStr "list macs")] in
  let r := process_event demo (PDict [("event", PDict event)]) discovered_world in
  fst r = Ok tt /\
  exists es,
    trace (snd r) = (trace discovered_world ++ es)%list /\
    List.filter is_slack es
    = [EPostMessage (PStr "D1") (PStr "abcde") None;
       EChatUpdate (PStr "D1") (PStr "1700000100.000100") (PStr "abcdefghij");
       EChatUpdate (PStr "D1") (PStr "1700000100.000100")
         (PStr "abcdefghijkl")].
Proof.
  exact (direct_message_twelve_chunks demo
           [("event",
             PDict [("type", PStr "message"); ("channel_type", PStr "im");
                    ("user", PStr "U1"); ("channel", PStr "D1");
                    ("text", PStr "list macs")])]
           [("type", PStr "message"); ("channel_type", PStr "im");
            ("user", PStr "U1"); ("channel", PStr "D1");
            ("text", PStr "list macs")]
           (PStr "list macs")
           demo_stream
           ["a"; "b"; "c"; "d"; "e"; "f"; "g"; "h"; "i"; "j"; "k"; "l"]
           _ _ _ discovered_world
           eq_refl eq_refl eq_refl eq_refl eq_refl eq_refl eq_refl eq_refl
           eq_refl
           ltac:(repeat constructor; eexists; reflexivity)
           eq_refl eq_refl eq_refl eq_refl eq_refl).
Defined.

Lemma session_keeps_creation_witness :
  let w := snd (get_or_create_session demo (PStr "U1") (PStr "C1") initial_world) in
  exists item',
    sessions_table (snd (get_or_create_session demo (PStr "U1") (PStr "C1") w))
      !! "U1_C1" = Some item' /\
    item_user_id item' = PStr "U1" /\
    item_channel_id item' = PStr "C1" /\
    item_created_at item' = "2023-11-14T22:15:00" /\
    (item_last_accessed item' = "2023-11-14T22:15:00" \/
     item_last_accessed item' = "2023-11-14T22:15:00").
Proof.
  exact (session_keeps_creation demo (PStr "U1") (PStr "C1")
           (snd (get_or_create_session demo (PStr "U1") (PStr "C1") initial_world))
           (SessionItem (PStr "U1") (PStr "C1")
              "2023-11-14T22:15:00" "2023-11-14T22:15:00")
           ltac:(vm_compute; reflexivity)).
Defined.

Lemma session_only_own_witness :
  sessions_table (snd (get_or_create_session demo (PStr "U1") (PStr "C1")
                         initial_world)) !! "U2_C1"
  = sessions_table initial_world !! "U2_C1".
Proof.
  apply (session_only_own demo (PStr "U1") (PStr "C1") initial_world "U2_C1").
  discriminate.
Defined.

Lemma session_first_and_second_contact_witness :
  let w1 := snd (get_or_create_session demo (PStr "U1") (PStr "C1") initial_world) in
  let w2 := snd (get_or_create_session demo (PStr "U1") (PStr "C1") w1) in
  sessions_table w1 !! "U1_C1"
  = Some (SessionItem (PStr "U1") (PStr "C1")
            "2023-11-14T22:15:00" "2023-11-14T22:15:00") /\
  sessions_table w2 !! "U1_C1"
  = Some (SessionItem (PStr "U1") (PStr "C1")
            "2023-11-14T22:15:00" "2023-11-14T22:15:00") /\
  trace w2
  = [EGetItem "U1_C1";
     EPutItem "U1_C1" (PStr "U1") (PStr "C1")
       "2023-11-14T22:15:00" "2023-11-14T22:15:00";
     EGetItem "U1_C1"; EUpdateItem "U1_C1" "2023-11-14T22:15:00"].
Proof.
  exact (session_first_and_second_contact demo (PStr "U1") (PStr "C1")
           initial_world eq_refl (fun _ => eq_refl)).
Defined.

Lemma process_slash_command_unknown_witness :
  let r := process_slash_command demo (PDict (slash_command "/jira" "x"))
             initial_world in
  fst r = Ok (ephemeral "Unknown command") /\
  exists sid es,
    trace (snd r) = (trace initial_world ++ EGetItem sid :: es)%list /\
    Forall is_store_or_log es /\
    agent_system (snd r) = agent_system initial_world /\
    slack_calls (snd r) = slack_calls initial_world.
Proof.
  exact (process_slash_command_unknown demo (slash_command "/jira" "x")
           (PStr "/jira") "x" initial_world eq_refl eq_refl eq_refl).
Defined.

Lemma process_slash_command_repeated_text_witness :
  let R := demo_parsing [("command", ["/jamf"]); ("text", ["a"; "b"])] in
  exists command_data,
    parse_slack_body R (PStr "command=%2Fjamf&text=a&text=b") = Ok command_data /\
    process_slash_command R command_data initial_world
    = (Raise (attribute_error (PList [PStr "a"; PStr "b"]) "strip"),
       initial_world).
Proof.
  apply (process_slash_command_repeated_text
           (demo_parsing [("command", ["/jamf"]); ("text", ["a"; "b"])])
           (PStr "command=%2Fjamf&text=a&text=b")
           [("command", ["/jamf"]); ("text", ["a"; "b"])] ["a"; "b"]
           initial_world eq_refl eq_refl).
  discriminate.
Defined.

Lemma process_slash_command_asks_agent_witness :
  let r := process_slash_command demo
             (PDict (slash_command "/jamf" " list macs ")) discovered_world in
  fst r = Ok (PDict [("response_type", PStr "in_channel");
                     ("text", PStr "done");
                     ("blocks", PList [mrkdwn_section (PStr "done")])]) /\
  exists es,
    Forall is_store_or_log es /\
    trace (snd r)
    = (trace discovered_world ++ es ++
       [EPostMessage (PStr "C1")
          (PStr (processing_prefix ++ "list macs" ++ "_")) None;
        EAgentInvoke (PStr "list macs") (PStr "U1_C1")])%list.
Proof.
  exact (process_slash_command_asks_agent demo
           (slash_command "/jamf" " list macs ") [("output", PStr "done")]
           [("ok", PBool true); ("ts", PStr "1700000100.000100")]
           " list macs " discovered_world eq_refl eq_refl
           ltac:(vm_compute; discriminate) ltac:(vm_compute; discriminate)
           eq_refl eq_refl eq_refl eq_refl eq_refl).
Defined.

Lemma lambda_handler_bad_request_witness :
  lambda_handler demo (signed_event "text/plain" "hello") initial_world
  = (Ok (response 400 (json_dumps demo (PDict [("error", PStr "Bad request")]))),
     add_trace initial_world [ELog "INFO" "Received event: null"]).
Proof.
  apply (lambda_handler_bad_request demo (signed_event "text/plain" "hello")
           (PDict [("x-slack-request-timestamp", PStr "1700000000");
                   ("x-slack-signature", PStr ("v0=" ++ demo_digest));
                   ("content-type", PStr "text/plain")])
           (PStr "text/plain") (PStr "hello") initial_world);
    try (vm_compute; reflexivity).
  left. split; vm_compute; reflexivity.
Defined.

Lemma lambda_handler_loop_dilemma_witness :
  lambda_handler (demo_events false)
    (signed_event "application/json" callback_body) initial_world
  = (Raise (Exn "RuntimeError" "no running event loop"),
     add_trace initial_world [ELog "INFO" "Received event: null"]) \/
  lambda_handler (demo_events false)
    (signed_event "application/x-www-form-urlencoded" "text=help") initial_world
  = (Raise (Exn "RuntimeError" "This event loop is already running"),
     add_trace initial_world [ELog "INFO" "Received event: null"]).
Proof.
  apply (lambda_handler_loop_dilemma (demo_events false)
           (signed_event "application/json" callback_body)
           (signed_event "application/x-www-form-urlencoded" "text=help")
           (PDict [("x-slack-request-timestamp", PStr "1700000000");
                   ("x-slack-signature", PStr ("v0=" ++ demo_digest));
                   ("content-type", PStr "application/json")])
           (PDict [("x-slack-request-timestamp", PStr "1700000000");
                   ("x-slack-signature", PStr ("v0=" ++ demo_digest));
                   ("content-type", PStr "application/x-www-form-urlencoded")])
           (PStr "application/json")
           (PStr "application/x-www-form-urlencoded")
           (PStr callback_body) (PStr "text=help")
           (PDict [("command", PStr "/jamf"); ("text", PStr "help");
                   ("user_id", PStr "U1"); ("channel_id", PStr "C1")])
           [("type", PStr "event_callback")] initial_world);
    vm_compute; reflexivity.
Defined.

Lemma lambda_handler_event_callback_scheduled_witness :
  lambda_handler (demo_events true)
    (signed_event "application/json" callback_body) initial_world
  = (Ok (response 200 (json_dumps demo (PDict [("status", PStr "ok")]))),
     add_trace initial_world
       [ELog "INFO" "Received event: null";
        ECreateTask (PDict [("type", PStr "event_callback")])]).
Proof.
  apply (lambda_handler_event_callback_scheduled (demo_events true)
           (signed_event "application/json" callback_body)
           (PDict [("x-slack-request-timestamp", PStr "1700000000");
                   ("x-slack-signature", PStr ("v0=" ++ demo_digest));
                   ("content-type", PStr "application/json")])
           (PStr "application/json") (PStr callback_body)
           [("type", PStr "event_callback")] initial_world);
    vm_compute; reflexivity.
Defined.

Lemma lambda_handler_missing_body_witness :
  lambda_handler demo
    (PDict [("headers",
             PDict [("x-slack-request-timestamp", PStr "1700000000");
                    ("x-slack-signature", PStr ("v0=" ++ demo_digest))])])
    initial_world
  = (Raise (Exn "KeyError" "'body'"),
     add_trace initial_world [ELog "INFO" "Received event: null"]).
Proof.
  apply (lambda_handler_missing_body demo
           [("headers",
             PDict [("x-slack-request-timestamp", PStr "1700000000");
                    ("x-slack-signature", PStr ("v0=" ++ demo_digest))])]
           (PDict [("x-slack-request-timestamp", PStr "1700000000");
                   ("x-slack-signature", PStr ("v0=" ++ demo_digest))])
           (PStr "1700000000") (PStr ("v0=" ++ demo_digest)) 1700000000
           initial_world);
    vm_compute; reflexivity.
Defined.

Lemma format_response_blocks_plain_witness :
  format_response_blocks demo
    (PDict [("response", PStr "done"); ("trace", PDict []);
            ("session_id", PStr "U1_C1")])
  = Ok (PList [mrkdwn_section (PStr "done")]).
Proof.
  apply (format_response_blocks_plain demo
           [("response", PStr "done"); ("trace", PDict []);
            ("session_id", PStr "U1_C1")] (PStr "done") eq_refl).
  left. reflexivity.
Defined.

Lemma format_response_blocks_tools_witness :
  format_response_blocks demo
    (PDict [("response", PStr "done");
            ("trace",
             PDict [("agentActions",
                     PList [PDict [("actionName", PStr "searchDevices")];
                            PDict []])])])
  = Ok (PList [mrkdwn_section (PStr "done");
               tools_block [bullet ++ "searchDevices"; bullet ++ "Unknown"]]).
Proof.
  apply (format_response_blocks_tools demo
           [("response", PStr "done");
            ("trace",
             PDict [("agentActions",
                     PList [PDict [("actionName", PStr "searchDevices")];
                            PDict []])])]
           [("agentActions",
             PList [PDict [("actionName", PStr "searchDevices")]; PDict []])]
           (PStr "done")
           [PDict [("actionName", PStr "searchDevices")]; PDict []]
           eq_refl eq_refl eq_refl).
  - discriminate.
  - repeat constructor; eexists; reflexivity.
Defined.

Lemma process_event_ignores_witness :
  process_event demo
    (PDict [("event", PDict (("bot_id", PStr "B1") :: direct_message "hello"))])
    initial_world
  = (Ok tt, initial_world).
Proof.
  apply (process_event_ignores demo
           [("event", PDict (("bot_id", PStr "B1") :: direct_message "hello"))]
           (("bot_id", PStr "B1") :: direct_message "hello")
           initial_world eq_refl eq_refl).
  right. left. discriminate.
Defined.

Lemma process_event_no_authorization_witness :
  process_event demo
    (PDict [("event", PDict [("type", PStr "app_mention");
                             ("text", PStr "<@B1> list macs")]);
            ("authorizations", PList [])])
    initial_world
  = (Raise (Exn "IndexError" "list index out of range"), initial_world).
Proof.
  exact (process_event_no_authorization demo
           [("event", PDict [("type", PStr "app_mention");
                             ("text", PStr "<@B1> list macs")]);
            ("authorizations", PList [])]
           [("type", PStr "app_mention"); ("text", PStr "<@B1> list macs")]
           initial_world eq_refl eq_refl eq_refl).
Defined.

Lemma process_event_production_witness :
  let r := process_event demo_production
             (PDict [("event", PDict (direct_message "list macs"))])
             initial_world in
  fst r = Ok tt /\
  initialized (agent_system (snd r)) = false /\
  exists es,
    Forall is_store_or_log es /\
    trace (snd r)
    = (trace initial_world ++ es ++
       [ELog "ERROR"
          "Error processing DM: HTTP MCP connection not yet implemented";
        EPostMessage (PStr "D1")
          (PStr (sorry_prefix ++ "HTTP MCP connection not yet implemented"))
          None])%list.
Proof.
  exact (process_event_production demo_production
           [("event", PDict (direct_message "list macs"))]
           (direct_message "list macs")
           [("ok", PBool true); ("ts", PStr "1700000100.000100")]
           (PStr "list macs") initial_world
           ltac:(vm_compute; reflexivity) eq_refl eq_refl eq_refl eq_refl
           eq_refl eq_refl eq_refl eq_refl).
Defined.

Lemma stream_loop_call_count_witness :
  let r := bind (stream_loop demo (PStr "D1") (PNone, [])
                   (map content_chunk ["a"; "b"; "c"; "d"; "e"; "f"]))
                (final_update demo (PStr "D1")) initial_world in
  fst r = Ok tt /\
  count_effect is_slack (trace (snd r)) = 2%nat /\
  exists message_ts,
    last (trace (snd r))
    = Some (show_text (PStr "D1") message_ts "abcdef").
Proof.
  destruct (stream_loop_call_count demo (PStr "D1")
              ["a"; "b"; "c"; "d"; "e"; "f"] initial_world
              (fun _ => ex_intro _ _ eq_refl)) as (H1 & H2 & H3).
  split; [exact H1 |]. split; [exact H2 |]. apply H3. discriminate.
Defined.

Lemma process_event_app_mention_witness :
  let r := process_event demo
             (PDict [("event", PDict [("type", PStr "app_mention");
                                      ("user", PStr "U1"); ("channel", PStr "C1");
                                      ("text", PStr "<@B1> list macs")]);
                     ("authorizations", PList [PDict [("user_id", PStr "B1")]])])
             discovered_world in
  fst r = Ok tt /\
  exists es,
    Forall is_store_or_log es /\
    trace (snd r)
    = (trace discovered_world ++ es ++
       [EPostMessage (PStr "C1") (PStr thinking_text) None;
        EAgentInvoke (PStr "list macs") (PStr "U1_C1");
        EPostMessage (PStr "C1") (PStr "done")
          (Some (PList [mrkdwn_section (PStr "done")]))])%list.
Proof.
  exact (process_event_app_mention demo
           [("event", PDict [("type", PStr "app_mention");
                             ("user", PStr "U1"); ("channel", PStr "C1");
                             ("text", PStr "<@B1> list macs")]);
            ("authorizations", PList [PDict [("user_id", PStr "B1")]])]
           [("type", PStr "app_mention"); ("user", PStr "U1");
            ("channel", PStr "C1"); ("text", PStr "<@B1> list macs")]
           [("user_id", PStr "B1")] [("output", PStr "done")]
           [("ok", PBool true); ("ts", PStr "1700000100.000100")]
           [("ok", PBool true); ("ts", PStr "1700000100.000100")]
           [] "<@B1> list macs" discovered_world
           eq_refl eq_refl eq_refl eq_refl ltac:(vm_compute; discriminate)
           eq_refl eq_refl eq_refl eq_refl eq_refl eq_refl).
Defined.

Lemma create_tool_functions_metadata_witness :
  exists fs,
    fst (create_tool_functions discovered_world) = Ok fs /\
    map fn_name fs = ["searchDevices"; "getDeviceDetails"; "updateInventory"] /\
    map fn_doc fs
    = [PStr "Search for devices"; PStr "Details of one device";
       PStr "Force an inventory update"] /\
    trace (snd (create_tool_functions discovered_world)) = trace discovered_world.
Proof.
  exact (create_tool_functions_metadata discovered_world
           (ActionGroup "http://localhost:3000" true
              [("searchDevices", Tool "searchDevices" (PStr "Search for devices"));
               ("getDeviceDetails",
                Tool "getDeviceDetails" (PStr "Details of one device"));
               ("updateInventory",
                Tool "updateInventory" (PStr "Force an inventory update"))])
           eq_refl).
Defined.

Lemma process_request_forgets_session_witness :
  let generated := PStr ("session_" ++ "2023-11-14T22:15:00") in
  let r := process_request demo (PStr "list macs") PNone discovered_world in
  (exists out,
     fst r = Ok (PDict out) /\
     dict_get out "session_id" = Some PNone) /\
  trace (snd r)
  = (trace discovered_world ++ [EAgentInvoke (PStr "list macs") generated])%list /\
  PNone <> generated.
Proof.
  exact (process_request_forgets_session demo (PStr "list macs") PNone
           [("output", PStr "done")] discovered_world
           eq_refl eq_refl eq_refl eq_refl eq_refl).
Defined.

Lemma parse_slack_body_fields_witness :
  let R := demo_parsing [("command", ["/jamf"]); ("text", ["a"; "b"])] in
  exists d,
    parse_slack_body R (PStr "command=%2Fjamf&text=a&text=b") = Ok (PDict d) /\
    dict_keys d = ["command"; "text"] /\
    forall k,
      dict_get d k
      = match dict_get [("command", ["/jamf"]); ("text", ["a"; "b"])] k with
        | Some [x] => Some (PStr x)
        | Some values => Some (PList (map PStr values))
        | None => None
        end.
Proof.
  exact (parse_slack_body_fields
           (demo_parsing [("command", ["/jamf"]); ("text", ["a"; "b"])])
           (PStr "command=%2Fjamf&text=a&text=b")
           [("command", ["/jamf"]); ("text", ["a"; "b"])] eq_refl).
Defined.



Lemma initialize_guard_is_a_flag_witness :
  count_effect is_connection
    (c_trace (snd (conc_run demo ([0; 0]%nat ++ 1%nat :: [1; 0; 1]%nat)%list
                     two_callers)))
  = 2%nat /\
  c_trace (snd (conc_run demo [1; 0; 1]%nat
                  ([TStart; TDone],
                   ConcState true (Some 0%nat) true
                     [ActionGroup "http://localhost:3000" true []]
                     [EStdioConnect])))
  = [EStdioConnect].
Proof.
  destruct (initialize_guard_is_a_flag demo [0; 0]%nat [1; 0; 1]%nat
              ltac:(vm_compute; discriminate)) as [H1 H2].
  split.
  - apply H1.
    + left. reflexivity.
    + intros [H|[H|[]]]; discriminate H.
    + reflexivity.
  - apply H2; [reflexivity | repeat constructor].
Defined.

(** C4, as stated, fails: of two callers that start together, each opens
    its own connection and makes its own handshake. *)
Lemma concurrent_initialize_counterexample :
  let s := snd (conc_run demo [0; 1; 0; 1; 0; 1]%nat two_callers) in
  count_effect is_connection (c_trace s) = 2%nat /\
  count_effect is_handshake (c_trace s) = 2%nat /\
  ~ (count_effect is_handshake (c_trace s) = 1%nat /\
     count_effect is_discovery (c_trace s) = 1%nat).
Proof.
  cbn zeta. split; [vm_compute; reflexivity |].
  split; [vm_compute; reflexivity |].
  intros [H _]. vm_compute in H. discriminate H.
Qed.

Lemma process_slash_command_help_witness :
  fst (process_slash_command demo
         (PDict [("command", PStr "/jamf"); ("text", PStr "  HeLp ");
                 ("user_id", PStr "U1"); ("channel_id", PStr "C1")])
         initial_world)
  = Ok (PDict
          [("response_type", PStr "ephemeral");
           ("text",
            PStr (str_join nl
           ["ðŸ”§ *Jamf Assistant Commands*";
            "";
            "*Device Search:*";
            "â€¢ Find devices by name, serial, user, or location";
            "â€¢ Example: `/jamf find MacBooks in engineering`";
            "";
            "*Device Details:*";
            "â€¢ Get detailed information about a device";
            "â€¢ Example: `/jamf show details for serial ABC123`";
            "";
            "*Device Management:*";
            "â€¢ Update inventory: `/jamf update inventory for device 42`";
            "â€¢ Execute policies: `/jamf run policy " ++ dq
              ++ "Update Software" ++ dq ++ " on device 42`";
            "";
            "*Reports:*";
            "â€¢ Storage: `/jamf show devices with low storage`";
            "â€¢ Compliance: `/jamf check compliance status`";
            "â€¢ OS versions: `/jamf show OS version distribution`"]))]) /\
  fst (process_slash_command demo
         (PDict [("command", PStr "/jamf"); ("text", PStr "   ");
                 ("user_id", PStr "U1"); ("channel_id", PStr "C1")])
         initial_world)
  = Ok (PDict
          [("response_type", PStr "ephemeral");
           ("text",
            PStr (str_join nl
           ["ðŸ‘‹ Hi! I'm your Jamf assistant. Here's how to use me:";
            "";
            "â€¢ `/jamf find devices in conference room` - Search for devices";
            "â€¢ `/jamf show device ABC123` - Get device details";
            "â€¢ `/jamf update inventory for device 42` - Force inventory update";
            "â€¢ `/jamf help` - Show this help message";
            "";
            "I can help you manage Apple devices through natural language!"]))]).
Proof.
  split.
  - apply (proj1 (proj2 (process_slash_command_help demo
                           [("command", PStr "/jamf"); ("text", PStr "  HeLp ");
                            ("user_id", PStr "U1"); ("channel_id", PStr "C1")]
                           "  HeLp " initial_world
                           eq_refl eq_refl
                           (or_intror (eq_refl : lower (strip "  HeLp ") = "help"))))).
    vm_compute. reflexivity.
  - apply (proj1 (process_slash_command_help demo
                    [("command", PStr "/jamf"); ("text", PStr "   ");
                     ("user_id", PStr "U1"); ("channel_id", PStr "C1")]
                    "   " initial_world
                    eq_refl eq_refl
                    (or_introl (eq_refl : strip "   " = "")))).
    vm_compute. reflexivity.
Defined.

Lemma process_slash_command_always_replies_witness :
  let r := process_slash_command demo (PDict (slash_command "/jamf" "list macs"))
             initial_world in
  (forall e, fst r <> Raise e) /\
  (forall v, fst r = Ok v ->
   exists reply,
     v = PDict reply /\
     (dict_get reply "response_type" = Some (PStr "in_channel") \/
      reply = [("response_type", PStr "ephemeral"); ("text", PStr usage_text)] \/
      reply = [("response_type", PStr "ephemeral"); ("text", PStr help_text)] \/
      exists e,
        reply = [("response_type", PStr "ephemeral");
                 ("text", PStr (error_request_prefix ++ exn_str e))] /\
        last (trace (snd r))
        = Some (ELog "ERROR" ("Error processing command: " ++ exn_str e)))).
Proof.
  exact (process_slash_command_always_replies demo
           (slash_command "/jamf" "list macs") "list macs" initial_world
           eq_refl eq_refl).
Defined.

Lemma initialize_on_closed_session_witness :
  JamfAgentSystem_initialize demo initial_world
  = (Raise (Exn "ClosedResourceError" ""),
     World ∅ 0 0 0
       (AgentSystem false
          (Some (ActionGroup "http://localhost:3000" true []))
          false)
       [] [EStdioConnect; ESessionInitialize; EStdioClose; EListTools]).
Proof.
  apply (initialize_on_closed_session demo initial_world).
  - vm_compute. discriminate.
  - reflexivity.
  - reflexivity.
  - reflexivity.
Defined.

Lemma process_request_initializes_again_witness :
  let attempt := [EStdioConnect; ESessionInitialize; EStdioClose; EListTools] in
  let r1 := process_request demo (PStr "list macs") (PStr "U1_C1")
              initial_world in
  let r2 := process_request demo (PStr "and the phones") (PStr "U1_C1")
              (snd r1) in
  fst r1 = Raise (Exn "ClosedResourceError" "") /\
  fst r2 = Raise (Exn "ClosedResourceError" "") /\
  trace (snd r1) = attempt /\
  trace (snd r2) = (attempt ++ attempt)%list.
Proof.
  apply (process_request_initializes_again demo
           (PStr "list macs") (PStr "U1_C1") (PStr "and the phones")
           (PStr "U1_C1") initial_world);
    try reflexivity.
  vm_compute. discriminate.
Defined.

Lemma direct_message_stream_breaks_witness :
  let R := demo_breaking in
  let r := process_event R (PDict [("event", PDict (direct_message "list macs"))])
             discovered_world in
  exists es,
    trace (snd r) = (trace discovered_world ++ es)%list /\
    fst r = Ok tt /\
    count_effect is_slack es = 2%nat /\
    last es
    = Some (EPostMessage (PStr "D1") (PStr (sorry_prefix ++ "stream closed")) None).
Proof.
  exact (direct_message_stream_breaks demo_breaking
           [("event", PDict (direct_message "list macs"))]
           (direct_message "list macs") (PStr "list macs")
           (map content_chunk ["a"; "b"; "c"; "d"; "e"; "f"; "g"])
           ["a"; "b"; "c"; "d"; "e"; "f"; "g"]
           (Exception (Exn "RuntimeError" "stream closed")) discovered_world
           eq_refl eq_refl eq_refl eq_refl eq_refl eq_refl eq_refl eq_refl
           eq_refl
           ltac:(repeat constructor; eexists; reflexivity)
           eq_refl
           (fun _ => ex_intro _ _ eq_refl)).
Defined.
